(* ===== verification/_CoqProject ===== *)
-Q . S2P
Prelude.v
PyText.v
PyFloat.v
Sqlite.v
EventStore.v
Concurrent.v
ConcurrentInit.v
Streamlit.v
Dates.v
DateOrder.v
Fitness.v
Mood.v
Reminder.v
Dashboard.v
Session.v
