(* ===== verification/Prelude.v ===== *)
(** * A verification development for the AI Coach dashboard

    The program is one Streamlit script, [src/ai_coach_dashboard.py]
    (111 lines).  Streamlit re-runs the whole script on every user
    interaction; the only state that survives a run is the SQLite file
    [events.db].  A run calls [init_db] (line 31), renders a title and a
    radio, and for "Personal Coaching" dispatches on a selectbox to
    [fitness_tracker], [mental_wellness] or [birthday_reminder]; the last
    one calls [save_event].  The files, in dependency order:

    - [Prelude] (this file): the Python exception type [py_exc], the
      state-and-exception monad [py S A = S -> outcome A * S] in which every
      stateful function of the script is written (notation [x <- c ;; k]
      in [py_scope]; an exception keeps the mutations made before it),
      [py_repeat] ([for _ in range(n)]), 64-bit bounds
      [INT64_MIN]/[INT64_MAX], the hint databases [coach] and [coach_rw],
      and shared string lemmas.
    - [PyText] (Module [PyText]): Python's [str] of an [int]
      ([str_of_int], [digits_of] with fuel [digit_fuel n = log2 n + 1],
      enough because a number below [2^(k)] has at most [k] decimal digits),
      [zfill], and the digit parser with the round trip
      [parse_int (str_of_int z) = Some z].  [digits_ref] is the same digit
      loop by well-founded recursion (Equations, measure [Z.to_nat n]);
      the fuel version agrees with it for every fuel covering the digits.
    - [PyFloat] (Module [PyFloat]): nonnegative binary64 values
      [mant * 2^exp], [round53] (round half even to 53 bits), [fmul],
      the literal [0.04], and the [:.2f] format ([hundredths], [fixed2]).
      The error lemma [round53_spec] bounds the rounding by half an ulp;
      [mul_0_04_hundredths] shows [hundredths (float n * 0.04) = 4 n] for
      [0 <= n <= 9*10^14]: the error budget [2 * (50 * 2^s + 12 n)] stays
      below [2^57] exactly up to about [9.48*10^14].
    - [Sqlite] (Module [Sqlite]): what the script asks of SQLite and of the
      [sqlite3] module: values, column affinity, the catalog
      ([database]: tables and the [sqlite_sequence] counters),
      [CREATE TABLE IF NOT EXISTS] ([exec_create]), [INSERT] ([prepare],
      [bind_values] with [OverflowError], [choose_rowid]/[next_rowid]
      with AUTOINCREMENT and [SQLITE_FULL] past [2^63-1], [row_values]),
      and connections ([world] = file and open-connection count;
      [connect], [cursor], [execute] opening the implicit transaction
      before DML, [commit], [close] rolling back an open transaction).
    - [EventStore] (Module [EventStore]): [init_db] (lines 19-29) and
      [save_event] (lines 66-72) over the world; the spec's read operation
      [list_events] (absent from the source, modelled from the spec); the
      invariant [store_ok] (schema as created, rowids [1..n], counter [n]);
      the abstraction [abs_world w evs] and the spec's [spec_save]; the
      typeclass [EventStoreContract init save absr], the interface the
      dashboard relies on (init keeps a store or creates an empty one;
      save appends [spec_save], or changes nothing once the rowids are
      exhausted), with the instance [sqlite_event_store] for [init_db],
      [save_event] and [abs_world].
    - [Concurrent] (Module [Concurrent]): Streamlit runs every browser
      session in a thread of its own, so the [init_db] call of every
      rerun and the [save_event] calls of several sessions run at once,
      each on its own connection.  A [thread] is
      one call at a program counter [pc]; [thread_step] runs its next
      statement with the functions of [Sqlite]; [cstep] interleaves the
      threads under SQLite's write lock ([holds_lock], [lock_taken]): a
      writer waits while another connection has an open transaction,
      or raises [busy_error] when the 5-second busy timeout expires.
      The invariant [inv] (one lock holder, each transaction on the
      current file, the file equal to the spec's saves of the committed
      calls in commit order, [w_open] counting the open connections) is
      proved by rule induction over the interleavings.
    - [ConcurrentInit] (Module [ConcurrentInit]): the first runs of [n]
      sessions on a machine without [events.db] ([first_runs]): [n]
      [init_db] threads that each create the file and run [CREATE
      TABLE IF NOT EXISTS], interleaved by [Concurrent.cstep].  Since
      the [sqlite3] module opens no implicit transaction before DDL
      ([Sqlite.is_dml]), a [CREATE] runs in autocommit and never holds
      the lock between statements; the invariant [first_inv] says the
      file is absent, empty or [db_created], and is [db_created] once a
      call has run its statement.
    - [Streamlit] (Module [Streamlit]): page elements [st_elem], the run
      state [app] (world and page), [emit], [on_world], [keeps_world] for
      page-only procedures, and [appends], the frame property that a
      procedure only appends to the page (tactic [solve_appends]).
    - [Dates] (Module [Dates]): [datetime.date] validity and
      [strftime("%Y-%m-%d")] ([strftime_ymd]) with the parser [parse_ymd].
    - [DateOrder] (Module [DateOrder]): the order in which the stored
      texts compare ([String.compare], code point by code point, as
      Python's [<] and SQLite's [ORDER BY] on ASCII text) against the
      order of [datetime.date] ([date_compare]), through the values of
      fixed-width digit strings ([dval], [compare_digits]).
    - [Fitness] (Module [Fitness]): [fitness_tracker] (lines 34-46).
    - [Mood] (Module [Mood], Section [WithModel]): [label_map] and
      [mental_wellness] (lines 12-16, 49-63); the pretrained pipeline is
      the section variable [sentiment_model].
    - [Reminder] (Module [Reminder]): [birthday_reminder] (lines 74-84),
      the widget contract [form_ok] and the event check [event_okb].
    - [Dashboard] (Module [Dashboard]): the script body [script_run]
      (lines 31, 87-111), the widget values [ui_inputs] with their
      contract [ui_ok], one rerun [world_after], and [reachable], the
      worlds of any sequence of reruns from a machine without [events.db];
      [page_header] and [page_footer], what every run renders around
      the branch.
      Section [AgainstContract] states the store invariant [store_inv]
      for any [EventStoreContract] and proves it preserved by [init] and
      by a form save; [dash_inv] is its instance for SQLite.  The
      outcome lemmas ([script_run_outcome]) reduce the result of a run to
      that of the form's [save_event].
    - [Session] (Module [Session]): a list of reruns, first run first
      ([run_trace], [session] from a machine without [events.db]) and the
      spec's event list for the same runs ([spec_step], [spec_trace]).
      [Session] reads several runs one after the other; [Concurrent]
      and [ConcurrentInit] interleave the database calls of runs of
      different sessions statement by statement.

    What the theorems show (claim ids C1..C32 in the doc comments):
    - the whole program (C1, [Dashboard.reachable_invariant]): every
      reachable world is untouched or holds a well-formed store whose
      events are valid form entries, with no connection left open unless
      the rowids are exhausted;
    - the store refines the spec: [save_event] appends the spec's event
      with the next identity (C2), what is saved reads back exactly (C3,
      an out-of-range reminder included), no deduplication
      (C12); [init_db] is idempotent (C4),
      keeps the data (C7) and creates an empty store (C8); [init_db]
      called [n >= 1] times is one call (C4); whatever values bind, the
      appended event keeps its columns' storage classes (C25);
    - error paths and bounds of the store: missing table (C9), counter
      at [2^63-1] (C10), reminder outside 64 bits (C11); in each the file
      is unchanged and the connection stays open;
    - the pages: the form stores one valid event (C5) or nothing (C19);
      the step counter shows the exact calories below [9*10^14] steps
      (C6), the warning carries the true shortfall (C16), and past that
      bound the value shown at [2^53-1] is inexact (the lemma
      [Fitness.fitness_calories_inexact_large], behind a finding);
      the mood page for the three labels (C13), an unknown label (C14),
      empty text (C17), an empty pipeline answer (C18); dates round-trip
      through their text (C15) and their texts sort chronologically for
      four-digit years (C24); the digit loop of [str] terminates within
      its fuel and equals the well-founded loop (the lemma
      [PyText.digits_of_terminates]);
    - a whole run: it raises nothing when the pipeline always answers
      and the store has room (C20); the exact page of a Professional
      Coaching run (C21); an empty pipeline answer on the mood page
      makes the whole run raise, and the page has no footer (C26); before any click a
      Personal Coaching run renders exactly the chosen category's
      widgets between the category selectbox and the footer (C32);
    - sessions: a session refines the spec's store, each submitted
      form appended in order, no connection left open (C22); every event
      count up to the rowid limit is reached (C23);
    - concurrent sessions: at most one connection holds the write lock
      and the only error is the busy timeout (C27); once all calls end,
      the file holds the spec's saves of the calls that returned in
      commit order, with one connection left open per call that raised
      (C28); the lock never deadlocks, every running call can be taken
      to a normal return (C29); every interleaving is finite (the
      theorem [Concurrent.concurrent_terminates]); the
      first runs of [n] sessions on a machine without [events.db] never
      raise, create the table once, and have it in place as soon as one
      [init_db] has run its statement (C30); every interleaving of them
      that cannot be extended ends with every call returned, an empty
      well-formed store and no connection open (C31).

    Not modelled: the Streamlit front end beyond element order and widget
    values (layout, the browser), the transformers pipeline (any
    function), the unused [plyer] import, SQL text parsing, the SQLite
    file format, floats outside nonnegative normal values, [%Y] below
    year 1000 on glibc.  Failures of the file system ([sqlite3.connect]
    unable to open the file, a full disk, I/O errors), which the spec
    calls StorageUnavailable, are not modelled: the code has no handler
    for them, and modelling them faithfully needs the state of the file
    system in the world, which nothing in the code reads; the busy
    timeout is the one storage error the code can meet under normal
    operation, and [Concurrent] models it.  Time is not modelled: the
    busy timeout is a nondeterministic choice of the scheduler.  A
    connection left open by an exception stays counted in [w_open]
    for good; CPython would close it once the exception and its
    traceback are released, which the model does not follow.

    Bounds and fuel: [digit_fuel n = log2 n + 1] digits suffice since
    [n < 2^(log2 n + 1) <= 10^(log2 n + 1)] ([digits_of_terminates]); the
    float lemmas hold up to [9*10^14] steps, past which
    [fitness_calories_inexact_large] shows the printed value drifts;
    the store claims assume fewer than [2^63-1] events, the point at
    which AUTOINCREMENT raises [SQLITE_FULL] (C10).

    The model covers every line of the script but the imports, the
    comments and the construction of the pipeline (line 11); the parts
    left partly modelled (the SQLite engine, Python floats, the
    Streamlit front end) are modelled as far as the script uses them,
    and what remains of them is behaviour the script never reaches.
*)

From stdpp Require Export base list strings gmap.
From Stdlib Require Export ZArith Lia Ascii.

Declare Scope py_scope.
Delimit Scope py_scope with py.
Open Scope Z_scope.

(** ** Python exceptions raised by the code or the libraries it calls *)

Inductive py_exc :=
  | OperationalError (msg : string)   (* sqlite3.OperationalError *)
  | OverflowError (msg : string)      (* int too large for an SQLite INTEGER *)
  | ProgrammingError (msg : string)   (* sqlite3.ProgrammingError *)
  | IntegrityError (msg : string)     (* sqlite3.IntegrityError *)
  | IndexError (msg : string)
  | KeyError (key : string).

#[export] Instance py_exc_eq_dec : EqDecision py_exc.
Proof. solve_decision. Defined.

(** ** A state and exception monad

    A Python function that mutates a state [S] and may raise returns the
    outcome and the state reached; an exception does not undo the
    mutations made before it was raised. *)

Inductive outcome (A : Type) :=
  | Ret (a : A)
  | Exc (e : py_exc).
Arguments Ret {A} a.
Arguments Exc {A} e.

Definition py (S A : Type) := S -> outcome A * S.

Section PyMonad.
Context {S : Type}.

Definition py_ret {A} (a : A) : py S A := fun s => (Ret a, s).

Definition py_bind {A B} (c : py S A) (k : A -> py S B) : py S B :=
  fun s => match c s with
           | (Ret a, s') => k a s'
           | (Exc e, s') => (Exc e, s')
           end.

Definition py_raise {A} (e : py_exc) : py S A := fun s => (Exc e, s).
Definition py_get : py S S := fun s => (Ret s, s).
Definition py_put (s : S) : py S unit := fun _ => (Ret tt, s).
Definition py_modify (f : S -> S) : py S unit := fun s => (Ret tt, f s).

(** [for _ in range(n): c()] *)
Fixpoint py_repeat (n : nat) (c : py S unit) : py S unit :=
  match n with
  | O => py_ret tt
  | Datatypes.S k => py_bind c (fun _ => py_repeat k c)
  end.
End PyMonad.

Notation "x <- c ;; k" := (py_bind c (fun x => k))
  (at level 100, c at next level, right associativity) : py_scope.
Notation "c ;; k" := (py_bind c (fun _ => k))
  (at level 100, right associativity) : py_scope.

(** ** 64-bit integers (SQLite INTEGER, rowids) *)

Definition INT64_MAX : Z := 2 ^ 63 - 1.
Definition INT64_MIN : Z := - 2 ^ 63.
Definition in_int64 (z : Z) : bool := (INT64_MIN <=? z) && (z <=? INT64_MAX).

Create HintDb coach discriminated.
Create Rewrite HintDb coach_rw.

(** ** Monad lemmas *)

Section PyMonadLemmas.
Context {S : Type}.

Lemma py_bind_ret_l {A B} (a : A) (k : A -> py S B) s :
  py_bind (py_ret a) k s = k a s.
Proof. reflexivity. Qed.

Lemma py_bind_assoc {A B C} (c : py S A) (f : A -> py S B) (g : B -> py S C) s :
  py_bind (py_bind c f) g s = py_bind c (fun a => py_bind (f a) g) s.
Proof. unfold py_bind. by destruct (c s) as [[a|e] s']. Qed.

Lemma py_bind_Ret {A B} (c : py S A) (k : A -> py S B) s a s' :
  c s = (Ret a, s') -> py_bind c k s = k a s'.
Proof. unfold py_bind. by intros ->. Qed.

Lemma py_bind_Exc {A B} (c : py S A) (k : A -> py S B) s e s' :
  c s = (Exc e, s') -> py_bind c k s = (Exc e, s').
Proof. unfold py_bind. by intros ->. Qed.
End PyMonadLemmas.

#[export] Hint Rewrite @py_bind_ret_l @py_bind_assoc : coach_rw.

(** ** Shared lemmas *)

Lemma in_int64_spec z : in_int64 z = true <-> INT64_MIN <= z <= INT64_MAX.
Proof. unfold in_int64. rewrite andb_true_iff, !Z.leb_le. done. Qed.

Lemma INT64_MAX_pos : 0 < INT64_MAX.
Proof. unfold INT64_MAX. lia. Qed.
#[export] Hint Resolve INT64_MAX_pos : coach.

Lemma list_max_app_Z (l : list Z) x :
  foldr Z.max 0 (l ++ [x]) = Z.max (foldr Z.max 0 l) x.
Proof. induction l as [|y l IH]; simpl; [lia|]. rewrite IH. lia. Qed.

Lemma str_app_assoc (s1 s2 s3 : string) :
  String.append s1 (String.append s2 s3) = String.append (String.append s1 s2) s3.
Proof.
  induction s1 as [|c s1 IH]; [done|].
  change (String c (String.append s1 (String.append s2 s3)) =
          String c (String.append (String.append s1 s2) s3)). by rewrite IH.
Qed.

Lemma str_length_app (s1 s2 : string) :
  String.length (String.append s1 s2) = (String.length s1 + String.length s2)%nat.
Proof.
  induction s1 as [|c s1 IH]; [done|].
  change (S (String.length (String.append s1 s2)) = S (String.length s1 + String.length s2)).
  by rewrite IH.
Qed.

Lemma str_app_nil_r (s : string) : String.append s EmptyString = s.
Proof.
  induction s as [|c s IH]; [done|].
  change (String c (String.append s EmptyString) = String c s). by rewrite IH.
Qed.

(** Repeating a procedure that returns normally and reaches a state it
    then keeps gives the result of one call. *)
Lemma py_repeat_fixed {S} (c : py S unit) s' :
  c s' = (Ret tt, s') ->
  forall n s, (1 <= n)%nat -> c s = (Ret tt, s') -> py_repeat n c s = (Ret tt, s').
Proof.
  intros Hfix n. induction n as [|[|k] IH]; intros s Hn Hs; [lia| |];
    cbn [py_repeat]; unfold py_bind; rewrite Hs; [done|].
  apply IH; [lia|done].
Qed.

(** Tactic: case on the outcome of a [py] computation already run. *)
Ltac py_step H :=
  first [ rewrite (py_bind_Ret _ _ _ _ _ H) | rewrite (py_bind_Exc _ _ _ _ _ H) ].
