(* ===== verification/PyText.v ===== *)
(** * Python text of integers

    Python's [str] of an [int] (used by the f-strings of
    [fitness_tracker] and by SQLite when an integer is stored in a TEXT
    column), zero padding as [strftime] does it for [%m] and [%d], and
    the parser of decimal integer literals with its round trip. *)

From S2P Require Import Prelude.
From Equations Require Import Equations.

Module PyText.

(** ASCII digit of a value in [0, 9]. *)
Definition digit_char (d : Z) : Ascii.ascii :=
  Ascii.ascii_of_nat (48 + Z.to_nat d).

(** Value of an ASCII digit, [None] for any other character. *)
Definition digit_val (c : Ascii.ascii) : option Z :=
  let n := Ascii.nat_of_ascii c in
  if (48 <=? n)%nat && (n <=? 57)%nat then Some (Z.of_nat n - 48) else None.

#[local] Arguments digit_char : simpl never.
#[local] Arguments digit_val : simpl never.

(** Decimal digits of [n >= 0] prepended to [acc], most significant first;
    [fuel] bounds the number of digits. *)
Fixpoint digits_of (fuel : nat) (n : Z) (acc : string) : string :=
  match fuel with
  | O => acc
  | S f =>
      let acc' := String (digit_char (n mod 10)) acc in
      if n <? 10 then acc' else digits_of f (n / 10) acc'
  end.

(** Enough fuel for [n]: a number below [2^(log2 n + 1)] has at most
    [log2 n + 1] decimal digits. *)
Definition digit_fuel (n : Z) : nat := Z.to_nat (Z.log2 n + 1).

(** The digit loop as well-founded recursion on [n]: the reference the
    fuel-bounded [digits_of] is compared with.  Each step divides by 10,
    so the measure [Z.to_nat n] decreases. *)
Equations? digits_ref (n : Z) (acc : string) : string by wf (Z.to_nat n) lt :=
  digits_ref n acc with Z_lt_dec n 10 := {
    | left _ => String (digit_char (n mod 10)) acc;
    | right _ => digits_ref (n / 10) (String (digit_char (n mod 10)) acc) }.
Proof.
  assert (n / 10 < n) by (apply Z.div_lt; lia).
  assert (0 <= n / 10) by (apply Z.div_pos; lia). lia.
Defined.

(** [str(n)] for [n >= 0]. *)
Definition str_of_nat (n : Z) : string := digits_of (digit_fuel n) n ""%string.

(** [str(z)] for any Python [int]. *)
Definition str_of_int (z : Z) : string :=
  if z <? 0 then ("-" ++ str_of_nat (- z))%string else str_of_nat z.

(** Accumulating parser of a run of digits. *)
Fixpoint parse_digits (s : string) (acc : Z) : option Z :=
  match s with
  | EmptyString => Some acc
  | String c r =>
      match digit_val c with
      | Some d => parse_digits r (acc * 10 + d)
      | None => None
      end
  end.

(** A nonempty run of digits. *)
Definition parse_nat (s : string) : option Z :=
  match s with
  | EmptyString => None
  | _ => parse_digits s 0
  end.

(** An integer literal: an optional sign, then digits. *)
Definition parse_int (s : string) : option Z :=
  match s with
  | String "-"%char r => Z.opp <$> parse_nat r
  | String "+"%char r => parse_nat r
  | _ => parse_nat s
  end.

(** Left padding with ['0'] to width [w], as [%02d] and [%04d] print. *)
Definition zfill (w : nat) (s : string) : string :=
  String.append (String.concat ""%string (repeat "0"%string (w - String.length s))) s.

(** ** Lemmas *)

Lemma digit_val_char d : 0 <= d < 10 -> digit_val (digit_char d) = Some d.
Proof.
  intros Hd. unfold digit_val, digit_char.
  rewrite Ascii.nat_ascii_embedding by lia.
  replace ((48 <=? 48 + Z.to_nat d)%nat && (48 + Z.to_nat d <=? 57)%nat) with true
    by (symmetry; apply andb_true_iff; split; apply Nat.leb_le; lia).
  f_equal. lia.
Qed.

Lemma digit_val_range c d : digit_val c = Some d -> 0 <= d < 10.
Proof.
  unfold digit_val. destruct (_ && _) eqn:E; [|done].
  apply andb_true_iff in E as [E1 E2]. apply Nat.leb_le in E1, E2.
  intros [= <-]. lia.
Qed.

(** Parsing what [digits_of] printed reads back the number, whatever the
    accumulator already holds. *)
Lemma parse_digits_of fuel n acc a :
  0 <= n < 10 ^ Z.of_nat fuel ->
  exists m, parse_digits (digits_of fuel n acc) a = parse_digits acc (a * m + n).
Proof.
  revert n acc a. induction fuel as [|f IH]; intros n acc a Hn.
  { exists 1. cbn [digits_of]. replace n with 0 by (simpl in Hn; lia). f_equal. lia. }
  cbn [digits_of].
  assert (Hm : 0 <= n mod 10 < 10) by (apply Z.mod_pos_bound; lia).
  destruct (Z.ltb_spec n 10) as [Hlt|Hge].
  - exists 10. cbn [parse_digits]. rewrite digit_val_char by lia. rewrite Z.mod_small by lia. reflexivity.
  - assert (Hq : 0 <= n / 10 < 10 ^ Z.of_nat f).
    { rewrite Nat2Z.inj_succ, Z.pow_succ_r in Hn by lia.
      split; [apply Z.div_pos; lia|]. apply Z.div_lt_upper_bound; lia. }
    destruct (IH (n / 10) (String (digit_char (n mod 10)) acc) a Hq) as [m Hm'].
    exists (m * 10). rewrite Hm'. cbn [parse_digits]. rewrite digit_val_char by lia.
    f_equal. pose proof (Z.div_mod n 10). lia.
Qed.

Lemma digit_fuel_enough n : 0 <= n -> 0 <= n < 10 ^ Z.of_nat (digit_fuel n).
Proof.
  intros Hn. unfold digit_fuel. split; [done|].
  rewrite Z2Nat.id by (pose proof (Z.log2_nonneg n); lia).
  destruct (Z.eq_dec n 0) as [->|Hn0]; [simpl; lia|].
  apply Z.lt_le_trans with (2 ^ (Z.log2 n + 1)).
  - apply Z.log2_spec. lia.
  - apply Z.pow_le_mono_l. lia.
Qed.

Lemma digits_of_nonempty fuel n acc :
  (0 < fuel)%nat -> digits_of fuel n acc <> ""%string.
Proof.
  revert n acc. induction fuel as [|f IH]; intros n acc Hf; [lia|].
  cbn [digits_of]. destruct (n <? 10); [done|].
  destruct f; [done|]. apply IH. lia.
Qed.

Lemma str_of_nat_nonempty n : 0 <= n -> str_of_nat n <> ""%string.
Proof.
  intros Hn. apply digits_of_nonempty. unfold digit_fuel.
  pose proof (Z.log2_nonneg n). lia.
Qed.

Lemma parse_nat_nonempty s : s <> ""%string -> parse_nat s = parse_digits s 0.
Proof. by destruct s. Qed.

Lemma parse_nat_str n : 0 <= n -> parse_nat (str_of_nat n) = Some n.
Proof.
  intros Hn. rewrite parse_nat_nonempty by (by apply str_of_nat_nonempty).
  destruct (parse_digits_of (digit_fuel n) n ""%string 0 (digit_fuel_enough n Hn)) as [m Hm].
  unfold str_of_nat. rewrite Hm. cbn [parse_digits]. f_equal.
Qed.

(** The first character [str_of_nat] prints is a digit. *)
Lemma str_of_nat_head n :
  0 <= n -> exists c r, str_of_nat n = String c r /\ is_Some (digit_val c).
Proof.
  intros Hn. pose proof (parse_nat_str n Hn) as Hp.
  pose proof (str_of_nat_nonempty n Hn).
  destruct (str_of_nat n) as [|c r]; [done|]. exists c, r. split; [done|].
  cbn [parse_nat parse_digits] in Hp. destruct (digit_val c); [by eexists|done].
Qed.

(** A digit is neither sign: [parse_int] reads it as a plain number. *)
Lemma parse_int_digit c r :
  is_Some (digit_val c) -> parse_int (String c r) = parse_nat (String c r).
Proof.
  intros H. destruct c as [[] [] [] [] [] [] [] []]; try reflexivity;
    vm_compute in H; destruct H; discriminate.
Qed.

Lemma parse_int_str z : parse_int (str_of_int z) = Some z.
Proof.
  unfold str_of_int. destruct (Z.ltb_spec z 0).
  - change (Z.opp <$> parse_nat (str_of_nat (- z)) = Some z).
    rewrite parse_nat_str by lia. cbn. f_equal. lia.
  - destruct (str_of_nat_head z) as (c & r & E & Hc); [lia|].
    rewrite E, parse_int_digit, <- E by done. apply parse_nat_str. lia.
Qed.

(** The fuel-bounded loop computes the reference whenever the fuel is
    positive and [n] has at most [fuel] digits. *)
Lemma digits_of_ref fuel n acc :
  (0 < fuel)%nat -> 0 <= n < 10 ^ Z.of_nat fuel -> digits_of fuel n acc = digits_ref n acc.
Proof.
  revert fuel. funelim (digits_ref n acc); intros [|f] Hf Hn; try lia; cbn [digits_of].
  - by destruct (Z.ltb_spec n 10); [|lia].
  - destruct (Z.ltb_spec n 10) as [|Hge]; [lia|].
    rewrite Nat2Z.inj_succ, Z.pow_succ_r in Hn by lia.
    destruct f as [|f]; [cbn in Hn; lia|].
    apply H; [lia|]. split; [apply Z.div_pos; lia|]. apply Z.div_lt_upper_bound; lia.
Qed.

Lemma digit_fuel_pos n : (0 < digit_fuel n)%nat.
Proof. unfold digit_fuel. pose proof (Z.log2_nonneg n). lia. Qed.

Lemma pow10_fuel_mono n f1 f2 : (f1 <= f2)%nat -> n < 10 ^ Z.of_nat f1 -> n < 10 ^ Z.of_nat f2.
Proof. intros Hf Hn. apply Z.lt_le_trans with (1 := Hn). apply Z.pow_le_mono_r; lia. Qed.

Section TextProperties.

(** Termination of the digit loop: for [n >= 0] the fuel
    [digit_fuel n] is enough, and any larger fuel gives the same text,
    the one the well-founded loop [digits_ref] computes; so [str(n)]
    never stops early and its text does not depend on the bound. *)
Theorem digits_of_terminates n fuel acc :
  0 <= n -> (digit_fuel n <= fuel)%nat ->
  digits_of fuel n acc = digits_ref n acc /\ digits_of (digit_fuel n) n acc = digits_ref n acc.
Proof.
  intros Hn Hf. pose proof (digit_fuel_enough n Hn) as [_ He]. pose proof (digit_fuel_pos n).
  split; apply digits_of_ref; try lia.
  split; [done|]. by apply (pow10_fuel_mono _ (digit_fuel n)).
Qed.

End TextProperties.

End PyText.
