(* ===== verification/PyFloat.v ===== *)
(** * Python floats as the fitness tracker uses them

    [steps * CALORIES_PER_STEP] converts the [int] to a binary64 [float],
    multiplies by the double nearest to [0.04] with round-half-even, and
    [f"{x:.2f}"] prints the exact binary value rounded half-even to two
    decimals.  Nonnegative finite doubles are [mant * 2^exp]; rounding
    keeps 53 significant bits.  Overflow to infinity and subnormals are
    not modelled: the values here stay far from both. *)

From S2P Require Import Prelude PyText.

Module PyFloat.

Import PyText.

Record float64 := mk_float { f_mant : Z; f_exp : Z }.

(** Round [n * 2^e] ([n >= 0]) to 53 significant bits, ties to even. *)
Definition round53 (n e : Z) : float64 :=
  if n <? 2 ^ 53 then mk_float n e
  else
    let s := Z.log2 n - 52 in
    let q := Z.shiftr n s in
    let r := Z.land n (Z.ones s) in
    let half := 2 ^ (s - 1) in
    let q' := if (half <? r) || ((r =? half) && Z.odd q) then q + 1 else q in
    mk_float q' (e + s).

(** [float(n)] for an [int n >= 0]. *)
Definition float_of_int (n : Z) : float64 := round53 n 0.

(** [a * b] on nonnegative doubles. *)
Definition fmul (a b : float64) : float64 :=
  round53 (f_mant a * f_mant b) (f_exp a + f_exp b).

(** The literal [0.04]: the double nearest to it. *)
Definition float_0_04 : float64 := mk_float 5764607523034235 (-57).

(** [num / den] rounded half to even ([den > 0]). *)
Definition round_div_half_even (num den : Z) : Z :=
  let q := num / den in
  let r := num mod den in
  if (den <? 2 * r) || ((2 * r =? den) && Z.odd q) then q + 1 else q.

(** The value in hundredths that [:.2f] prints. *)
Definition hundredths (f : float64) : Z :=
  if 0 <=? f_exp f then f_mant f * 2 ^ f_exp f * 100
  else round_div_half_even (f_mant f * 100) (2 ^ (- f_exp f)).

(** A number of hundredths written with two decimals. *)
Definition fixed2 (h : Z) : string :=
  (str_of_nat (h / 100) ++ "." ++ zfill 2 (str_of_nat (h mod 100)))%string.

(** [format(x, ".2f")] for [x >= 0]. *)
Definition format_2f (f : float64) : string := fixed2 (hundredths f).

(** ** Lemmas *)

Lemma float_0_04_nearest :
  100 * f_mant float_0_04 = 4 * 2 ^ 57 + 12 /\ 2 ^ 52 <= f_mant float_0_04 < 2 ^ 53.
Proof. cbn. lia. Qed.

(** Rounding error of [round53]: the result [q * 2^(e+s)] is within half
    a unit of the last place, [2^s], of [n * 2^e]; when [s > 0], [n] has at
    least [53 + s] bits. *)
Lemma round53_spec n e :
  0 <= n ->
  exists q s, round53 n e = mk_float q (e + s) /\ 0 <= s /\
    2 * Z.abs (q * 2 ^ s - n) <= 2 ^ s /\
    (s = 0 \/ 2 ^ (s + 52) <= n) /\ (n < 2 ^ 103 -> s <= 50).
Proof.
  intros Hn. unfold round53. destruct (Z.ltb_spec n (2 ^ 53)) as [Hlt|Hge].
  { exists n, 0. rewrite Z.add_0_r. repeat split; try lia. }
  assert (Hlog : 53 <= Z.log2 n).
  { apply Z.log2_le_pow2; lia. }
  set (s := Z.log2 n - 52).
  assert (Hs : 1 <= s) by lia.
  assert (HP : 0 < 2 ^ s) by (apply Z.pow_pos_nonneg; lia).
  rewrite Z.shiftr_div_pow2, Z.land_ones by lia.
  pose proof (Z.div_mod n (2 ^ s) ltac:(lia)) as Hdm.
  pose proof (Z.mod_pos_bound n (2 ^ s) HP) as Hr.
  assert (Hhalf : 2 ^ s = 2 * 2 ^ (s - 1)).
  { rewrite <- Z.pow_succ_r by lia. f_equal. lia. }
  assert (Hbits : 2 ^ (s + 52) <= n).
  { replace (s + 52) with (Z.log2 n) by lia. apply Z.log2_spec. lia. }
  assert (Hsmall : n < 2 ^ 103 -> s <= 50).
  { intros H. assert (Z.log2 n < 103) by (apply Z.log2_lt_pow2; lia). lia. }
  destruct ((2 ^ (s - 1) <? n mod 2 ^ s) || _) eqn:Hc.
  - exists (n / 2 ^ s + 1), s. split; [done|]. split; [lia|].
    split; [|split; [by right|done]].
    apply orb_true_iff in Hc as [Hc|Hc].
    + apply Z.ltb_lt in Hc. lia.
    + apply andb_true_iff in Hc as [Hc _]. apply Z.eqb_eq in Hc. lia.
  - exists (n / 2 ^ s), s. split; [done|]. split; [lia|].
    split; [|split; [by right|done]].
    apply orb_false_iff in Hc as [Hc _]. apply Z.ltb_ge in Hc. lia.
Qed.

(** Half-even division returns [k] whenever [num / den] is within less
    than half of [k]. *)
Lemma round_div_half_even_near num den k :
  0 < den -> 2 * Z.abs (num - k * den) < den -> round_div_half_even num den = k.
Proof.
  intros Hd Hk. unfold round_div_half_even.
  pose proof (Z.div_mod num den ltac:(lia)) as Hdm.
  pose proof (Z.mod_pos_bound num den Hd) as Hr.
  assert (Hq : num / den = k \/ num / den = k - 1) by nia.
  destruct Hq as [Hq|Hq]; rewrite Hq in *.
  - replace ((den <? 2 * (num mod den)) || _) with false; [done|].
    symmetry. apply orb_false_iff. split.
    + apply Z.ltb_ge. lia.
    + apply andb_false_iff. left. apply Z.eqb_neq. lia.
  - replace ((den <? 2 * (num mod den)) || _) with true; [lia|].
    symmetry. apply orb_true_iff. left. apply Z.ltb_lt. lia.
Qed.

Lemma float_of_int_exact n : 0 <= n < 2 ^ 53 -> float_of_int n = mk_float n 0.
Proof. intros Hn. unfold float_of_int, round53. destruct (Z.ltb_spec n (2 ^ 53)); [done|lia]. Qed.

(** The error budget of [n * 0.04]: the rounded product, scaled by
    [2^57 * 100], lies within less than [2^56] of [4 n * 2^57]. *)
Lemma mul_0_04_error n q s :
  0 <= n <= 9 * 10 ^ 14 -> 0 <= s ->
  2 * Z.abs (q * 2 ^ s - n * 5764607523034235) <= 2 ^ s ->
  (s = 0 \/ 2 ^ (s + 52) <= n * 5764607523034235) ->
  2 * Z.abs (q * 2 ^ s * 100 - 4 * n * 2 ^ 57) < 2 ^ 57.
Proof.
  intros Hn Hs Herr Hbits. rewrite Z.pow_add_r in Hbits by lia.
  set (P := 2 ^ s) in *. set (X := q * P) in *.
  assert (HP : 1 <= P) by (subst P; change 1 with (2 ^ 0); apply Z.pow_le_mono_r; lia).
  assert (HP0 : s = 0 -> P = 1) by (intros ->; reflexivity).
  change (2 ^ 52) with 4503599627370496 in Hbits. change (2 ^ 57) with 144115188075855872.
  destruct Hbits as [H0|Hb]; [specialize (HP0 H0)|]; lia.
Qed.

(** [f"{n * 0.04:.2f}"] shows exactly [4 n] hundredths for every integer
    [0 <= n <= 9 * 10^14]. *)
Lemma mul_0_04_hundredths n :
  0 <= n <= 9 * 10 ^ 14 -> hundredths (fmul (float_of_int n) float_0_04) = 4 * n.
Proof.
  intros Hn. rewrite float_of_int_exact by lia. unfold fmul. cbn [f_mant f_exp float_0_04].
  destruct (round53_spec (n * 5764607523034235) (0 + -57) ltac:(lia))
    as (q & s & -> & Hs & Herr & Hbits & Hsmall).
  assert (Hs50 : s <= 50) by (apply Hsmall; lia).
  unfold hundredths. cbn [f_mant f_exp].
  destruct (Z.leb_spec 0 (0 + -57 + s)); [lia|].
  replace (- (0 + -57 + s)) with (57 - s) by lia.
  assert (HPD : 2 ^ s * 2 ^ (57 - s) = 2 ^ 57) by (rewrite <- Z.pow_add_r by lia; f_equal; lia).
  assert (HP : 0 < 2 ^ s) by (apply Z.pow_pos_nonneg; lia).
  assert (HD : 0 < 2 ^ (57 - s)) by (apply Z.pow_pos_nonneg; lia).
  apply round_div_half_even_near; [done|].
  pose proof (mul_0_04_error n q s Hn Hs Herr Hbits) as Hkey.
  rewrite <- HPD in Hkey.
  replace (q * 2 ^ s * 100 - 4 * n * (2 ^ s * 2 ^ (57 - s)))
    with (2 ^ s * (q * 100 - 4 * n * 2 ^ (57 - s))) in Hkey by ring.
  rewrite Z.abs_mul, (Z.abs_eq (2 ^ s)) in Hkey by lia.
  nia.
Qed.

End PyFloat.
