(* ===== verification/Sqlite.v ===== *)
(** * The SQLite engine and Python's [sqlite3] module, as the script uses them

    The script runs two statements, [CREATE TABLE IF NOT EXISTS events]
    and [INSERT INTO events (date, name, event_type, reminder)], through
    [sqlite3.connect], [cursor], [execute], [commit] and [close].  This
    file gives their semantics:
    - values ([sql_value]) and the conversion of bound Python values,
      with the [OverflowError] of integers outside 64 bits;
    - column affinity ([apply_affinity]) applied when a row is stored;
    - the catalog of tables and the [sqlite_sequence] counters
      ([database]);
    - rowid assignment ([next_rowid]): with [AUTOINCREMENT] one more
      than both the counter and the largest rowid, and [SQLITE_FULL]
      when that would pass [2^63-1];
    - connections ([conn]) in the legacy transaction mode of [sqlite3]:
      a DML statement outside a transaction first issues [BEGIN], DDL
      runs in autocommit mode, [commit] writes the transaction to disk
      and [close] discards an open one.
    The statements are given parsed (the SQL text itself is not parsed). *)

From S2P Require Import Prelude PyText.

Module Sqlite.

Import PyText.

(** ** Values, columns, tables *)

Inductive sql_value :=
  | SqlNull
  | SqlInteger (z : Z)
  | SqlText (s : string).

#[export] Instance sql_value_eq_dec : EqDecision sql_value.
Proof. solve_decision. Defined.

(** The affinities of the declared types [TEXT] and [INTEGER]. *)
Inductive affinity := AffText | AffInteger.

#[export] Instance affinity_eq_dec : EqDecision affinity.
Proof. solve_decision. Defined.

Record column := mk_column { col_name : string; col_aff : affinity }.

(** A row: its rowid and the values of all columns in declaration order. *)
Abbreviation row := (Z * list sql_value)%type.

Record table := mk_table {
  tbl_cols : list column;
  tbl_pk : option string;     (* the INTEGER PRIMARY KEY column: an alias of the rowid *)
  tbl_autoinc : bool;         (* declared AUTOINCREMENT *)
  tbl_rows : list row         (* in rowid order, as the table's b-tree keeps them *)
}.

(** The catalog and the [sqlite_sequence] table (one counter per
    AUTOINCREMENT table that has received a row). *)
Record database := mk_db {
  db_tables : gmap string table;
  db_seq : gmap string Z
}.

Definition empty_db : database := mk_db ∅ ∅.

Inductive stmt :=
  | CreateTableIfNotExists (name : string) (cols : list column)
      (pk : option string) (autoinc : bool)
  | InsertInto (name : string) (cols : list string).

(** Number of [?] placeholders: one per inserted column. *)
Definition stmt_params (s : stmt) : nat :=
  match s with
  | CreateTableIfNotExists _ _ _ _ => 0
  | InsertInto _ cols => length cols
  end.

(** [INSERT] is DML: [sqlite3] opens a transaction before it. *)
Definition is_dml (s : stmt) : bool :=
  match s with InsertInto _ _ => true | _ => false end.

(** ** Binding Python values *)

Inductive py_value :=
  | PyInt (z : Z)
  | PyStr (s : string)
  | PyNone.

Definition bind_value (v : py_value) : outcome sql_value :=
  match v with
  | PyInt z =>
      if in_int64 z then Ret (SqlInteger z)
      else Exc (OverflowError "Python int too large to convert to SQLite INTEGER")
  | PyStr s => Ret (SqlText s)
  | PyNone => Ret SqlNull
  end.

Fixpoint bind_values (vs : list py_value) : outcome (list sql_value) :=
  match vs with
  | [] => Ret []
  | v :: vs' =>
      match bind_value v with
      | Exc e => Exc e
      | Ret x => match bind_values vs' with
                 | Exc e => Exc e
                 | Ret xs => Ret (x :: xs)
                 end
      end
  end.

(** ** Affinity: a TEXT column stores an integer as its decimal text; an
    INTEGER column stores a text that reads as a 64-bit integer literal as
    that integer.  (Texts with surrounding spaces or of real numbers,
    which SQLite also converts, do not arise here.) *)
Definition apply_affinity (a : affinity) (v : sql_value) : sql_value :=
  match a, v with
  | AffText, SqlInteger z => SqlText (str_of_int z)
  | AffInteger, SqlText s =>
      match parse_int s with
      | Some z => if in_int64 z then SqlInteger z else v
      | None => v
      end
  | _, _ => v
  end.

(** The storage classes a column can hold once its affinity has been
    applied: a TEXT column holds TEXT or NULL; an INTEGER column holds
    INTEGER, NULL, or a TEXT that does not read as a 64-bit integer. *)
Definition affinity_typed (a : affinity) (v : sql_value) : bool :=
  match a, v with
  | AffText, SqlInteger _ => false
  | AffInteger, SqlText s =>
      match parse_int s with Some z => negb (in_int64 z) | None => true end
  | _, _ => true
  end.

(** ** Statement execution on a database *)

Definition has_column (tb : table) (c : string) : bool :=
  existsb (fun k => String.eqb (col_name k) c) (tbl_cols tb).

(** Errors found when the statement is prepared. *)
Definition prepare (db : database) (s : stmt) : option py_exc :=
  match s with
  | CreateTableIfNotExists _ _ _ _ => None
  | InsertInto t cols =>
      match db_tables db !! t with
      | None => Some (OperationalError ("no such table: " ++ t))
      | Some tb =>
          match List.find (fun c => negb (has_column tb c)) cols with
          | Some c => Some (OperationalError ("table " ++ t ++ " has no column named " ++ c))
          | None => None
          end
      end
  end.

Definition exec_create (db : database) (name : string) (cols : list column)
    (pk : option string) (autoinc : bool) : database :=
  match db_tables db !! name with
  | Some _ => db
  | None => mk_db (<[name := mk_table cols pk autoinc []]> (db_tables db)) (db_seq db)
  end.

Definition max_rowid (rows : list row) : Z := foldr (fun r m => Z.max r.1 m) 0 rows.

Definition seq_of (db : database) (t : string) : Z := default 0 (db_seq db !! t).

(** A fresh rowid.  Without AUTOINCREMENT SQLite searches at random for a
    free rowid once the largest is [2^63-1]; that search is not modelled
    and reported as the same [SQLITE_FULL] error. *)
Definition next_rowid (db : database) (t : string) (tb : table) : outcome Z :=
  let base := if tbl_autoinc tb then Z.max (seq_of db t) (max_rowid (tbl_rows tb))
              else max_rowid (tbl_rows tb) in
  if base <? INT64_MAX then Ret (base + 1)
  else Exc (OperationalError "database or disk is full").

Fixpoint lookup_col (cols : list string) (vals : list sql_value) (c : string)
    : option sql_value :=
  match cols, vals with
  | k :: cs, v :: vs => if String.eqb k c then Some v else lookup_col cs vs c
  | _, _ => None
  end.

(** The values stored for a new row: the rowid in the key column, the
    converted bound value in a named column, NULL elsewhere. *)
Definition row_values (tb : table) (cols : list string) (vals : list sql_value)
    (rid : Z) : list sql_value :=
  map (fun k =>
         if bool_decide (tbl_pk tb = Some (col_name k)) then SqlInteger rid
         else match lookup_col cols vals (col_name k) with
              | Some v => apply_affinity (col_aff k) v
              | None => SqlNull
              end) (tbl_cols tb).

(** Insertion keeping rowid order. *)
Fixpoint insert_row (r : row) (rows : list row) : list row :=
  match rows with
  | [] => [r]
  | r' :: rs => if r.1 <? r'.1 then r :: r' :: rs else r' :: insert_row r rs
  end.

(** The rowid of an insert: given in the key column, or fresh. *)
Definition choose_rowid (db : database) (t : string) (tb : table)
    (cols : list string) (vals : list sql_value) : outcome Z :=
  match tbl_pk tb ≫= lookup_col cols vals with
  | None | Some SqlNull => next_rowid db t tb
  | Some v =>
      match apply_affinity AffInteger v with
      | SqlInteger z =>
          if existsb (fun r => bool_decide (r.1 = z)) (tbl_rows tb)
          then Exc (IntegrityError ("UNIQUE constraint failed: " ++ t))
          else Ret z
      | _ => Exc (IntegrityError "datatype mismatch")
      end
  end.

Definition exec_insert (db : database) (t : string) (cols : list string)
    (vals : list sql_value) : outcome database :=
  match db_tables db !! t with
  | None => Exc (OperationalError ("no such table: " ++ t))
  | Some tb =>
      match choose_rowid db t tb cols vals with
      | Exc e => Exc e
      | Ret rid =>
          let tb' := mk_table (tbl_cols tb) (tbl_pk tb) (tbl_autoinc tb)
                       (insert_row (rid, row_values tb cols vals rid) (tbl_rows tb)) in
          let seq' := if tbl_autoinc tb then <[t := Z.max (seq_of db t) rid]> (db_seq db)
                      else db_seq db in
          Ret (mk_db (<[t := tb']> (db_tables db)) seq')
      end
  end.

Definition exec_stmt (db : database) (s : stmt) (vals : list sql_value) : outcome database :=
  match s with
  | CreateTableIfNotExists name cols pk ai => Ret (exec_create db name cols pk ai)
  | InsertInto t cols => exec_insert db t cols vals
  end.

(** ** Connections of the [sqlite3] module

    The world is the database file ([None] while [events.db] does not
    exist) and the number of connections left open.  A connection holds
    the working copy of an open transaction. *)

Record world := mk_world { w_disk : option database; w_open : nat }.

Record conn := mk_conn { conn_open : bool; conn_txn : option database }.

Definition disk_db (w : world) : database := default empty_db (w_disk w).

(** What a statement on [c] sees: its transaction, or the file. *)
Definition conn_view (w : world) (c : conn) : database :=
  default (disk_db w) (conn_txn c).

Definition closed_error : py_exc :=
  ProgrammingError "Cannot operate on a closed database.".

(** [sqlite3.connect(path)]: opens (creating if absent) the file. *)
Definition connect : py world conn := fun w =>
  (Ret (mk_conn true None), mk_world (Some (disk_db w)) (S (w_open w))).

(** [conn.cursor()]: the cursor runs its statements on the connection. *)
Definition cursor (c : conn) : py world conn := fun w =>
  if conn_open c then (Ret c, w) else (Exc closed_error, w).

(** [cursor.execute(sql, params)]: prepare, check and bind the
    parameters, open the implicit transaction before DML, then run. *)
Definition execute (c : conn) (s : stmt) (params : list py_value) : py world conn := fun w =>
  if negb (conn_open c) then (Exc closed_error, w) else
  let db := conn_view w c in
  match prepare db s with
  | Some e => (Exc e, w)
  | None =>
      if negb (Nat.eqb (length params) (stmt_params s))
      then (Exc (ProgrammingError "Incorrect number of bindings supplied."), w) else
      match bind_values params with
      | Exc e => (Exc e, w)
      | Ret vals =>
          let txn := if is_dml s then Some (conn_view w c) else conn_txn c in
          match exec_stmt db s vals with
          | Exc e => (Exc e, w)
          | Ret db' =>
              match txn with
              | Some _ => (Ret (mk_conn true (Some db')), w)
              | None => (Ret c, mk_world (Some db') (w_open w))
              end
          end
      end
  end.

(** [conn.commit()]: the transaction, if any, reaches the file. *)
Definition commit (c : conn) : py world conn := fun w =>
  if negb (conn_open c) then (Exc closed_error, w) else
  match conn_txn c with
  | Some d => (Ret (mk_conn true None), mk_world (Some d) (w_open w))
  | None => (Ret c, w)
  end.

(** [conn.close()]: an open transaction is rolled back; closing twice
    does nothing. *)
Definition close (c : conn) : py world unit := fun w =>
  if conn_open c then (Ret tt, mk_world (w_disk w) (pred (w_open w)))
  else (Ret tt, w).

(** ** Lemmas *)

Lemma exec_create_idem db name cols pk ai :
  exec_create (exec_create db name cols pk ai) name cols pk ai = exec_create db name cols pk ai.
Proof.
  unfold exec_create. destruct (db_tables db !! name) eqn:E; [by rewrite E|].
  cbn [db_tables]. by rewrite lookup_insert_eq.
Qed.

Lemma exec_create_present db name cols pk ai :
  is_Some (db_tables (exec_create db name cols pk ai) !! name).
Proof.
  unfold exec_create. destruct (db_tables db !! name) eqn:E; [by rewrite E|].
  cbn [db_tables]. rewrite lookup_insert_eq. by eexists.
Qed.

Lemma insert_row_last r rows :
  Forall (fun r' => r'.1 < r.1) rows -> insert_row r rows = rows ++ [r].
Proof.
  induction 1 as [|r' rs Hlt _ IH]; [done|]. cbn [insert_row].
  destruct (Z.ltb_spec r.1 r'.1); [lia|]. by rewrite IH.
Qed.

Lemma max_rowid_app rows r : max_rowid (rows ++ [r]) = Z.max (max_rowid rows) (Z.max r.1 0).
Proof.
  unfold max_rowid. induction rows as [|r' rs IH]; cbn [foldr app]; [lia|].
  rewrite IH. lia.
Qed.

Lemma bind_values_Ret_length vs xs : bind_values vs = Ret xs -> length xs = length vs.
Proof.
  revert xs. induction vs as [|v vs IH]; intros xs; cbn [bind_values].
  - by intros [= <-].
  - destruct (bind_value v); [|done]. destruct (bind_values vs) eqn:E; [|done].
    intros [= <-]. cbn. by rewrite (IH _ eq_refl).
Qed.

(** Applying an affinity always yields a value of its classes. *)
Lemma apply_affinity_typed a v : affinity_typed a (apply_affinity a v) = true.
Proof.
  destruct a, v as [|z|t]; try done. cbn [apply_affinity].
  destruct (parse_int t) as [z|] eqn:E; [|by cbn; rewrite E].
  destruct (in_int64 z) eqn:Hz; [done|]. cbn. by rewrite E, Hz.
Qed.

End Sqlite.
