(* ===== verification/EventStore.v ===== *)
(** * The event store: [init_db] and [save_event]

    [init_db] (src lines 19-29) and [save_event] (lines 66-72) written in
    the [py] monad over the [Sqlite] world, statement by statement as the
    source issues them.  The cursor and its connection are one object in
    Python: [cursor.execute] changes the connection that [conn.commit]
    then sees, so the model threads one [conn] value through both.

    The spec's store contract (an events list in insertion order, with
    identities assigned by the store) is the abstraction [list_events]
    of the [events] table; [store_ok] is the table's invariant (schema as
    created, rowids [1..n], the AUTOINCREMENT counter at [n]).  The file
    ends with the typeclass [EventStoreContract], what the dashboard
    assumes of the store, and its instance for these definitions. *)

From S2P Require Import Prelude PyText Sqlite.

Module EventStore.

Import Sqlite.
Local Open Scope py_scope.

(** ** The schema and the statements of the source *)

Definition events_columns : list column :=
  [ mk_column "id" AffInteger; mk_column "date" AffText; mk_column "name" AffText;
    mk_column "event_type" AffText; mk_column "reminder" AffInteger ].

(** [CREATE TABLE IF NOT EXISTS events (id INTEGER PRIMARY KEY
    AUTOINCREMENT, date TEXT, name TEXT, event_type TEXT, reminder INTEGER)] *)
Definition create_events : stmt :=
  CreateTableIfNotExists "events" events_columns (Some "id") true.

(** [INSERT INTO events (date, name, event_type, reminder) VALUES (?, ?, ?, ?)] *)
Definition insert_event : stmt :=
  InsertInto "events" ["date"; "name"; "event_type"; "reminder"].

Definition init_db : py world unit :=
  conn <- connect ;;
  cur <- cursor conn ;;
  conn <- execute cur create_events [] ;;
  conn <- commit conn ;;
  close conn.

(** The arguments are Python values, stored as given: the function
    checks nothing, and returns [None]. *)
Definition save_event (event_date name event_type reminder : py_value) : py world unit :=
  conn <- connect ;;
  cur <- cursor conn ;;
  conn <- execute cur insert_event [event_date; name; event_type; reminder] ;;
  conn <- commit conn ;;
  close conn.

(** ** Events, as the spec's read operation returns them *)

Record event := mk_event {
  ev_id : Z; ev_date : sql_value; ev_name : sql_value;
  ev_type : sql_value; ev_reminder : sql_value }.

Definition row_to_event (r : row) : option event :=
  match r.2 with
  | [SqlInteger i; d; n; t; m] => Some (mk_event i d n t m)
  | _ => None
  end.

(** [SELECT id, date, name, event_type, reminder FROM events ORDER BY id]:
    the rows are kept in rowid order, so this is the stored order. *)
Definition list_events : py world (list event) := fun w =>
  match db_tables (disk_db w) !! "events" with
  | None => (Exc (OperationalError "no such table: events"), w)
  | Some tb => (Ret (omap row_to_event (tbl_rows tb)), w)
  end.

Definition events_table (rows : list row) : table :=
  mk_table events_columns (Some "id") true rows.

(** A stored row: the rowid in the key column, then four values. *)
Definition row_shape (r : row) : Prop :=
  exists d n t m, r.2 = [SqlInteger r.1; d; n; t; m].

(** The invariant of the store. *)
Definition store_ok (db : database) (rows : list row) : Prop :=
  db_tables db !! "events" = Some (events_table rows) /\
  map fst rows = seqZ 1 (Z.of_nat (length rows)) /\
  seq_of db "events" = Z.of_nat (length rows) /\
  Forall row_shape rows.

(** The row [save_event] adds for bound values [x1..x4]. *)
Definition new_row (rid : Z) (x1 x2 x3 x4 : sql_value) : row :=
  (rid, [SqlInteger rid; apply_affinity AffText x1; apply_affinity AffText x2;
         apply_affinity AffText x3; apply_affinity AffInteger x4]).

Definition db_after_insert (db : database) (rows : list row) (r : row) : database :=
  mk_db (<[ "events" := events_table (rows ++ [r]) ]> (db_tables db))
        (<[ "events" := r.1 ]> (db_seq db)).

(** ** Lemmas on the table *)

Lemma max_rowid_seqZ (rows : list row) :
  map fst rows = seqZ 1 (Z.of_nat (length rows)) ->
  max_rowid rows = Z.of_nat (length rows).
Proof.
  induction rows as [|r rs IH] using rev_ind; [done|].
  rewrite map_app, length_app, Nat2Z.inj_add, seqZ_app; [|lia|lia].
  intros Happ. apply app_inj_2 in Happ as [Hrs Hr]; [|by rewrite length_map, !length_seqZ].
  rewrite max_rowid_app, IH by done.
  cbn in Hr. injection Hr as Hr. cbn [length]. lia.
Qed.

Lemma rows_below (rows : list row) :
  map fst rows = seqZ 1 (Z.of_nat (length rows)) ->
  Forall (fun r => r.1 < Z.of_nat (length rows) + 1) rows.
Proof.
  intros H. apply Forall_forall. intros r Hr.
  assert (Hin : r.1 ∈ seqZ 1 (Z.of_nat (length rows))).
  { rewrite <- H. apply list_elem_of_In, in_map, list_elem_of_In, Hr. }
  apply elem_of_seqZ in Hin. lia.
Qed.

Lemma seq_of_insert db t z : seq_of (mk_db (db_tables db) (<[t := z]> (db_seq db))) t = z.
Proof. unfold seq_of. cbn [db_seq]. by rewrite lookup_insert_eq. Qed.

(** The [INSERT] of [save_event] on a well-formed store appends the row
    with rowid [n + 1]. *)
Lemma exec_insert_events db rows x1 x2 x3 x4 :
  store_ok db rows -> Z.of_nat (length rows) < INT64_MAX ->
  exec_insert db "events" ["date"; "name"; "event_type"; "reminder"] [x1; x2; x3; x4]
  = Ret (db_after_insert db rows (new_row (Z.of_nat (length rows) + 1) x1 x2 x3 x4)).
Proof.
  intros (Htb & Hids & Hseq & _) Hmax. unfold exec_insert, choose_rowid, next_rowid.
  rewrite Htb. cbn [tbl_pk events_table tbl_autoinc tbl_rows tbl_cols].
  change (Some "id" ≫= lookup_col _ _) with (@None sql_value).
  rewrite Hseq, max_rowid_seqZ, Z.max_id by done.
  destruct (Z.ltb_spec (Z.of_nat (length rows)) INT64_MAX); [|lia].
  rewrite insert_row_last by (apply rows_below; done).
  unfold db_after_insert, new_row. cbn [fst]. repeat f_equal.
  lia.
Qed.

Lemma seqZ_snoc (n : Z) : 0 <= n -> seqZ 1 n ++ [n + 1] = seqZ 1 (n + 1).
Proof. intros Hn. rewrite seqZ_app by lia. f_equal. unfold seqZ. simpl. f_equal. lia. Qed.

(** The invariant is kept by the insert. *)
Lemma store_ok_insert db rows x1 x2 x3 x4 :
  store_ok db rows ->
  let r := new_row (Z.of_nat (length rows) + 1) x1 x2 x3 x4 in
  store_ok (db_after_insert db rows r) (rows ++ [r]).
Proof.
  intros (Htb & Hids & Hseq & Hshape) r. unfold store_ok, db_after_insert.
  cbn [db_tables]. rewrite lookup_insert_eq. split; [done|].
  rewrite length_app, Nat2Z.inj_add. cbn [length]. split; [|split].
  - rewrite List.map_app, Hids. apply seqZ_snoc. lia.
  - apply seq_of_insert.
  - apply Forall_app. split; [done|]. apply Forall_singleton.
    by eexists _, _, _, _.
Qed.

Lemma prepare_insert_ok db rows : store_ok db rows -> prepare db insert_event = None.
Proof. intros (Htb & _). unfold prepare, insert_event. by rewrite Htb. Qed.

(** One [save_event] on a well-formed store: it returns, the connection
    count is back where it was, and the file holds the new row. *)
Lemma save_event_run w db rows v1 v2 v3 v4 x1 x2 x3 x4 :
  w_disk w = Some db -> store_ok db rows -> Z.of_nat (length rows) < INT64_MAX ->
  bind_values [v1; v2; v3; v4] = Ret [x1; x2; x3; x4] ->
  save_event v1 v2 v3 v4 w =
    (Ret tt, mk_world (Some (db_after_insert db rows
                               (new_row (Z.of_nat (length rows) + 1) x1 x2 x3 x4)))
                      (w_open w)).
Proof.
  destruct w as [disk op]. cbn [w_disk w_open]. intros -> Hok Hmax Hb.
  unfold save_event, py_bind, connect, cursor, execute, commit, close, conn_view, disk_db.
  cbn [w_disk w_open conn_open conn_txn default negb].
  unfold id. rewrite (prepare_insert_ok _ _ Hok). cbn -[bind_values exec_stmt]. rewrite Hb.
  cbn [exec_stmt insert_event]. rewrite (exec_insert_events _ _ _ _ _ _ Hok Hmax).
  reflexivity.
Qed.

(** One [init_db] on any world: the file exists afterwards and holds the
    result of [CREATE TABLE IF NOT EXISTS]; the connection is closed. *)
Lemma init_db_run w :
  init_db w = (Ret tt, mk_world (Some (exec_create (disk_db w) "events" events_columns
                                                    (Some "id") true)) (w_open w)).
Proof. destruct w as [disk op]. reflexivity. Qed.

Lemma store_ok_fresh : store_ok (exec_create empty_db "events" events_columns (Some "id") true) [].
Proof. repeat split; constructor. Qed.

Lemma exec_create_store_ok db rows :
  store_ok db rows -> exec_create db "events" events_columns (Some "id") true = db.
Proof. intros (Htb & _). unfold exec_create. by rewrite Htb. Qed.

(** ** The abstract store of the spec and the abstraction *)

Definition stored_event (id : Z) (x1 x2 x3 x4 : sql_value) : event :=
  mk_event id (apply_affinity AffText x1) (apply_affinity AffText x2)
           (apply_affinity AffText x3) (apply_affinity AffInteger x4).

(** The spec's [save_event]: append the stored fields with the next
    identity. *)
Definition spec_save (x1 x2 x3 x4 : sql_value) (evs : list event) : list event :=
  evs ++ [stored_event (Z.of_nat (length evs) + 1) x1 x2 x3 x4].

(** A world represents the event list [evs] when its file holds a
    well-formed store whose rows are those events. *)
Definition abs_world (w : world) (evs : list event) : Prop :=
  exists db rows, w_disk w = Some db /\ store_ok db rows /\ evs = omap row_to_event rows.

Lemma omap_rows_length rows : Forall row_shape rows -> length (omap row_to_event rows) = length rows.
Proof.
  induction 1 as [|r rs (d & n & t & m & Hr) _ IH]; [done|].
  cbn [omap list_omap]. unfold row_to_event at 1. rewrite Hr. cbn [length]. by rewrite IH.
Qed.

Lemma omap_rows_snoc rows r ev :
  row_to_event r = Some ev -> omap row_to_event (rows ++ [r]) = omap row_to_event rows ++ [ev].
Proof. intros H. rewrite omap_app. cbn [omap list_omap]. by rewrite H. Qed.

(** When the [INSERT] fails, [save_event] stops there: the exception
    propagates, [commit] and [close] are never reached. *)
Lemma save_event_execute_fails w v1 v2 v3 v4 e :
  let w1 := mk_world (Some (disk_db w)) (S (w_open w)) in
  execute (mk_conn true None) insert_event [v1; v2; v3; v4] w1 = (Exc e, w1) ->
  save_event v1 v2 v3 v4 w = (Exc e, w1).
Proof.
  intros w1 H. unfold save_event.
  rewrite (py_bind_Ret _ _ _ (mk_conn true None) w1) by reflexivity.
  rewrite (py_bind_Ret (cursor _) _ _ (mk_conn true None) w1) by reflexivity.
  by rewrite (py_bind_Exc _ _ _ e w1 H).
Qed.

Lemma execute_insert_unfold w db v1 v2 v3 v4 :
  disk_db w = db ->
  execute (mk_conn true None) insert_event [v1; v2; v3; v4] w =
  match prepare db insert_event with
  | Some e => (Exc e, w)
  | None =>
      match bind_values [v1; v2; v3; v4] with
      | Exc e => (Exc e, w)
      | Ret vals =>
          match exec_insert db "events" ["date"; "name"; "event_type"; "reminder"] vals with
          | Exc e => (Exc e, w)
          | Ret db' => (Ret (mk_conn true (Some db')), w)
          end
      end
  end.
Proof.
  intros <-. unfold execute, conn_view. cbn -[prepare bind_values exec_insert].
  destruct (prepare _ _); [done|]. destruct (bind_values _); [|done].
  by destruct (exec_insert _ _ _ _).
Qed.

Lemma bind_values_str_int d n t r :
  in_int64 r = true ->
  bind_values [PyStr d; PyStr n; PyStr t; PyInt r] =
  Ret [SqlText d; SqlText n; SqlText t; SqlInteger r].
Proof. intros H. cbn. by rewrite H. Qed.

(** The step of the abstract store made by one successful [save_event]. *)
(** The file after the [INSERT] of [x1..x4] into a well-formed store
    holds the spec's list with the new event. *)
Lemma abs_after_insert db rows x1 x2 x3 x4 o :
  store_ok db rows ->
  abs_world (mk_world (Some (db_after_insert db rows (new_row (Z.of_nat (length rows) + 1) x1 x2 x3 x4))) o)
            (spec_save x1 x2 x3 x4 (omap row_to_event rows)).
Proof.
  intros Hok. pose proof (omap_rows_length rows (proj2 (proj2 (proj2 Hok)))) as Hlen.
  eexists _, _. split; [done|]. split; [by apply store_ok_insert|].
  unfold spec_save. rewrite Hlen. symmetry. by apply omap_rows_snoc.
Qed.

Lemma save_event_step w evs v1 v2 v3 v4 x1 x2 x3 x4 :
  abs_world w evs -> Z.of_nat (length evs) < INT64_MAX ->
  bind_values [v1; v2; v3; v4] = Ret [x1; x2; x3; x4] ->
  fst (save_event v1 v2 v3 v4 w) = Ret tt /\
  w_open (snd (save_event v1 v2 v3 v4 w)) = w_open w /\
  abs_world (snd (save_event v1 v2 v3 v4 w)) (spec_save x1 x2 x3 x4 evs).
Proof.
  intros (db & rows & Hd & Hok & ->) Hmax Hb.
  pose proof (omap_rows_length rows (proj2 (proj2 (proj2 Hok)))) as Hlen.
  rewrite Hlen in Hmax.
  rewrite (save_event_run w db rows _ _ _ _ _ _ _ _ Hd Hok Hmax Hb).
  split; [done|]. split; [done|]. by apply abs_after_insert.
Qed.

Lemma list_events_of_abs w evs : abs_world w evs -> list_events w = (Ret evs, w).
Proof.
  intros (db & rows & Hd & (Htb & _) & ->). unfold list_events, disk_db.
  rewrite Hd. cbn [default id]. by rewrite Htb.
Qed.

Lemma abs_world_fresh : abs_world (snd (init_db (mk_world None 0))) [].
Proof. eexists _, []. split; [reflexivity|]. split; [apply store_ok_fresh|done]. Qed.

(** [init_db] on a file that already holds a well-formed store. *)
(** A second [init_db] finds the table it created and changes nothing. *)
Lemma init_db_again w : init_db (snd (init_db w)) = (Ret tt, snd (init_db w)).
Proof.
  rewrite !init_db_run. cbn [snd]. unfold disk_db at 1. cbn [w_disk default id].
  by rewrite exec_create_idem.
Qed.

Lemma init_db_noop w db rows :
  w_disk w = Some db -> store_ok db rows -> init_db w = (Ret tt, w).
Proof.
  intros Hd Hok. rewrite init_db_run.
  unfold disk_db. rewrite Hd. cbn [default id]. rewrite (exec_create_store_ok db rows Hok).
  destruct w as [disk op]. cbn in Hd. by subst.
Qed.

(** [init_db] when the file does not exist yet. *)
Lemma init_db_creates w :
  w_disk w = None ->
  fst (init_db w) = Ret tt /\ w_open (snd (init_db w)) = w_open w /\
  abs_world (snd (init_db w)) [].
Proof.
  intros Hd. rewrite init_db_run. split; [done|]. split; [done|].
  eexists _, []. split; [done|]. split; [|done].
  unfold disk_db. rewrite Hd. apply store_ok_fresh.
Qed.

(** The [INSERT] raises [SQLITE_FULL] when the next rowid would pass
    [2^63-1]; the file is unchanged and the connection stays open. *)
Lemma save_event_rowid_exhausted w db rows v1 v2 v3 v4 x1 x2 x3 x4 :
  w_disk w = Some db -> db_tables db !! "events" = Some (events_table rows) ->
  INT64_MAX <= Z.max (seq_of db "events") (max_rowid rows) ->
  bind_values [v1; v2; v3; v4] = Ret [x1; x2; x3; x4] ->
  save_event v1 v2 v3 v4 w =
    (Exc (OperationalError "database or disk is full"), mk_world (Some db) (S (w_open w))).
Proof.
  intros Hd Htb Hfull Hb.
  assert (Hdb : disk_db w = db) by (unfold disk_db; by rewrite Hd).
  rewrite <- Hdb. apply save_event_execute_fails.
  rewrite (execute_insert_unfold _ db) by done.
  unfold prepare, insert_event. rewrite Htb. cbn -[bind_values exec_insert]. rewrite Hb.
  unfold exec_insert, choose_rowid, next_rowid. rewrite Htb.
  cbn [tbl_pk events_table tbl_autoinc tbl_rows].
  change (Some "id" ≫= lookup_col _ _) with (@None sql_value).
  destruct (Z.ltb_spec (Z.max (seq_of db "events") (max_rowid rows)) INT64_MAX); [lia|done].
Qed.

Lemma abs_world_exhausted w evs v1 v2 v3 v4 x1 x2 x3 x4 :
  abs_world w evs -> INT64_MAX <= Z.of_nat (length evs) ->
  bind_values [v1; v2; v3; v4] = Ret [x1; x2; x3; x4] ->
  abs_world (snd (save_event v1 v2 v3 v4 w)) evs.
Proof.
  intros Habs Hge Hb. destruct Habs as (db & rows & Hd & Hok & ->).
  pose proof (omap_rows_length rows (proj2 (proj2 (proj2 Hok)))) as Hlen.
  destruct Hok as (Htb & Hids & Hseq & Hshape).
  assert (Hfull : INT64_MAX <= Z.max (seq_of db "events") (max_rowid rows)) by (rewrite Hseq; lia).
  rewrite (save_event_rowid_exhausted w db rows _ _ _ _ _ _ _ _ Hd Htb Hfull Hb).
  exists db, rows. done.
Qed.



(** ** Properties of the store *)

Section StoreProperties.

(** C2. [save_event] refines the spec's save: on a world representing the
    events [evs], with arguments that bind, it returns normally, leaves no
    connection open, and the world then represents [evs] with one more
    event carrying the next identity and the stored fields. *)
Theorem save_event_refines w evs v1 v2 v3 v4 x1 x2 x3 x4 :
  abs_world w evs -> Z.of_nat (length evs) < INT64_MAX ->
  bind_values [v1; v2; v3; v4] = Ret [x1; x2; x3; x4] ->
  fst (save_event v1 v2 v3 v4 w) = Ret tt /\
  w_open (snd (save_event v1 v2 v3 v4 w)) = w_open w /\
  abs_world (snd (save_event v1 v2 v3 v4 w)) (spec_save x1 x2 x3 x4 evs).
Proof. apply save_event_step. Qed.

(** C3. Round trip: after [save_event] with three strings and a 64-bit
    integer, reading the store gives the events before followed by one
    event whose fields are exactly the arguments, with identity [n + 1]. *)
Theorem save_event_list_roundtrip w evs d nm t r :
  abs_world w evs -> Z.of_nat (length evs) < INT64_MAX -> in_int64 r = true ->
  let w' := snd (save_event (PyStr d) (PyStr nm) (PyStr t) (PyInt r) w) in
  list_events w' =
    (Ret (evs ++ [mk_event (Z.of_nat (length evs) + 1) (SqlText d) (SqlText nm)
                           (SqlText t) (SqlInteger r)]), w').
Proof.
  intros Habs Hmax Hr w'.
  destruct (save_event_step _ _ _ _ _ _ _ _ _ _ Habs Hmax (bind_values_str_int d nm t r Hr))
    as (_ & _ & Habs').
  unfold w'. by rewrite (list_events_of_abs _ _ Habs').
Qed.

(** C4. [init_db] is idempotent on every world: calling it [n >= 1]
    times returns normally and leaves the world exactly as one call
    does (same schema, no data lost, no connection left open). *)
Theorem init_db_idempotent n w : (1 <= n)%nat -> py_repeat n init_db w = init_db w.
Proof.
  intros Hn. assert (H1 : init_db w = (Ret tt, snd (init_db w))) by (rewrite init_db_run; reflexivity).
  etrans; [|symmetry; exact H1]. by apply py_repeat_fixed; [apply init_db_again| |].
Qed.

(** C7. [init_db] keeps the data: on a world that holds a well-formed
    store it returns normally and changes nothing. *)
Theorem init_db_keeps_store w evs : abs_world w evs -> init_db w = (Ret tt, w).
Proof. intros (db & rows & Hd & Hok & _). by apply (init_db_noop w db rows). Qed.

(** C8. When [events.db] does not exist, [init_db] returns normally,
    closes its connection, and leaves an empty well-formed store, which
    the read operation returns as the empty list. *)
Theorem init_db_fresh w :
  w_disk w = None ->
  fst (init_db w) = Ret tt /\ w_open (snd (init_db w)) = w_open w /\
  list_events (snd (init_db w)) = (Ret [], snd (init_db w)).
Proof.
  intros Hd. destruct (init_db_creates w Hd) as (H1 & H2 & H3).
  split; [done|]. split; [done|]. by apply list_events_of_abs.
Qed.


(** C9. Error path, missing table: when the file has no [events] table,
    [save_event] raises [OperationalError("no such table: events")]; the
    file is unchanged and the connection it opened is never closed, since
    [conn.close()] is not in a [finally] clause. *)
Theorem save_event_no_table w v1 v2 v3 v4 :
  db_tables (disk_db w) !! "events" = None ->
  save_event v1 v2 v3 v4 w =
    (Exc (OperationalError "no such table: events"),
     mk_world (Some (disk_db w)) (S (w_open w))).
Proof.
  intros H. apply save_event_execute_fails.
  rewrite (execute_insert_unfold _ (disk_db w)) by reflexivity.
  unfold prepare, insert_event. by rewrite H.
Qed.

(** C10. Bounds of the identity: when the AUTOINCREMENT counter of
    [events] is at [2^63-1], [save_event] raises [OperationalError("database
    or disk is full")]; nothing is written and the connection stays open. *)
Theorem save_event_counter_full w db rows v1 v2 v3 v4 x1 x2 x3 x4 :
  w_disk w = Some db -> db_tables db !! "events" = Some (events_table rows) ->
  seq_of db "events" = INT64_MAX ->
  bind_values [v1; v2; v3; v4] = Ret [x1; x2; x3; x4] ->
  save_event v1 v2 v3 v4 w =
    (Exc (OperationalError "database or disk is full"), mk_world (Some db) (S (w_open w))).
Proof.
  intros Hd Htb Hseq Hb. apply (save_event_rowid_exhausted w db rows _ _ _ _ x1 x2 x3 x4); [done|done| |done].
  rewrite Hseq. lia.
Qed.

(** C11. Error path, integer width: a reminder outside the 64-bit range
    makes the parameter binding raise [OverflowError]; nothing is written
    and the connection stays open. *)
Theorem save_event_int_overflow w rows d nm t r :
  db_tables (disk_db w) !! "events" = Some (events_table rows) -> in_int64 r = false ->
  save_event (PyStr d) (PyStr nm) (PyStr t) (PyInt r) w =
    (Exc (OverflowError "Python int too large to convert to SQLite INTEGER"),
     mk_world (Some (disk_db w)) (S (w_open w))).
Proof.
  intros Htb Hr. apply save_event_execute_fails.
  rewrite (execute_insert_unfold _ (disk_db w)) by reflexivity.
  unfold prepare, insert_event. rewrite Htb. cbn -[in_int64]. by rewrite Hr.
Qed.

(** C12. No deduplication: saving the same date, name and type twice
    stores two events, with consecutive distinct identities, even when
    the reminders are equal too. *)
Theorem save_event_no_dedup w evs d nm t r1 r2 :
  abs_world w evs -> Z.of_nat (length evs) + 1 < INT64_MAX ->
  in_int64 r1 = true -> in_int64 r2 = true ->
  let w1 := snd (save_event (PyStr d) (PyStr nm) (PyStr t) (PyInt r1) w) in
  let w2 := snd (save_event (PyStr d) (PyStr nm) (PyStr t) (PyInt r2) w1) in
  list_events w2 =
    (Ret (evs ++ [mk_event (Z.of_nat (length evs) + 1) (SqlText d) (SqlText nm) (SqlText t) (SqlInteger r1);
                  mk_event (Z.of_nat (length evs) + 2) (SqlText d) (SqlText nm) (SqlText t) (SqlInteger r2)]),
     w2).
Proof.
  intros Habs Hmax H1 H2 w1 w2.
  destruct (save_event_step _ _ _ _ _ _ _ _ _ _ Habs ltac:(lia) (bind_values_str_int d nm t r1 H1))
    as (_ & _ & Habs1).
  assert (Hmax1 : Z.of_nat (length (spec_save (SqlText d) (SqlText nm) (SqlText t) (SqlInteger r1) evs))
                  < INT64_MAX) by (unfold spec_save; rewrite length_app; cbn [length]; lia).
  destruct (save_event_step _ _ _ _ _ _ _ _ _ _ Habs1 Hmax1 (bind_values_str_int d nm t r2 H2))
    as (_ & _ & Habs2).
  unfold w2, w1. rewrite (list_events_of_abs _ _ Habs2). unfold spec_save.
  rewrite length_app, <- app_assoc. cbn [length app]. unfold stored_event. cbn [apply_affinity].
  replace (Z.of_nat (length evs + 1) + 1) with (Z.of_nat (length evs) + 2) by lia. done.
Qed.

End StoreProperties.

(** ** Witnesses: the theorems applied at concrete worlds *)

Definition w_fresh : world := snd (init_db (mk_world None 0)).

Definition w_one : world :=
  snd (save_event (PyStr "2025-03-01") (PyStr "Asha") (PyStr "Birthday") (PyInt 60) w_fresh).

Definition ev_asha : event :=
  mk_event 1 (SqlText "2025-03-01") (SqlText "Asha") (SqlText "Birthday") (SqlInteger 60).

Lemma abs_world_one : abs_world w_one [ev_asha].
Proof.
  destruct (save_event_step w_fresh [] (PyStr "2025-03-01") (PyStr "Asha") (PyStr "Birthday")
              (PyInt 60) _ _ _ _ abs_world_fresh ltac:(vm_compute; reflexivity)
              ltac:(reflexivity)) as (_ & _ & H).
  exact H.
Qed.

Lemma save_event_refines_witness :
  fst (save_event (PyStr "x") (PyStr "Ravi") (PyStr "Anniversary") (PyInt 0) w_one) = Ret tt /\
  w_open (snd (save_event (PyStr "x") (PyStr "Ravi") (PyStr "Anniversary") (PyInt 0) w_one)) = 0%nat /\
  abs_world (snd (save_event (PyStr "x") (PyStr "Ravi") (PyStr "Anniversary") (PyInt 0) w_one))
    (spec_save (SqlText "x") (SqlText "Ravi") (SqlText "Anniversary") (SqlInteger 0) [ev_asha]).
Proof.
  apply (save_event_refines w_one [ev_asha]);
    [apply abs_world_one | vm_compute; reflexivity | reflexivity].
Defined.

(** The spec's out-of-range reminder, 1500 minutes, is stored unchanged. *)
Lemma save_event_list_roundtrip_witness :
  let w' := snd (save_event (PyStr "2025-03-01") (PyStr "Asha") (PyStr "Birthday") (PyInt 1500) w_one) in
  list_events w' =
    (Ret ([ev_asha] ++ [mk_event 2 (SqlText "2025-03-01") (SqlText "Asha")
                                 (SqlText "Birthday") (SqlInteger 1500)]), w').
Proof.
  apply (save_event_list_roundtrip w_one [ev_asha]);
    [apply abs_world_one | vm_compute; reflexivity | reflexivity].
Defined.

Lemma init_db_idempotent_witness :
  (1 <= 3)%nat /\ py_repeat 3 init_db (mk_world None 0) = init_db (mk_world None 0).
Proof. assert (H : (1 <= 3)%nat) by lia. split; [exact H|apply (init_db_idempotent 3 _ H)]. Defined.

Lemma init_db_keeps_store_witness : init_db w_one = (Ret tt, w_one).
Proof. apply (init_db_keeps_store w_one [ev_asha]). apply abs_world_one. Defined.

Lemma init_db_fresh_witness :
  fst (init_db (mk_world None 3)) = Ret tt /\ w_open (snd (init_db (mk_world None 3))) = 3%nat /\
  list_events (snd (init_db (mk_world None 3))) = (Ret [], snd (init_db (mk_world None 3))).
Proof. apply init_db_fresh. reflexivity. Defined.



Lemma save_event_no_table_witness :
  save_event (PyStr "d") (PyStr "n") (PyStr "Birthday") (PyInt 5) (mk_world None 0) =
    (Exc (OperationalError "no such table: events"), mk_world (Some empty_db) 1%nat).
Proof. apply save_event_no_table. reflexivity. Defined.

Definition db_full : database :=
  mk_db {[ "events" := events_table [] ]} {[ "events" := INT64_MAX ]}.

Lemma save_event_counter_full_witness :
  save_event (PyStr "d") (PyStr "n") (PyStr "Birthday") (PyInt 5) (mk_world (Some db_full) 0) =
    (Exc (OperationalError "database or disk is full"), mk_world (Some db_full) 1%nat).
Proof.
  apply (save_event_counter_full (mk_world (Some db_full) 0) db_full [] _ _ _ _ (SqlText "d") (SqlText "n")
           (SqlText "Birthday") (SqlInteger 5)); vm_compute; reflexivity.
Defined.

Lemma save_event_int_overflow_witness :
  save_event (PyStr "d") (PyStr "n") (PyStr "Birthday") (PyInt (2 ^ 63)) w_fresh =
    (Exc (OverflowError "Python int too large to convert to SQLite INTEGER"),
     mk_world (Some (disk_db w_fresh)) 1%nat).
Proof. apply (save_event_int_overflow w_fresh []); vm_compute; reflexivity. Defined.

Lemma save_event_no_dedup_witness :
  let w1 := snd (save_event (PyStr "2025-03-01") (PyStr "Asha") (PyStr "Birthday") (PyInt 60) w_fresh) in
  let w2 := snd (save_event (PyStr "2025-03-01") (PyStr "Asha") (PyStr "Birthday") (PyInt 90) w1) in
  list_events w2 =
    (Ret ([] ++ [mk_event 1 (SqlText "2025-03-01") (SqlText "Asha") (SqlText "Birthday") (SqlInteger 60);
                 mk_event 2 (SqlText "2025-03-01") (SqlText "Asha") (SqlText "Birthday") (SqlInteger 90)]),
     w2).
Proof.
  apply (save_event_no_dedup w_fresh []);
    [apply abs_world_fresh | vm_compute; reflexivity | reflexivity | reflexivity].
Defined.

(** ** The store contract the rest of the script relies on

    [init] and [save] are the store's two operations and [absr] relates a
    world to the event list it holds.  The dashboard's invariant is
    proved against this class; [sqlite_event_store] discharges it for
    [init_db], [save_event] and [abs_world]. *)
Class EventStoreContract (init : py world unit)
    (save : py_value -> py_value -> py_value -> py_value -> py world unit)
    (absr : world -> list event -> Prop) : Prop := {
  esc_init_keeps w evs : absr w evs -> init w = (Ret tt, w);
  esc_init_creates w : w_disk w = None ->
    fst (init w) = Ret tt /\ w_open (snd (init w)) = w_open w /\ absr (snd (init w)) [];
  esc_save w evs v1 v2 v3 v4 x1 x2 x3 x4 :
    absr w evs -> Z.of_nat (length evs) < INT64_MAX ->
    bind_values [v1; v2; v3; v4] = Ret [x1; x2; x3; x4] ->
    fst (save v1 v2 v3 v4 w) = Ret tt /\ w_open (snd (save v1 v2 v3 v4 w)) = w_open w /\
    absr (snd (save v1 v2 v3 v4 w)) (spec_save x1 x2 x3 x4 evs);
  esc_save_exhausted w evs v1 v2 v3 v4 x1 x2 x3 x4 :
    absr w evs -> INT64_MAX <= Z.of_nat (length evs) ->
    bind_values [v1; v2; v3; v4] = Ret [x1; x2; x3; x4] ->
    absr (snd (save v1 v2 v3 v4 w)) evs
}.

#[export] Instance sqlite_event_store : EventStoreContract init_db save_event abs_world.
Proof.
  split.
  - intros w evs (db & rows & Hd & Hok & _). exact (init_db_noop w db rows Hd Hok).
  - exact init_db_creates.
  - exact save_event_step.
  - exact abs_world_exhausted.
Qed.

End EventStore.
