(* ===== verification/Concurrent.v ===== *)
(** * Concurrent sessions: interleaved calls against one [events.db]

    Streamlit serves every browser session in a thread of its own, and
    every call of [init_db] (src lines 19-29) or [save_event] (lines
    66-72) opens a connection of its own to the same file.  A thread
    runs the statements of one call, [connect], [cursor] and [execute],
    [commit], [close], one step each, with the sequential model's
    functions of [Sqlite]; the scheduler interleaves the steps of all
    threads ([cstep]).

    SQLite lets one connection write at a time: an [INSERT] takes the
    write lock that its connection keeps until [commit].  A thread about
    to run a writing statement while another connection holds the lock
    waits; [sqlite3]'s default busy timeout of 5 seconds may expire
    first, and [execute] then raises [OperationalError("database is
    locked")] ([cstep_busy]), with the connection left open. *)

From S2P Require Import Prelude PyText Sqlite EventStore.

Module Concurrent.

Import Sqlite EventStore.
Local Open Scope py_scope.

(** Where a call is: the program counter of its statements. *)
Inductive pc :=
  | PcStart                   (* before [sqlite3.connect] *)
  | PcConnected (c : conn)    (* [cursor] and [execute] next *)
  | PcExecuted (c : conn)     (* [conn.commit()] next *)
  | PcCommitted (c : conn)    (* [conn.close()] next *)
  | PcDone                    (* returned *)
  | PcFailed (e : py_exc).    (* raised [e] *)

Record thread := mk_thread { th_stmt : stmt; th_params : list py_value; th_pc : pc }.

Definition with_pc (th : thread) (p : pc) : thread := mk_thread (th_stmt th) (th_params th) p.

(** A thread running [init_db()]. *)
Definition init_thread : thread := mk_thread create_events [] PcStart.

(** A thread running [save_event(v1, v2, v3, v4)]. *)
Definition save_thread (params : list py_value) : thread := mk_thread insert_event params PcStart.

(** The next statement of a call, as the sequential model runs it. *)
Definition thread_step (th : thread) : py world pc :=
  match th_pc th with
  | PcStart => c <- connect ;; py_ret (PcConnected c)
  | PcConnected c =>
      cur <- cursor c ;; c' <- execute cur (th_stmt th) (th_params th) ;; py_ret (PcExecuted c')
  | PcExecuted c => c' <- commit c ;; py_ret (PcCommitted c')
  | PcCommitted c => close c ;; py_ret PcDone
  | p => py_ret p
  end.

Definition finished (th : thread) : bool :=
  match th_pc th with PcDone | PcFailed _ => true | _ => false end.

Definition is_connected (th : thread) : bool :=
  match th_pc th with PcConnected _ => true | _ => false end.

(** A connection with an open transaction holds the write lock. *)
Definition holds_lock (th : thread) : bool :=
  match th_pc th with PcExecuted c => bool_decide (is_Some (conn_txn c)) | _ => false end.

(** Whether a statement writes to the file: an [INSERT] always; a
    [CREATE TABLE IF NOT EXISTS] only when the table is absent. *)
Definition writes (w : world) (s : stmt) : bool :=
  match s with
  | InsertInto _ _ => true
  | CreateTableIfNotExists n _ _ _ => bool_decide (db_tables (disk_db w) !! n = None)
  end.

(** Another thread than [i] holds the write lock. *)
Definition lock_taken (ths : list thread) (i : nat) : bool := existsb holds_lock (delete i ths).

Definition busy_error : py_exc := OperationalError "database is locked".

Definition outcome_pc (o : outcome pc) : pc :=
  match o with Ret p => p | Exc e => PcFailed e end.

Definition cfg : Type := world * list thread.

(** One step of one thread. *)
Inductive cstep : cfg -> cfg -> Prop :=
  | cstep_run w ths i th o w' :
      ths !! i = Some th -> finished th = false ->
      (is_connected th = true -> writes w (th_stmt th) = true -> lock_taken ths i = false) ->
      thread_step th w = (o, w') ->
      cstep (w, ths) (w', <[i := with_pc th (outcome_pc o)]> ths)
  | cstep_busy w ths i th c :
      ths !! i = Some th -> th_pc th = PcConnected c ->
      writes w (th_stmt th) = true -> lock_taken ths i = true ->
      cstep (w, ths) (w, <[i := with_pc th (PcFailed busy_error)]> ths).

(** Connections a configuration keeps open: the calls between
    [connect] and [close], and the calls that raised after [connect]. *)
Definition active (th : thread) : nat :=
  match th_pc th with PcStart | PcDone => 0 | _ => 1 end.

Definition open_count (ths : list thread) : nat := sum_list_with active ths.

(** The calls whose [commit] has happened. *)
Definition committed (th : thread) : bool :=
  match th_pc th with PcCommitted _ | PcDone => true | _ => false end.

(** The values a thread's parameters bind to. *)
Definition th_vals (th : thread) : list sql_value :=
  match bind_values (th_params th) with Ret xs => xs | Exc _ => [] end.

(** The spec's save of bound values. *)
Definition spec_save_vals (xs : list sql_value) (evs : list event) : list event :=
  match xs with [x1; x2; x3; x4] => spec_save x1 x2 x3 x4 evs | _ => evs end.

(** The spec's saves of the threads [order], one after the other. *)
Definition spec_saves (ths : list thread) (order : list nat) (evs : list event) : list event :=
  fold_left (fun evs i => match ths !! i with
                          | Some th => spec_save_vals (th_vals th) evs
                          | None => evs
                          end) order evs.

(** The write set of a [save_event] call: its transaction after the
    [INSERT] on a well-formed store. *)
Definition txn_after (db : database) (rows : list row) (xs : list sql_value) : database :=
  match xs with
  | [x1; x2; x3; x4] => db_after_insert db rows (new_row (Z.of_nat (length rows) + 1) x1 x2 x3 x4)
  | _ => db
  end.

(** Remaining statements of a call: the measure every step decreases. *)
Definition remaining (th : thread) : nat :=
  match th_pc th with
  | PcStart => 4 | PcConnected _ => 3 | PcExecuted _ => 2 | PcCommitted _ => 1
  | PcDone | PcFailed _ => 0
  end.

Definition measure (ths : list thread) : nat := sum_list_with remaining ths.

(** ** The steps of one call *)

Lemma thread_step_start th w :
  th_pc th = PcStart ->
  thread_step th w = (Ret (PcConnected (mk_conn true None)), mk_world (Some (disk_db w)) (S (w_open w))).
Proof. unfold thread_step. by intros ->. Qed.

Lemma thread_step_insert th w db rows v1 v2 v3 v4 x1 x2 x3 x4 :
  th_pc th = PcConnected (mk_conn true None) -> th_stmt th = insert_event ->
  th_params th = [v1; v2; v3; v4] -> bind_values [v1; v2; v3; v4] = Ret [x1; x2; x3; x4] ->
  w_disk w = Some db -> store_ok db rows -> Z.of_nat (length rows) < INT64_MAX ->
  thread_step th w =
    (Ret (PcExecuted (mk_conn true (Some (txn_after db rows [x1; x2; x3; x4])))), w).
Proof.
  intros Hpc Hs Hp Hb Hd Hok Hmax. unfold thread_step. rewrite Hpc, Hs, Hp.
  unfold py_bind. cbn [cursor conn_open].
  rewrite (execute_insert_unfold w db) by (unfold disk_db; by rewrite Hd).
  rewrite (prepare_insert_ok _ _ Hok), Hb, (exec_insert_events _ _ _ _ _ _ Hok Hmax). done.
Qed.

Lemma thread_step_commit th w d :
  th_pc th = PcExecuted (mk_conn true (Some d)) ->
  thread_step th w = (Ret (PcCommitted (mk_conn true None)), mk_world (Some d) (w_open w)).
Proof. unfold thread_step. by intros ->. Qed.

Lemma thread_step_create th w db rows :
  th_pc th = PcConnected (mk_conn true None) -> th_stmt th = create_events -> th_params th = [] ->
  w_disk w = Some db -> store_ok db rows ->
  thread_step th w = (Ret (PcExecuted (mk_conn true None)), mk_world (Some db) (w_open w)).
Proof.
  intros Hpc Hs Hp Hd Hok. destruct w as [disk op]. cbn in Hd. subst disk.
  unfold thread_step. rewrite Hpc, Hs, Hp. cbn. by rewrite (exec_create_store_ok _ _ Hok).
Qed.

Lemma thread_step_commit_none th w :
  th_pc th = PcExecuted (mk_conn true None) ->
  thread_step th w = (Ret (PcCommitted (mk_conn true None)), w).
Proof. unfold thread_step. by intros ->. Qed.

Lemma thread_step_close th w :
  th_pc th = PcCommitted (mk_conn true None) ->
  thread_step th w = (Ret PcDone, mk_world (w_disk w) (pred (w_open w))).
Proof. unfold thread_step. by intros ->. Qed.

(** ** Lists of threads *)

Lemma existsb_false_lookup {A} (f : A -> bool) (l : list A) :
  existsb f l = false <-> forall k x, l !! k = Some x -> f x = false.
Proof.
  induction l as [|y l IH]; cbn [existsb]; [split; [done|intros; done]|].
  rewrite orb_false_iff, IH. split.
  - intros [Hy Hl] [|k] x; cbn; [by intros [= <-]|apply Hl].
  - intros H. split; [apply (H 0%nat); done|]. intros k x. apply (H (S k)).
Qed.

Lemma lock_taken_spec ths i :
  lock_taken ths i = false <->
  forall j t, j <> i -> ths !! j = Some t -> holds_lock t = false.
Proof.
  unfold lock_taken. rewrite existsb_false_lookup. split.
  - intros H j t Hj Ht. destruct (decide (j < i)%nat) as [Hlt|Hge].
    + apply (H j). by rewrite list_lookup_delete_lt.
    + destruct j as [|j]; [lia|]. apply (H j). rewrite list_lookup_delete_ge by lia. done.
  - intros H k x. destruct (decide (k < i)%nat) as [Hlt|Hge].
    + rewrite list_lookup_delete_lt by done. apply H. lia.
    + rewrite list_lookup_delete_ge by lia. apply H. lia.
Qed.

Lemma sum_insert (f : thread -> nat) ths i y x :
  ths !! i = Some y ->
  (sum_list_with f (<[i := x]> ths) + f y = sum_list_with f ths + f x)%nat.
Proof.
  revert i. induction ths as [|z ths IH]; intros [|i] H; try done.
  - injection H as ->. change (<[0%nat := x]> (y :: ths)) with (x :: ths). cbn [sum_list_with]. lia.
  - change (<[S i := x]> (z :: ths)) with (z :: <[i := x]> ths). cbn [sum_list_with].
    specialize (IH i H). lia.
Qed.


(** ** The invariant of the interleavings

    Every thread runs [save_event] with arguments that bind; a thread
    past [execute] holds the transaction of its [INSERT] on the current
    file; at most one holds the write lock; the file holds the spec's
    saves of the committed calls in some order [order] (the order of
    their commits); every connection opened and not closed is counted
    in [w_open]. *)

(** An [init_db] call. *)
Definition init_ok (th : thread) : Prop := th_stmt th = create_events /\ th_params th = [].

(** A [save_event] call with arguments that bind. *)
Definition save_ok (th : thread) : Prop :=
  th_stmt th = insert_event /\
  exists v1 v2 v3 v4 x1 x2 x3 x4, th_params th = [v1; v2; v3; v4] /\
    bind_values [v1; v2; v3; v4] = Ret [x1; x2; x3; x4].

Definition call_ok (th : thread) : Prop := init_ok th \/ save_ok th.

Definition pc_ok (w : world) (th : thread) : Prop :=
  match th_pc th with
  | PcStart | PcDone => True
  | PcConnected c | PcCommitted c => c = mk_conn true None
  | PcExecuted c => (init_ok th /\ c = mk_conn true None) \/
      (save_ok th /\ exists db rows, w_disk w = Some db /\ store_ok db rows /\
         c = mk_conn true (Some (txn_after db rows (th_vals th))))
  | PcFailed e => e = busy_error
  end.

Definition calls (ths : list thread) : list (stmt * list py_value) :=
  (fun th => (th_stmt th, th_params th)) <$> ths.

Record inv (w0 : world) (evs0 : list event) (ths0 : list thread) (w : world) (ths : list thread) :
    Prop := {
  inv_calls : calls ths = calls ths0;
  inv_ok : Forall call_ok ths;
  inv_pc : Forall (pc_ok w) ths;
  inv_excl : forall i j ti tj, ths !! i = Some ti -> ths !! j = Some tj ->
               holds_lock ti = true -> holds_lock tj = true -> i = j;
  inv_store : exists order, NoDup order /\
               (forall i, i ∈ order <-> exists th, ths !! i = Some th /\ committed th = true) /\
               abs_world w (spec_saves ths0 order evs0);
  inv_open : w_open w = (w_open w0 + open_count ths)%nat }.

(** ** Lemmas for the invariant *)

Lemma calls_insert ths i th p :
  ths !! i = Some th -> calls (<[i := with_pc th p]> ths) = calls ths.
Proof. intros H. unfold calls. rewrite list_fmap_insert. by apply list_insert_id; rewrite list_lookup_fmap, H. Qed.

Lemma calls_vals ths ths0 i th :
  calls ths = calls ths0 -> ths !! i = Some th ->
  exists th0, ths0 !! i = Some th0 /\ th_vals th0 = th_vals th.
Proof.
  intros Hc Hi. assert (Hl : calls ths !! i = Some (th_stmt th, th_params th))
    by (unfold calls; by rewrite list_lookup_fmap, Hi).
  rewrite Hc in Hl. unfold calls in Hl. rewrite list_lookup_fmap in Hl.
  destruct (ths0 !! i) as [th0|] eqn:E; [|done]. injection Hl as _ Hp.
  exists th0. split; [done|]. unfold th_vals. by rewrite Hp.
Qed.

Lemma calls_length ths ths0 : calls ths = calls ths0 -> length ths = length ths0.
Proof. intros H. apply (f_equal length) in H. unfold calls in H. by rewrite !length_fmap in H. Qed.

Lemma abs_world_disk w w' evs : w_disk w' = w_disk w -> abs_world w evs -> abs_world w' evs.
Proof. intros Hd (db & rows & H & Hok & ->). exists db, rows. by rewrite Hd. Qed.

Lemma pc_ok_disk w w' th : w_disk w' = w_disk w -> pc_ok w th -> pc_ok w' th.
Proof. unfold pc_ok. intros Hd. destruct (th_pc th); try done. by rewrite Hd. Qed.

Lemma pc_ok_idle w w' th :
  holds_lock th = false -> pc_ok w th -> pc_ok w' th.
Proof.
  unfold pc_ok, holds_lock. destruct (th_pc th); try done.
  intros Hl [[Hi ->]|(_ & db & rows & _ & _ & ->)]; [by left|by rewrite bool_decide_eq_true_2 in Hl].
Qed.

Lemma store_ok_rows db rows rows' : store_ok db rows -> store_ok db rows' -> rows = rows'.
Proof.
  intros (H1 & _) (H2 & _). rewrite H1 in H2. injection H2. done.
Qed.

Lemma spec_saves_snoc ths0 order i evs th0 :
  ths0 !! i = Some th0 ->
  spec_saves ths0 (order ++ [i]) evs = spec_save_vals (th_vals th0) (spec_saves ths0 order evs).
Proof. intros H. unfold spec_saves. rewrite fold_left_app. cbn [fold_left]. by rewrite H. Qed.

Lemma spec_saves_length ths0 order evs :
  (length (spec_saves ths0 order evs) <= length evs + length order)%nat.
Proof.
  unfold spec_saves. revert evs. induction order as [|i order IH]; intros evs; cbn [fold_left length]; [lia|].
  etrans; [apply IH|]. destruct (ths0 !! i) as [th|]; [|lia].
  unfold spec_save_vals. destruct (th_vals th) as [|? [|? [|? [|? []]]]]; cbn [length]; try lia.
  unfold spec_save. rewrite length_app. cbn [length]. lia.
Qed.

(** A duplicate-free list of indices below [n] missing [i < n] has fewer
    than [n] elements. *)
Lemma order_short (order : list nat) n i :
  NoDup order -> (forall j, j ∈ order -> j < n)%nat -> (i < n)%nat -> i ∉ order ->
  (length order < n)%nat.
Proof.
  intros Hnd Hlt Hi Hni.
  assert (Hs : i :: order ⊆+ seq 0 n).
  { apply NoDup_submseteq; [by apply NoDup_cons|].
    intros j Hj. apply elem_of_seq. apply elem_of_cons in Hj as [->|Hj]; [lia|]. specialize (Hlt j Hj). lia. }
  apply submseteq_length in Hs. rewrite length_seq in Hs. cbn [length] in Hs. lia.
Qed.

Lemma committed_same (ths : list thread) (i : nat) th p (order : list nat) :
  ths !! i = Some th -> committed (with_pc th p) = committed th ->
  (forall j, j ∈ order <-> exists t, ths !! j = Some t /\ committed t = true) ->
  forall j, j ∈ order <-> exists t, <[i := with_pc th p]> ths !! j = Some t /\ committed t = true.
Proof.
  intros Hi Hc Hord j. rewrite Hord. pose proof (lookup_lt_Some _ _ _ Hi).
  destruct (decide (i = j)) as [<-|Hne].
  - rewrite list_lookup_insert_eq by done. rewrite Hi. split; intros (t & [= <-] & Ht).
    + exists (with_pc th p). split; [done|by rewrite Hc].
    + exists th. split; [done|by rewrite <- Hc].
  - by rewrite list_lookup_insert_ne.
Qed.

Lemma committed_snoc (ths : list thread) (i : nat) th p (order : list nat) :
  ths !! i = Some th -> committed th = false -> committed (with_pc th p) = true ->
  (forall j, j ∈ order <-> exists t, ths !! j = Some t /\ committed t = true) ->
  forall j, j ∈ order ++ [i] <-> exists t, <[i := with_pc th p]> ths !! j = Some t /\ committed t = true.
Proof.
  intros Hi Hc Hc' Hord j. rewrite elem_of_app, list_elem_of_singleton, Hord.
  pose proof (lookup_lt_Some _ _ _ Hi).
  destruct (decide (i = j)) as [<-|Hne].
  - rewrite list_lookup_insert_eq by done. split; [by eauto|intros _; by right].
  - rewrite list_lookup_insert_ne by done. split; [intros [Hm|Hm]; [done|congruence]|by left].
Qed.

Lemma inv_update w0 evs0 ths0 w ths i th p w' :
  inv w0 evs0 ths0 w ths -> ths !! i = Some th ->
  pc_ok w' (with_pc th p) ->
  (forall j t, j <> i -> ths !! j = Some t -> pc_ok w' t) ->
  (holds_lock (with_pc th p) = true -> forall j t, j <> i -> ths !! j = Some t -> holds_lock t = false) ->
  (exists order, NoDup order /\
     (forall j, j ∈ order <-> exists t, <[i := with_pc th p]> ths !! j = Some t /\ committed t = true) /\
     abs_world w' (spec_saves ths0 order evs0)) ->
  (w_open w' + active th = w_open w + active (with_pc th p))%nat ->
  inv w0 evs0 ths0 w' (<[i := with_pc th p]> ths).
Proof.
  intros [Hcalls Hok Hpc Hex Hst Hop] Hi Hpci Hpco Hlock Hst' Hop'.
  pose proof (lookup_lt_Some _ _ _ Hi) as Hlt. pose proof (sum_insert active ths i th (with_pc th p) Hi).
  constructor.
  - by rewrite calls_insert.
  - apply Forall_insert; [done|]. exact (Forall_lookup_1 _ _ _ _ Hok Hi).
  - apply Forall_lookup. intros j t. destruct (decide (i = j)) as [<-|Hne].
    + rewrite list_lookup_insert_eq by done. by intros [= <-].
    + rewrite list_lookup_insert_ne by done. by apply Hpco.
  - intros j k tj tk. destruct (decide (i = j)) as [<-|Hj], (decide (i = k)) as [<-|Hk];
      rewrite ?list_lookup_insert_eq, ?list_lookup_insert_ne by done; try done.
    + intros [= <-] Hk' Hl1 Hl2. by rewrite (Hlock Hl1 k tk ltac:(done) Hk') in Hl2.
    + intros Hj' [= <-] Hl1 Hl2. by rewrite (Hlock Hl2 j tj ltac:(done) Hj') in Hl1.
    + apply Hex.
  - done.
  - unfold open_count in *. lia.
Qed.

Lemma call_ok_vals th :
  save_ok th -> exists v1 v2 v3 v4 x1 x2 x3 x4, th_stmt th = insert_event /\
    th_params th = [v1; v2; v3; v4] /\ bind_values [v1; v2; v3; v4] = Ret [x1; x2; x3; x4] /\
    th_vals th = [x1; x2; x3; x4].
Proof.
  intros (Hs & v1 & v2 & v3 & v4 & x1 & x2 & x3 & x4 & Hp & Hb).
  exists v1, v2, v3, v4, x1, x2, x3, x4. unfold th_vals. by rewrite Hp, Hb.
Qed.

Lemma active_le ths i th : ths !! i = Some th -> (active th <= open_count ths)%nat.
Proof. intros H. apply sum_list_with_in. by eapply list_elem_of_lookup_2. Qed.

(** ** Termination of every interleaving *)

Lemma thread_step_remaining th w :
  finished th = false -> (remaining (with_pc th (outcome_pc (fst (thread_step th w)))) < remaining th)%nat.
Proof.
  unfold finished, thread_step, remaining, py_bind, with_pc. cbn [th_pc].
  destruct (th_pc th); try done; intros _.
  - cbn; lia.
  - unfold cursor. destruct (conn_open c); [|cbn; lia].
    destruct (execute c _ _ w) as [[]]; cbn; lia.
  - unfold commit. destruct (negb (conn_open c)); [cbn; lia|]. destruct (conn_txn c); cbn; lia.
  - unfold close. destruct (conn_open c); cbn; lia.
Qed.

Lemma cstep_measure w ths w' ths' :
  cstep (w, ths) (w', ths') -> (measure ths' < measure ths)%nat.
Proof.
  unfold measure. intros Hs. inversion Hs as [? ? i th o ? Hi Hfin _ Hrun|? ? i th c Hi Hpc _ _]; subst.
  - pose proof (sum_insert remaining ths i th (with_pc th (outcome_pc o)) Hi).
    pose proof (thread_step_remaining th w Hfin) as Hr. rewrite Hrun in Hr. cbn in Hr. lia.
  - pose proof (sum_insert remaining ths i th (with_pc th (PcFailed busy_error)) Hi).
    unfold remaining at 2 in H. rewrite Hpc in H. cbn in H. lia.
Qed.

(** A finished call never steps again. *)
Lemma cstep_finished c c' j th :
  cstep c c' -> c.2 !! j = Some th -> finished th = true -> c'.2 !! j = Some th.
Proof.
  intros Hs Hj Hf. inversion Hs as [? ? i t o ? Hi Hfin _ _|? ? i t cn Hi Hpc _ _]; subst; cbn in *;
    (destruct (decide (i = j)) as [<-|Hne]; [|by rewrite list_lookup_insert_ne]);
    rewrite Hi in Hj; injection Hj as <-; [congruence|].
  unfold finished in Hf. by rewrite Hpc in Hf.
Qed.

Lemma rtc_finished c c' : rtc cstep c c' -> forall j th, c.2 !! j = Some th -> finished th = true -> c'.2 !! j = Some th.
Proof.
  induction 1 as [|c1 c2 c3 Hs _ IH]; [done|]. intros j th Hj Hf.
  apply IH; [|done]. by apply (cstep_finished c1).
Qed.

Section InvSteps.

Context (w0 : world) (evs0 : list event) (ths0 : list thread).
Hypothesis Hbound : Z.of_nat (length evs0 + length ths0) <= INT64_MAX.

Lemma inv_connect w ths i th :
  inv w0 evs0 ths0 w ths -> ths !! i = Some th -> th_pc th = PcStart ->
  inv w0 evs0 ths0 (mk_world (Some (disk_db w)) (S (w_open w)))
      (<[i := with_pc th (PcConnected (mk_conn true None))]> ths).
Proof.
  intros Hinv Hi Hpc. pose proof Hinv as [_ _ Hpcs _ (order & Hnd & Hord & Habs) _].
  assert (Hd : w_disk (mk_world (Some (disk_db w)) (S (w_open w))) = w_disk w).
  { destruct Habs as (db & rows & Hd & _). cbn. unfold disk_db. by rewrite Hd. }
  apply (inv_update _ _ _ w); try done.
  - intros j t _ Ht. apply (pc_ok_disk w); [done|exact (Forall_lookup_1 _ _ _ _ Hpcs Ht)].
  - exists order. split; [done|]. split; [by apply committed_same; [|unfold committed; cbn; rewrite Hpc|]|].
    by apply (abs_world_disk w).
  - unfold active. cbn. rewrite Hpc. lia.
Qed.

(** A call that has not committed finds a well-formed file with room
    for its row: the rows are the saves of the other committed calls. *)
Lemma inv_room w ths i th :
  inv w0 evs0 ths0 w ths -> ths !! i = Some th -> committed th = false ->
  exists db rows, w_disk w = Some db /\ store_ok db rows /\ Z.of_nat (length rows) < INT64_MAX.
Proof.
  intros Hinv Hi Hc. pose proof Hinv as [Hcalls _ _ _ (order & Hnd & Hord & Habs) _].
  destruct Habs as (db & rows & Hd & Hok' & Hevs). exists db, rows. split; [done|]. split; [done|].
  pose proof (omap_rows_length rows (proj2 (proj2 (proj2 Hok')))) as Hl.
  pose proof (spec_saves_length ths0 order evs0) as Hs0. rewrite Hevs, Hl in Hs0.
  pose proof (calls_length _ _ Hcalls) as Hn.
  assert (Hsh : (length order < length ths)%nat).
  { apply (order_short order (length ths) i Hnd); [|by eapply lookup_lt_Some|].
    - intros j Hj. apply Hord in Hj as (t & Ht & _). by eapply lookup_lt_Some.
    - intros Hin. apply Hord in Hin as (t & Ht & Hct). rewrite Hi in Ht. injection Ht as <-. congruence. }
  lia.
Qed.

Lemma inv_execute_save w ths i th c o w' :
  inv w0 evs0 ths0 w ths -> ths !! i = Some th -> th_pc th = PcConnected c -> save_ok th ->
  lock_taken ths i = false -> thread_step th w = (o, w') ->
  inv w0 evs0 ths0 w' (<[i := with_pc th (outcome_pc o)]> ths).
Proof.
  intros Hinv Hi Hpc Hsave Hlock Hstep.
  pose proof Hinv as [Hcalls Hok Hpcs _ (order & Hnd & Hord & Habs) _].
  destruct (call_ok_vals th Hsave) as (v1 & v2 & v3 & v4 & x1 & x2 & x3 & x4 & Hs & Hp & Hb & Hv).
  pose proof (Forall_lookup_1 _ _ _ _ Hpcs Hi) as Hc. unfold pc_ok in Hc. rewrite Hpc in Hc. subst c.
  destruct (inv_room w ths i th Hinv Hi) as (db & rows & Hd & Hok' & Hlen);
    [unfold committed; by rewrite Hpc|].
  rewrite (thread_step_insert th w db rows v1 v2 v3 v4 x1 x2 x3 x4) in Hstep by done.
  injection Hstep as <- <-. cbn [outcome_pc].
  apply (inv_update _ _ _ w); try done.
  - right. split; [done|]. exists db, rows. split; [done|]. split; [done|]. unfold th_vals. cbn. by rewrite Hp, Hb.
  - intros j t _ Ht. exact (Forall_lookup_1 _ _ _ _ Hpcs Ht).
  - intros _ j t Hj Ht. exact (proj1 (lock_taken_spec ths i) Hlock j t Hj Ht).
  - exists order. split; [done|]. split; [by apply committed_same; [|unfold committed; cbn; rewrite Hpc|]|].
    done.
  - unfold active. cbn. rewrite Hpc. lia.
Qed.

Lemma inv_execute_init w ths i th c o w' :
  inv w0 evs0 ths0 w ths -> ths !! i = Some th -> th_pc th = PcConnected c -> init_ok th ->
  thread_step th w = (o, w') ->
  inv w0 evs0 ths0 w' (<[i := with_pc th (outcome_pc o)]> ths).
Proof.
  intros Hinv Hi Hpc [Hs Hp] Hstep. pose proof Hinv as [_ _ Hpcs _ (order & Hnd & Hord & Habs) _].
  pose proof (Forall_lookup_1 _ _ _ _ Hpcs Hi) as Hc. unfold pc_ok in Hc. rewrite Hpc in Hc. subst c.
  pose proof Habs as (db & rows & Hd & Hok' & _).
  rewrite (thread_step_create th w db rows Hpc Hs Hp Hd Hok') in Hstep. injection Hstep as <- <-.
  cbn [outcome_pc]. assert (Hd' : w_disk (mk_world (Some db) (w_open w)) = w_disk w) by (cbn; by rewrite Hd).
  apply (inv_update _ _ _ w); try done.
  - left. done.
  - intros j t _ Ht. apply (pc_ok_disk w); [done|exact (Forall_lookup_1 _ _ _ _ Hpcs Ht)].
  - exists order. split; [done|]. split; [by apply committed_same; [|unfold committed; cbn; rewrite Hpc|]|].
    by apply (abs_world_disk w).
  - unfold active. cbn. rewrite Hpc. lia.
Qed.

(** The commit order grows by the committing call. *)
Lemma order_commit (ths : list thread) (order : list nat) (i : nat) th p :
  NoDup order -> (forall j, j ∈ order <-> exists t, ths !! j = Some t /\ committed t = true) ->
  ths !! i = Some th -> committed th = false -> committed (with_pc th p) = true ->
  NoDup (order ++ [i]) /\
  forall j, j ∈ order ++ [i] <-> exists t, <[i := with_pc th p]> ths !! j = Some t /\ committed t = true.
Proof.
  intros Hnd Hord Hi Hc Hc'. split; [|by apply committed_snoc].
  apply NoDup_app. split; [done|]. split; [|apply NoDup_singleton].
  intros j Hj ->%list_elem_of_singleton. apply Hord in Hj as (t & Ht & Hct). congruence.
Qed.

Lemma inv_commit_save w ths i th db rows o w' :
  inv w0 evs0 ths0 w ths -> ths !! i = Some th -> save_ok th ->
  th_pc th = PcExecuted (mk_conn true (Some (txn_after db rows (th_vals th)))) ->
  w_disk w = Some db -> store_ok db rows -> thread_step th w = (o, w') ->
  inv w0 evs0 ths0 w' (<[i := with_pc th (outcome_pc o)]> ths).
Proof.
  intros Hinv Hi Hsave Hpc Hd Hok' Hstep.
  pose proof Hinv as [Hcalls _ Hpcs Hex (order & Hnd & Hord & Habs) _].
  destruct (call_ok_vals th Hsave) as (v1 & v2 & v3 & v4 & x1 & x2 & x3 & x4 & _ & _ & _ & Hv).
  rewrite (thread_step_commit th w _ Hpc) in Hstep. injection Hstep as <- <-. cbn [outcome_pc].
  assert (Hlock : holds_lock th = true) by (unfold holds_lock; rewrite Hpc; by apply bool_decide_eq_true_2).
  destruct (calls_vals _ _ _ _ Hcalls Hi) as (th0 & Hth0 & Hv0).
  apply (inv_update _ _ _ w); try done.
  - intros j t Hj Ht. apply (pc_ok_idle w); [|exact (Forall_lookup_1 _ _ _ _ Hpcs Ht)].
    destruct (holds_lock t) eqn:Hl; [|done]. by destruct Hj; apply (Hex j i t th).
  - exists (order ++ [i]). destruct (order_commit ths order i th (PcCommitted (mk_conn true None)))
      as [Hnd' Hord']; try done; [unfold committed; by rewrite Hpc|].
    split; [done|]. split; [done|].
    rewrite (spec_saves_snoc _ _ _ _ _ Hth0), Hv0, Hv.
    destruct Habs as (db' & rows' & Hd' & Hok'' & ->). rewrite Hd in Hd'. injection Hd' as <-.
    rewrite <- (store_ok_rows _ _ _ Hok' Hok''). by apply abs_after_insert.
  - unfold active. cbn. rewrite Hpc. lia.
Qed.

Lemma inv_commit_init w ths i th o w' :
  inv w0 evs0 ths0 w ths -> ths !! i = Some th -> init_ok th ->
  th_pc th = PcExecuted (mk_conn true None) -> thread_step th w = (o, w') ->
  inv w0 evs0 ths0 w' (<[i := with_pc th (outcome_pc o)]> ths).
Proof.
  intros Hinv Hi [_ Hp] Hpc Hstep. pose proof Hinv as [Hcalls _ Hpcs _ (order & Hnd & Hord & Habs) _].
  rewrite (thread_step_commit_none th w Hpc) in Hstep. injection Hstep as <- <-. cbn [outcome_pc].
  destruct (calls_vals _ _ _ _ Hcalls Hi) as (th0 & Hth0 & Hv0).
  apply (inv_update _ _ _ w); try done.
  - intros j t _ Ht. exact (Forall_lookup_1 _ _ _ _ Hpcs Ht).
  - exists (order ++ [i]). destruct (order_commit ths order i th (PcCommitted (mk_conn true None)))
      as [Hnd' Hord']; try done; [unfold committed; by rewrite Hpc|].
    split; [done|]. split; [done|].
    rewrite (spec_saves_snoc _ _ _ _ _ Hth0), Hv0. unfold th_vals. by rewrite Hp.
  - unfold active. cbn. rewrite Hpc. lia.
Qed.

Lemma inv_commit w ths i th c o w' :
  inv w0 evs0 ths0 w ths -> ths !! i = Some th -> th_pc th = PcExecuted c ->
  thread_step th w = (o, w') ->
  inv w0 evs0 ths0 w' (<[i := with_pc th (outcome_pc o)]> ths).
Proof.
  intros Hinv Hi Hpc Hstep. pose proof (Forall_lookup_1 _ _ _ _ (inv_pc _ _ _ _ _ Hinv) Hi) as Hc.
  unfold pc_ok in Hc. rewrite Hpc in Hc.
  destruct Hc as [[Hinit ->]|(Hsave & db & rows & Hd & Hok' & ->)].
  - by apply (inv_commit_init w ths i th).
  - by apply (inv_commit_save w ths i th db rows).
Qed.

Lemma inv_close w ths i th c o w' :
  inv w0 evs0 ths0 w ths -> ths !! i = Some th -> th_pc th = PcCommitted c ->
  thread_step th w = (o, w') ->
  inv w0 evs0 ths0 w' (<[i := with_pc th (outcome_pc o)]> ths).
Proof.
  intros Hinv Hi Hpc Hstep.
  pose proof Hinv as [_ _ Hpcs _ (order & Hnd & Hord & Habs) Hop].
  pose proof (Forall_lookup_1 _ _ _ _ Hpcs Hi) as Hc. unfold pc_ok in Hc. rewrite Hpc in Hc. subst c.
  rewrite (thread_step_close th w Hpc) in Hstep. injection Hstep as <- <-. cbn [outcome_pc].
  pose proof (active_le ths i th Hi) as Hle. unfold active in Hle at 1. rewrite Hpc in Hle.
  apply (inv_update _ _ _ w); try done.
  - intros j t _ Ht. apply (pc_ok_disk w); [done|exact (Forall_lookup_1 _ _ _ _ Hpcs Ht)].
  - exists order. split; [done|]. split; [by apply committed_same; [|unfold committed; cbn; rewrite Hpc|]|].
    by apply (abs_world_disk w).
  - unfold active. cbn. rewrite Hpc. lia.
Qed.

Lemma inv_busy w ths i th c :
  inv w0 evs0 ths0 w ths -> ths !! i = Some th -> th_pc th = PcConnected c ->
  inv w0 evs0 ths0 w (<[i := with_pc th (PcFailed busy_error)]> ths).
Proof.
  intros Hinv Hi Hpc. pose proof Hinv as [_ _ Hpcs _ (order & Hnd & Hord & Habs) _].
  apply (inv_update _ _ _ w); try done.
  - intros j t _ Ht. exact (Forall_lookup_1 _ _ _ _ Hpcs Ht).
  - exists order. split; [done|]. split; [by apply committed_same; [|unfold committed; cbn; rewrite Hpc|]|done].
  - unfold active. cbn. rewrite Hpc. lia.
Qed.

(** Every step keeps the invariant. *)
Lemma cstep_inv w ths w' ths' :
  inv w0 evs0 ths0 w ths -> cstep (w, ths) (w', ths') -> inv w0 evs0 ths0 w' ths'.
Proof.
  intros Hinv Hstep. inversion Hstep as [? ? i th o ? Hi Hfin Hlock Hrun|? ? i th c Hi Hpc _ _]; subst.
  - pose proof (Forall_lookup_1 _ _ _ _ (inv_ok _ _ _ _ _ Hinv) Hi) as Hcall.
    destruct (th_pc th) eqn:Hpc; try (unfold finished in Hfin; by rewrite Hpc in Hfin).
    + rewrite (thread_step_start th _ Hpc) in Hrun. injection Hrun as <- <-. by apply inv_connect.
    + destruct Hcall as [Hinit|Hsave]; [by apply (inv_execute_init w ths i th c)|].
      apply (inv_execute_save w ths i th c); try done.
      apply Hlock; [unfold is_connected; by rewrite Hpc|by rewrite (proj1 Hsave)].
    + by apply (inv_commit w ths i th c).
    + by apply (inv_close w ths i th c).
  - by apply (inv_busy _ _ i th c).
Qed.

Lemma inv_init :
  abs_world w0 evs0 -> Forall (fun th => call_ok th /\ th_pc th = PcStart) ths0 ->
  inv w0 evs0 ths0 w0 ths0.
Proof.
  intros Habs Hall. constructor.
  - done.
  - eapply Forall_impl; [exact Hall|]. by intros th [].
  - eapply Forall_impl; [exact Hall|]. intros th [_ Hpc]. unfold pc_ok. by rewrite Hpc.
  - intros i j ti tj Hi _ Hl. pose proof (proj2 (Forall_lookup_1 _ _ _ _ Hall Hi)) as Hpc.
    unfold holds_lock in Hl. by rewrite Hpc in Hl.
  - exists []. split; [constructor|]. split; [|done].
    intros i. split; [intros Hin; by apply not_elem_of_nil in Hin|].
    intros (th & Hi & Hc). pose proof (proj2 (Forall_lookup_1 _ _ _ _ Hall Hi)) as Hpc.
    unfold committed in Hc. by rewrite Hpc in Hc.
  - enough (open_count ths0 = 0%nat) by lia. clear -Hall. unfold open_count.
    induction Hall as [|th ths [_ Hpc] _ IH]; [done|]. cbn [sum_list_with]. unfold active at 1. rewrite Hpc. cbn. exact IH.
Qed.

Lemma rtc_inv w ths :
  abs_world w0 evs0 -> Forall (fun th => call_ok th /\ th_pc th = PcStart) ths0 ->
  rtc cstep (w0, ths0) (w, ths) -> inv w0 evs0 ths0 w ths.
Proof.
  intros Habs Hall. change (rtc cstep (w0, ths0) (w, ths) -> inv w0 evs0 ths0 (w, ths).1 (w, ths).2).
  apply (rtc_ind_r (fun c => inv w0 evs0 ths0 c.1 c.2)); [by apply inv_init|].
  intros [w1 ths1] [w2 ths2] _ Hs IH. exact (cstep_inv w1 ths1 w2 ths2 IH Hs).
Qed.

(** ** Progress *)

(** A call that is not finished can take its next statement without
    raising (whether it may, under the lock, is [cstep]'s business). *)
Lemma step_enabled w ths i th :
  inv w0 evs0 ths0 w ths -> ths !! i = Some th -> finished th = false ->
  exists p w', thread_step th w = (Ret p, w') /\ forall e, p <> PcFailed e.
Proof.
  intros Hinv Hi Hfin. pose proof Hinv as [_ Hok Hpcs _ _ _].
  pose proof (Forall_lookup_1 _ _ _ _ Hpcs Hi) as Hc. unfold pc_ok in Hc.
  destruct (th_pc th) eqn:Hpc; try (unfold finished in Hfin; by rewrite Hpc in Hfin).
  - eexists _, _. split; [by apply thread_step_start|done].
  - subst c. destruct (inv_room w ths i th Hinv Hi) as (db & rows & Hd & Hok' & Hlen);
      [unfold committed; by rewrite Hpc|].
    destruct (Forall_lookup_1 _ _ _ _ Hok Hi) as [[Hs Hp]|Hsave].
    { eexists _, _. split; [by eapply thread_step_create|done]. }
    destruct (call_ok_vals th Hsave) as (v1 & v2 & v3 & v4 & x1 & x2 & x3 & x4 & Hs & Hp & Hb & _).
    eexists _, _. split; [by eapply thread_step_insert|done].
  - destruct Hc as [[_ ->]|(_ & db & rows & _ & _ & ->)].
    + eexists _, _. split; [exact (thread_step_commit_none th w Hpc)|done].
    + eexists _, _. split; [exact (thread_step_commit th w _ Hpc)|done].
  - subst c. eexists _, _. split; [by apply thread_step_close|done].
Qed.

(** Some unfinished call may run: the lock holder if there is one,
    otherwise any unfinished call. *)
Lemma choose_runnable w ths :
  inv w0 evs0 ths0 w ths -> (exists i th, ths !! i = Some th /\ finished th = false) ->
  exists i th, ths !! i = Some th /\ finished th = false /\
    (is_connected th = true -> lock_taken ths i = false).
Proof.
  intros Hinv (i & th & Hi & Hfin). destruct (existsb holds_lock ths) eqn:E.
  - apply existsb_exists in E as (t & Hin%list_elem_of_In & Hl).
    apply list_elem_of_lookup_1 in Hin as [j Hj]. exists j, t. unfold holds_lock in Hl.
    split; [done|]. unfold finished, is_connected. by destruct (th_pc t).
  - exists i, th. split; [done|]. split; [done|]. intros _. apply lock_taken_spec.
    intros j t _ Hj. exact (proj1 (existsb_false_lookup _ _) E j t Hj).
Qed.

Lemma complete_from_inv w ths :
  inv w0 evs0 ths0 w ths ->
  exists w' ths', rtc cstep (w, ths) (w', ths') /\ Forall (fun th => finished th = true) ths' /\
    forall j th, ths !! j = Some th -> finished th = false ->
      exists th', ths' !! j = Some th' /\ th_pc th' = PcDone.
Proof.
  remember (measure ths) as n eqn:En. revert w ths En. induction n as [n IH] using lt_wf_ind.
  intros w ths -> Hinv. destruct (decide (Forall (fun th => finished th = true) ths)) as [Hall|Hnot].
  { exists w, ths. split; [done|]. split; [done|]. intros j th Hj Hf.
    by rewrite (Forall_lookup_1 _ _ _ _ Hall Hj) in Hf. }
  apply not_Forall_Exists, Exists_exists in Hnot as [t [Hin Hf]]; [|apply _].
  apply list_elem_of_lookup_1 in Hin as [k Hk].
  destruct (choose_runnable w ths Hinv) as (i & th & Hi & Hfin & Hlock); [exists k, t; split; [done|]; cbn in Hf; destruct (finished t); [by destruct Hf|done]|].
  destruct (step_enabled w ths i th Hinv Hi Hfin) as (p & w1 & Hrun & Hnf).
  assert (Hs : cstep (w, ths) (w1, <[i := with_pc th p]> ths))
    by exact (cstep_run w ths i th (Ret p) w1 Hi Hfin (fun Hc _ => Hlock Hc) Hrun).
  destruct (IH _ (cstep_measure _ _ _ _ Hs) w1 _ eq_refl (cstep_inv _ _ _ _ Hinv Hs))
    as (w' & ths' & Hr & Hall' & Hdone).
  exists w', ths'. split; [by eapply rtc_l|]. split; [done|].
  intros j t' Hj Hf'. pose proof (lookup_lt_Some _ _ _ Hi).
  destruct (decide (i = j)) as [<-|Hne]; [|apply (Hdone j t'); [by rewrite list_lookup_insert_ne|done]].
  rewrite Hi in Hj. injection Hj as <-. destruct (finished (with_pc th p)) eqn:Hf1.
  - exists (with_pc th p). split.
    + apply (rtc_finished _ _ Hr i); [cbn; by rewrite list_lookup_insert_eq|done].
    + unfold finished in Hf1. cbn in Hf1 |- *. destruct p; try done. by destruct (Hnf e).
  - apply (Hdone i (with_pc th p)); [by rewrite list_lookup_insert_eq|done].
Qed.

End InvSteps.

(** Calls that raised. *)
Definition failed (th : thread) : bool :=
  match th_pc th with PcFailed _ => true | _ => false end.

Lemma open_count_finished ths :
  Forall (fun th => finished th = true) ths -> open_count ths = length (List.filter failed ths).
Proof.
  unfold open_count. induction 1 as [|th ths Hf _ IH]; [done|]. cbn [sum_list_with List.filter].
  rewrite IH. unfold finished, active, failed in *. destruct (th_pc th); try done; cbn [length]; lia.
Qed.

Section ConcurrentProperties.

Context (w0 : world) (evs0 : list event) (ths0 : list thread).
Hypothesis Habs0 : abs_world w0 evs0.
Hypothesis Hstart : Forall (fun th => call_ok th /\ th_pc th = PcStart) ths0.
Hypothesis Hbound : Z.of_nat (length evs0 + length ths0) <= INT64_MAX.

(** C27. Mutual exclusion: in every interleaving of [init_db] calls
    and [save_event] calls with arguments that bind, started on a well-formed store with room
    for all their rows, at most one connection holds an open
    transaction at any time, and the only exception a call raises is
    [OperationalError("database is locked")]. *)
Theorem concurrent_mutual_exclusion w ths :
  rtc cstep (w0, ths0) (w, ths) ->
  (forall i j ti tj, ths !! i = Some ti -> ths !! j = Some tj ->
     holds_lock ti = true -> holds_lock tj = true -> i = j) /\
  Forall (fun th => forall e, th_pc th = PcFailed e -> e = busy_error) ths.
Proof.
  intros Hr. destruct (rtc_inv w0 evs0 ths0 Hbound w ths Habs0 Hstart Hr) as [_ _ Hpcs Hex _ _].
  split; [done|]. eapply Forall_impl; [exact Hpcs|]. intros th Hpc e He. unfold pc_ok in Hpc. by rewrite He in Hpc.
Qed.

(** C28. Linearizability: when every call of an interleaving has
    returned or raised, the file holds a well-formed store with the
    spec's saves of exactly the [save_event] calls that returned, one
    after the other in some order (the order of their commits; an
    [init_db] call changes nothing), on top of the
    events before; the connections left open are exactly one per call
    that raised. *)
Theorem concurrent_linearizable w ths :
  rtc cstep (w0, ths0) (w, ths) -> Forall (fun th => finished th = true) ths ->
  exists order, NoDup order /\
    (forall i, i ∈ order <-> exists th, ths !! i = Some th /\ th_pc th = PcDone) /\
    abs_world w (spec_saves ths0 order evs0) /\
    w_open w = (w_open w0 + length (List.filter failed ths))%nat.
Proof.
  intros Hr Hfin. destruct (rtc_inv w0 evs0 ths0 Hbound w ths Habs0 Hstart Hr)
    as [_ _ _ _ (order & Hnd & Hord & Habs) Hop].
  exists order. split; [done|]. split; [|split; [done|by rewrite Hop, open_count_finished]].
  intros i. rewrite Hord. split; intros (th & Hi & Hc); exists th; split; try done;
    pose proof (Forall_lookup_1 _ _ _ _ Hfin Hi) as Hf; unfold committed, finished in *;
    destruct (th_pc th); done.
Qed.

(** C29. Progress: from every configuration an interleaving reaches,
    the scheduler can run the calls to the end without any timeout:
    some further interleaving finishes every call, and every call that
    had not finished returns normally. *)
Theorem concurrent_calls_complete w ths :
  rtc cstep (w0, ths0) (w, ths) ->
  exists w' ths', rtc cstep (w, ths) (w', ths') /\ Forall (fun th => finished th = true) ths' /\
    forall j th, ths !! j = Some th -> finished th = false ->
      exists th', ths' !! j = Some th' /\ th_pc th' = PcDone.
Proof. intros Hr. exact (complete_from_inv w0 evs0 ths0 Hbound w ths (rtc_inv w0 evs0 ths0 Hbound w ths Habs0 Hstart Hr)). Qed.

End ConcurrentProperties.

(** Termination: every interleaving of calls is finite, whatever
    the calls and the file: each step takes one of the at most four
    statements left to a call. *)
Theorem concurrent_terminates : well_founded (fun c' c => cstep c c').
Proof.
  apply (well_founded_lt_compat _ (fun c => measure c.2)).
  intros [w' ths'] [w ths] Hs. exact (cstep_measure w ths w' ths' Hs).
Qed.

(** ** Witnesses: a rerun's [init_db] and two saves on the store holding
    Asha's birthday *)

Definition two_saves : list thread :=
  [init_thread;
   save_thread [PyStr "2025-04-02"; PyStr "Ravi"; PyStr "Anniversary"; PyInt 30];
   save_thread [PyStr "2025-05-10"; PyStr "Mina"; PyStr "Birthday"; PyInt 1440]].

Lemma two_saves_start : Forall (fun th => call_ok th /\ th_pc th = PcStart) two_saves.
Proof.
  constructor; [split; [by left|done]|].
  do 2 (constructor; [split; [right; split; [done|]; eexists _, _, _, _, _, _, _, _; split; reflexivity|done]|]).
  constructor.
Qed.

Lemma two_saves_bound : Z.of_nat (length [ev_asha] + length two_saves) <= INT64_MAX.
Proof. vm_compute. discriminate. Qed.

(** The [init_db] thread 0 and the save thread 1 connect and run their
    statements ([CREATE TABLE IF NOT EXISTS] takes no lock on the
    existing table); thread 2 connects and its [INSERT] times out on
    thread 1's lock; then threads 0 and 1 commit and close. *)
Ltac run_thread i := eapply rtc_l;
  [eapply (cstep_run _ _ i); [reflexivity|reflexivity|intros Hc _; first [reflexivity|discriminate Hc]|reflexivity]|].

Lemma concurrent_mutual_exclusion_witness :
  exists w ths, rtc cstep (w_one, two_saves) (w, ths) /\
  ((forall i j ti tj, ths !! i = Some ti -> ths !! j = Some tj ->
      holds_lock ti = true -> holds_lock tj = true -> i = j) /\
   Forall (fun th => forall e, th_pc th = PcFailed e -> e = busy_error) ths).
Proof.
  do 2 eexists. eassert (Hr : rtc cstep (w_one, two_saves) (_, _)).
  { run_thread 0%nat. run_thread 1%nat. run_thread 0%nat. run_thread 1%nat. apply rtc_refl. }
  split; [exact Hr|].
  exact (concurrent_mutual_exclusion _ _ _ abs_world_one two_saves_start two_saves_bound _ _ Hr).
Defined.

Ltac busy_thread i := eapply rtc_l; [eapply (cstep_busy _ _ i); reflexivity|].

Lemma concurrent_linearizable_witness :
  exists w ths, rtc cstep (w_one, two_saves) (w, ths) /\ Forall (fun th => finished th = true) ths /\
  exists order, NoDup order /\
    (forall i, i ∈ order <-> exists th, ths !! i = Some th /\ th_pc th = PcDone) /\
    abs_world w (spec_saves two_saves order [ev_asha]) /\
    w_open w = (w_open w_one + length (List.filter failed ths))%nat.
Proof.
  do 2 eexists. eassert (Hr : rtc cstep (w_one, two_saves) (_, _)).
  { run_thread 0%nat. run_thread 1%nat. run_thread 0%nat. run_thread 1%nat.
    run_thread 2%nat. busy_thread 2%nat.
    run_thread 0%nat. run_thread 0%nat. run_thread 1%nat. run_thread 1%nat. apply rtc_refl. }
  match type of Hr with rtc _ _ (_, ?ths) =>
    assert (Hf : Forall (fun th => finished th = true) ths) by (cbn; repeat constructor) end.
  split; [exact Hr|]. split; [exact Hf|].
  exact (concurrent_linearizable _ _ _ abs_world_one two_saves_start two_saves_bound _ _ Hr Hf).
Defined.

Lemma concurrent_calls_complete_witness :
  rtc cstep (w_one, two_saves) (w_one, two_saves) /\
  exists w' ths', rtc cstep (w_one, two_saves) (w', ths') /\ Forall (fun th => finished th = true) ths' /\
    forall j th, two_saves !! j = Some th -> finished th = false ->
      exists th', ths' !! j = Some th' /\ th_pc th' = PcDone.
Proof.
  split; [apply rtc_refl|].
  exact (concurrent_calls_complete _ _ _ abs_world_one two_saves_start two_saves_bound _ _ (rtc_refl _ _)).
Defined.

End Concurrent.
