(* ===== verification/ConcurrentInit.v ===== *)
(** * First runs on a machine without [events.db]

    Every rerun of the script starts with [init_db()] (src line 31), and
    the reminder form is reached only after it returned.  When [n]
    browser sessions open the page of a machine that has no
    [events.db] yet, their [n] first runs call [init_db] at once: the
    connections each create the file and run [CREATE TABLE IF NOT
    EXISTS events (...)] (lines 20-29), interleaved by [Concurrent.cstep].

    The [sqlite3] module opens no implicit transaction before a
    [CREATE] ([Sqlite.is_dml]): the statement runs in autocommit, holds
    the write lock only while it runs, and leaves nothing for [commit].
    [first_inv] is the invariant of these interleavings: the file is
    absent, empty, or holds exactly the empty [events] table, and it
    holds the table as soon as one call has run its statement. *)

From S2P Require Import Prelude PyText Sqlite EventStore Concurrent.

Module ConcurrentInit.

Import Sqlite EventStore Concurrent.

(** The first runs of [n] sessions on a machine without [events.db]:
    each is at the [init_db()] of line 31. *)
Definition first_runs (n : nat) : cfg := (mk_world None 0, repeat init_thread n).

(** The file after the first [CREATE TABLE IF NOT EXISTS events]. *)
Definition db_created : database := exec_create empty_db "events" events_columns (Some "id") true.

(** Where an [init_db] call may be: its connection is open, without a
    transaction, from [connect] to [close]. *)
Definition init_pc_ok (th : thread) : Prop :=
  match th_pc th with
  | PcStart | PcDone => True
  | PcConnected c | PcExecuted c | PcCommitted c => c = mk_conn true None
  | PcFailed _ => False
  end.

(** A call that has not run its statement yet. *)
Definition before_execute (th : thread) : bool :=
  match th_pc th with PcStart | PcConnected _ => true | _ => false end.

Record first_inv (w : world) (ths : list thread) : Prop := {
  fi_init : Forall init_ok ths;
  fi_pc : Forall init_pc_ok ths;
  fi_disk : w_disk w = None \/ w_disk w = Some empty_db \/ w_disk w = Some db_created;
  fi_phase : w_disk w = Some db_created \/ Forall (fun th => before_execute th = true) ths;
  fi_open : w_open w = open_count ths }.

(** ** Lemmas *)

Lemma abs_world_created w : w_disk w = Some db_created -> abs_world w [].
Proof. intros Hd. exists db_created, []. split; [done|]. split; [apply store_ok_fresh|done]. Qed.

Lemma exec_create_created db :
  db = empty_db \/ db = db_created ->
  exec_create db "events" events_columns (Some "id") true = db_created.
Proof. intros [->| ->]; [done|]. apply (exec_create_store_ok _ []), store_ok_fresh. Qed.

(** The [CREATE] of an [init_db] call, on whatever the file holds. *)
Lemma thread_step_create_any th w :
  th_pc th = PcConnected (mk_conn true None) -> init_ok th ->
  thread_step th w =
    (Ret (PcExecuted (mk_conn true None)),
     mk_world (Some (exec_create (disk_db w) "events" events_columns (Some "id") true)) (w_open w)).
Proof. intros Hpc [Hs Hp]. unfold thread_step. rewrite Hpc, Hs, Hp. reflexivity. Qed.

(** No [init_db] call holds the write lock. *)
Lemma first_no_lock ths i : Forall init_pc_ok ths -> lock_taken ths i = false.
Proof.
  intros Hall. apply lock_taken_spec. intros j t _ Ht.
  pose proof (Forall_lookup_1 _ _ _ _ Hall Ht) as Hp. unfold init_pc_ok in Hp. unfold holds_lock.
  destruct (th_pc t); try done. subst. done.
Qed.

Lemma cstep_length w ths w' ths' : cstep (w, ths) (w', ths') -> length ths' = length ths.
Proof. inversion 1; subst; apply length_insert. Qed.

Lemma rtc_length c c' : rtc cstep c c' -> length c'.2 = length c.2.
Proof.
  induction 1 as [|[w1 t1] [w2 t2] c3 Hs _ IH]; [done|]. rewrite IH. cbn. by eapply cstep_length.
Qed.

(** A configuration whose calls all finished takes no step. *)
Lemma cstep_all_finished w ths c' :
  Forall (fun th => finished th = true) ths -> ~ cstep (w, ths) c'.
Proof.
  intros Hall Hs. inversion Hs as [? ? i th o ? Hi Hfin _ _|? ? i th c Hi Hpc _ _]; subst;
    pose proof (Forall_lookup_1 _ _ _ _ Hall Hi) as Hf; [congruence|].
  unfold finished in Hf. by rewrite Hpc in Hf.
Qed.

Lemma open_count_done ths : Forall (fun th => th_pc th = PcDone) ths -> open_count ths = 0%nat.
Proof.
  unfold open_count. induction 1 as [|th ths Hd _ IH]; [done|].
  cbn [sum_list_with]. unfold active at 1. by rewrite Hd, IH.
Qed.

(** One call's step, with the pc it reaches and the world it leaves. *)
Lemma first_inv_update w ths i th p w' :
  first_inv w ths -> ths !! i = Some th ->
  init_pc_ok (with_pc th p) ->
  (w_disk w' = None \/ w_disk w' = Some empty_db \/ w_disk w' = Some db_created) ->
  (w_disk w' = Some db_created \/ before_execute (with_pc th p) = true /\
     Forall (fun th => before_execute th = true) ths) ->
  (w_open w' + active th = w_open w + active (with_pc th p))%nat ->
  first_inv w' (<[i := with_pc th p]> ths).
Proof.
  intros [Hinit Hpc _ _ Hop] Hi Hp Hd Hph Hop'. pose proof (sum_insert active ths i th (with_pc th p) Hi).
  constructor.
  - apply Forall_insert; [done|]. exact (Forall_lookup_1 _ _ _ _ Hinit Hi).
  - by apply Forall_insert.
  - done.
  - destruct Hph as [Hph|[Hb Hall]]; [by left|right]. by apply Forall_insert.
  - unfold open_count in *. lia.
Qed.

Lemma first_inv_step w ths w' ths' : first_inv w ths -> cstep (w, ths) (w', ths') -> first_inv w' ths'.
Proof.
  intros Hinv Hs. pose proof Hinv as [Hinit Hpcs Hd Hph Hop].
  inversion Hs as [? ? i th o ? Hi Hfin _ Hrun|? ? i th c Hi _ _ Hl]; subst;
    [|by rewrite first_no_lock in Hl].
  pose proof (Forall_lookup_1 _ _ _ _ Hpcs Hi) as Hp. pose proof (Forall_lookup_1 _ _ _ _ Hinit Hi) as Hok.
  unfold init_pc_ok in Hp. destruct (th_pc th) eqn:Hpc; try (unfold finished in Hfin; by rewrite Hpc in Hfin).
  - rewrite (thread_step_start th _ Hpc) in Hrun. injection Hrun as <- <-.
    apply (first_inv_update w); try done; cbn; unfold disk_db.
    + destruct Hd as [->|[->| ->]]; auto.
    + destruct Hph as [->|Hall]; [by left|by right].
    + unfold active. rewrite Hpc. lia.
  - subst c. rewrite (thread_step_create_any th w Hpc Hok) in Hrun. injection Hrun as <- <-.
    apply (first_inv_update w); try done; cbn.
    + rewrite exec_create_created; [auto|]. unfold disk_db. destruct Hd as [->|[->| ->]]; auto.
    + left. rewrite exec_create_created; [done|]. unfold disk_db. destruct Hd as [->|[->| ->]]; auto.
    + unfold active. rewrite Hpc. lia.
  - subst c. rewrite (thread_step_commit_none th w Hpc) in Hrun. injection Hrun as <- <-.
    apply (first_inv_update w); try done; cbn.
    + destruct Hph as [Hc|Hall]; [by left|]. pose proof (Forall_lookup_1 _ _ _ _ Hall Hi) as Hb.
      unfold before_execute in Hb. by rewrite Hpc in Hb.
    + unfold active. rewrite Hpc. lia.
  - subst c. rewrite (thread_step_close th w Hpc) in Hrun. injection Hrun as <- <-.
    pose proof (active_le ths i th Hi) as Hle. unfold active in Hle at 1. rewrite Hpc in Hle.
    apply (first_inv_update w); try done; cbn.
    + destruct Hph as [Hc|Hall]; [by left|]. pose proof (Forall_lookup_1 _ _ _ _ Hall Hi) as Hb.
      unfold before_execute in Hb. by rewrite Hpc in Hb.
    + unfold active. rewrite Hpc. unfold open_count in *. lia.
Qed.

Lemma first_inv_start n : first_inv (first_runs n).1 (first_runs n).2.
Proof.
  cbn. constructor; [| |by left|right|].
  1-3: induction n as [|n IH]; constructor; done.
  unfold open_count. induction n as [|n IH]; [done|]. cbn. exact IH.
Qed.

Lemma rtc_first_inv n w ths : rtc cstep (first_runs n) (w, ths) -> first_inv w ths.
Proof.
  change (rtc cstep (first_runs n) (w, ths) -> first_inv (w, ths).1 (w, ths).2).
  apply (rtc_ind_r (fun c => first_inv c.1 c.2)); [apply first_inv_start|].
  intros [w1 t1] [w2 t2] _ Hs IH. exact (first_inv_step w1 t1 w2 t2 IH Hs).
Qed.

(** A call past its statement finds the table. *)
Lemma first_inv_committed w ths i th :
  first_inv w ths -> ths !! i = Some th -> before_execute th = false -> abs_world w [].
Proof.
  intros [_ _ _ [Hd|Hall] _] Hi Hb; [by apply abs_world_created|].
  pose proof (Forall_lookup_1 _ _ _ _ Hall Hi). congruence.
Qed.

(** An unfinished call can always take its next statement. *)
Lemma first_inv_stuck w ths :
  first_inv w ths -> (forall c', ~ cstep (w, ths) c') -> Forall (fun th => th_pc th = PcDone) ths.
Proof.
  intros Hinv Hstuck. apply Forall_lookup. intros i th Hi.
  pose proof (Forall_lookup_1 _ _ _ _ (fi_pc _ _ Hinv) Hi) as Hp.
  destruct (finished th) eqn:Hf.
  - unfold finished in Hf. unfold init_pc_ok in Hp. by destruct (th_pc th).
  - destruct (thread_step th w) as [o w'] eqn:Hrun. destruct (Hstuck _ (cstep_run w ths i th o w' Hi Hf
      (fun _ _ => first_no_lock ths i (fi_pc _ _ Hinv)) Hrun)).
Qed.

(** C30. First runs at once: on a machine without [events.db], in
    every interleaving of the [init_db] calls of [n] first runs, no call
    raises (a [CREATE] runs in autocommit and never meets a held write
    lock), the file is absent, empty, or a well-formed store with no
    events (a later [CREATE] finds the table and leaves it), and as soon as
    one call has run its [CREATE] the table is there: a run that
    returned from [init_db] finds the store it saves to. *)
Theorem first_runs_safe n w ths :
  rtc cstep (first_runs n) (w, ths) ->
  Forall (fun th => failed th = false) ths /\
  (w_disk w = None \/ w_disk w = Some empty_db \/ abs_world w []) /\
  (forall i th, ths !! i = Some th -> committed th = true -> abs_world w []).
Proof.
  intros Hr. pose proof (rtc_first_inv n w ths Hr) as Hinv. destruct Hinv as [_ Hpcs Hd Hph Hop].
  split; [|split].
  - eapply Forall_impl; [exact Hpcs|]. intros th. unfold init_pc_ok, failed. by destruct (th_pc th).
  - destruct Hd as [Hd|[Hd|Hd]]; [by left|by right; left|by right; right; apply abs_world_created].
  - intros i th Hi Hc. apply (first_inv_committed w ths i th (rtc_first_inv n w ths Hr) Hi).
    unfold committed in Hc. unfold before_execute. by destruct (th_pc th).
Qed.

(** C31. The first runs always get through [init_db]: for [n >= 1]
    sessions on a machine without [events.db], every interleaving that
    cannot be extended (and by [Concurrent.concurrent_terminates] every
    schedule reaches one) has every [init_db] call returned normally, a
    well-formed store with no events in the file, and every connection
    closed. *)
Theorem first_runs_complete n w ths :
  (1 <= n)%nat -> rtc cstep (first_runs n) (w, ths) -> (forall c', ~ cstep (w, ths) c') ->
  Forall (fun th => th_pc th = PcDone) ths /\ abs_world w [] /\ w_open w = 0%nat.
Proof.
  intros Hn Hr Hstuck. pose proof (rtc_first_inv n w ths Hr) as Hinv.
  pose proof (first_inv_stuck w ths Hinv Hstuck) as Hdone.
  split; [done|]. split; [|rewrite (fi_open _ _ Hinv); by apply open_count_done].
  pose proof (rtc_length _ _ Hr) as Hl. cbn in Hl. rewrite repeat_length in Hl.
  destruct ths as [|th ths]; [cbn in Hl; lia|].
  apply (first_inv_committed w (th :: ths) 0 th Hinv); [done|].
  inversion Hdone as [|? ? Hd _]; subst. unfold before_execute. by rewrite Hd.
Qed.

(** ** Witnesses: two first runs whose [CREATE]s run back to back *)

Lemma first_runs_safe_witness :
  exists w ths, rtc cstep (first_runs 2) (w, ths) /\
  (Forall (fun th => failed th = false) ths /\
   (w_disk w = None \/ w_disk w = Some empty_db \/ abs_world w []) /\
   (forall i th, ths !! i = Some th -> committed th = true -> abs_world w [])).
Proof.
  do 2 eexists. eassert (Hr : rtc cstep (first_runs 2) (_, _)).
  { run_thread 0%nat. run_thread 1%nat. run_thread 0%nat. run_thread 1%nat. run_thread 1%nat.
    apply rtc_refl. }
  split; [exact Hr|]. exact (first_runs_safe 2 _ _ Hr).
Defined.

Lemma first_runs_complete_witness :
  exists w ths, (1 <= 2)%nat /\ rtc cstep (first_runs 2) (w, ths) /\ (forall c', ~ cstep (w, ths) c') /\
  (Forall (fun th => th_pc th = PcDone) ths /\ abs_world w [] /\ w_open w = 0%nat).
Proof.
  do 2 eexists. eassert (Hr : rtc cstep (first_runs 2) (_, _)).
  { run_thread 0%nat. run_thread 1%nat. run_thread 0%nat. run_thread 1%nat.
    run_thread 1%nat. run_thread 0%nat. run_thread 0%nat. run_thread 1%nat. apply rtc_refl. }
  assert (Hn : (1 <= 2)%nat) by lia.
  match type of Hr with rtc _ _ (?w, ?ths) =>
    assert (Hs : forall c', ~ cstep (w, ths) c') by (intros c'; apply cstep_all_finished; cbn; repeat constructor) end.
  split; [exact Hn|]. split; [exact Hr|]. split; [exact Hs|].
  exact (first_runs_complete 2 _ _ Hn Hr Hs).
Defined.

End ConcurrentInit.
