(* ===== verification/Streamlit.v ===== *)
(** * The page a script run renders, and the state of a run

    Each [st.*] call of the script appends one element to the page; the
    widgets also return the value the user gave them, which the model
    takes as an input of the run.  A run's state [app] pairs the page with
    the [Sqlite] world, so the components are procedures of [py app].
    [appends] states that a procedure only appends to the page. *)

From S2P Require Import Prelude Sqlite.

Module Streamlit.

Import Sqlite.

Inductive st_elem :=
  | StTitle (s : string)
  | StSubheader (s : string)
  | StWrite (s : string)
  | StMarkdown (s : string)
  | StCaption (s : string)
  | StSuccess (s : string)
  | StWarning (s : string)
  | StInfo (s : string)
  | StError (s : string)
  | StRadio (label : string) (options : list string)
  | StSelectbox (label : string) (options : list string)
  | StNumberInput (label : string) (min_value : Z)
  | StTextInput (label : string)
  | StButton (label : string)
  | StForm (key : string)
  | StDateInput (label : string)
  | StSlider (label : string) (lo hi default : Z)
  | StFormSubmit (label : string).

#[export] Instance st_elem_eq_dec : EqDecision st_elem.
Proof. solve_decision. Defined.

Record app := mk_app { app_world : world; app_page : list st_elem }.

(** [st.<element>(...)]: render one element. *)
Definition emit (e : st_elem) : py app unit := fun a =>
  (Ret tt, mk_app (app_world a) (app_page a ++ [e])).

(** Run a procedure on the database world inside a run. *)
Definition on_world {A} (c : py world A) : py app A := fun a =>
  let (o, w') := c (app_world a) in (o, mk_app w' (app_page a)).

Lemma emit_run e a : emit e a = (Ret tt, mk_app (app_world a) (app_page a ++ [e])).
Proof. reflexivity. Qed.

Lemma on_world_run {A} (c : py world A) a :
  on_world c a = ((c (app_world a)).1, mk_app (c (app_world a)).2 (app_page a)).
Proof. unfold on_world. by destruct (c (app_world a)). Qed.

(** A page-only procedure: it never changes the database world. *)
Definition keeps_world {A} (c : py app A) : Prop :=
  forall a, app_world (snd (c a)) = app_world a.

Lemma keeps_world_emit e : keeps_world (emit e).
Proof. done. Qed.

Lemma keeps_world_ret {A} (x : A) : keeps_world (py_ret x).
Proof. done. Qed.

Lemma keeps_world_bind {A B} (c : py app A) (k : A -> py app B) :
  keeps_world c -> (forall x, keeps_world (k x)) -> keeps_world (py_bind c k).
Proof.
  intros Hc Hk a. unfold py_bind. specialize (Hc a).
  destruct (c a) as [[x|e] a']; cbn in *; [by rewrite Hk|done].
Qed.

#[export] Hint Resolve keeps_world_emit keeps_world_ret keeps_world_bind : coach.

(** The world after [c ;; k] when [k] keeps the world. *)
Lemma world_after_bind_keeps {A B} (c : py app A) (k : A -> py app B) a :
  (forall x, keeps_world (k x)) ->
  app_world (snd (py_bind c k a)) = app_world (snd (c a)).
Proof. intros Hk. unfold py_bind. destruct (c a) as [[x|e] a']; [apply Hk|done]. Qed.

(** The world after [c ;; k] when [c] keeps the world and returns. *)
Lemma world_after_keeps_bind {A B} (c : py app A) (k : A -> py app B) a x a' :
  c a = (Ret x, a') -> app_world (snd (py_bind c k a)) = app_world (snd (k x a')).
Proof. unfold py_bind. by intros ->. Qed.

Lemma world_after_emit {B} e (k : unit -> py app B) a :
  app_world (snd (py_bind (emit e) k a)) =
  app_world (snd (k tt (mk_app (app_world a) (app_page a ++ [e])))).
Proof. reflexivity. Qed.

(** ** Procedures that only append to the page

    [st.*] calls never remove or reorder what is on the page: a
    procedure run on a page [p] leaves [p] followed by what it renders
    when run on an empty page, with the same outcome and world. *)
Definition appends {A} (c : py app A) : Prop :=
  forall w p, c (mk_app w p) =
    (fst (c (mk_app w [])),
     mk_app (app_world (snd (c (mk_app w [])))) (p ++ app_page (snd (c (mk_app w []))))).

Lemma appends_emit e : appends (emit e).
Proof. done. Qed.

Lemma appends_ret {A} (x : A) : appends (py_ret x).
Proof. intros w p. by rewrite app_nil_r. Qed.

Lemma appends_raise {A} e : appends (@py_raise app A e).
Proof. intros w p. by rewrite app_nil_r. Qed.

Lemma appends_on_world {A} (c : py world A) : appends (on_world c).
Proof. intros w p. rewrite !on_world_run. cbn. by rewrite app_nil_r. Qed.

Lemma appends_bind {A B} (c : py app A) (k : A -> py app B) :
  appends c -> (forall x, appends (k x)) -> appends (py_bind c k).
Proof.
  intros Hc Hk w p. unfold py_bind. rewrite (Hc w p).
  destruct (c (mk_app w [])) as [[x|e] [w' q]]; cbn [fst snd app_world app_page]; [|done].
  rewrite (Hk x w' (p ++ q)), (Hk x w' q). cbn. by rewrite app_assoc.
Qed.

#[export] Hint Resolve appends_emit appends_ret appends_raise appends_on_world : coach.

(** Prove [appends] of a procedure built from [emit], [on_world],
    [py_ret], [py_raise], binds and branches. *)
Ltac solve_appends :=
  repeat match goal with
  | |- appends (py_bind _ _) => apply appends_bind; [|intros ?]
  | |- appends (if _ then _ else _) => case_match
  | |- appends (match _ with _ => _ end) => case_match
  | |- appends (let _ := _ in _) => cbv zeta
  | _ => solve [auto with coach]
  end.

End Streamlit.
