(* ===== verification/Dates.v ===== *)
(** * Dates: [datetime.date] and [strftime("%Y-%m-%d")]

    [birthday_reminder] stores [event_date.strftime("%Y-%m-%d")] (src
    line 83), the date the [date_input] widget returned.  A
    [datetime.date] has a year in [1, 9999], a month in [1, 12] and a day
    within the month (leap years by the Gregorian rule).  [%m] and [%d]
    print two digits with zero padding; [%Y] prints four digits for the
    years [1000..9999] that the widget offers ([glibc] prints fewer
    digits below 1000, which the theorems exclude).  [parse_ymd] reads
    the stored text back. *)

From S2P Require Import Prelude PyText.

Module Dates.

Import PyText.

Record date := mk_date { year : Z; month : Z; day : Z }.

#[export] Instance date_eq_dec : EqDecision date.
Proof. solve_decision. Defined.

Definition is_leap (y : Z) : bool :=
  ((y mod 4 =? 0) && negb (y mod 100 =? 0)) || (y mod 400 =? 0).

Definition days_in_month (y m : Z) : Z :=
  if m =? 2 then (if is_leap y then 29 else 28)
  else if (m =? 4) || (m =? 6) || (m =? 9) || (m =? 11) then 30
  else 31.

(** The constructor's checks: [MINYEAR <= year <= MAXYEAR], month and day
    in range. *)
Definition valid_date (d : date) : bool :=
  (1 <=? year d) && (year d <=? 9999) && (1 <=? month d) && (month d <=? 12) &&
  (1 <=? day d) && (day d <=? days_in_month (year d) (month d)).

Definition strftime_ymd (d : date) : string :=
  (zfill 4 (str_of_nat (year d)) ++ "-" ++ zfill 2 (str_of_nat (month d)) ++ "-"
    ++ zfill 2 (str_of_nat (day d)))%string.

(** Read a maximal run of digits. *)
Fixpoint read_digits (s : string) (acc : Z) : Z * string :=
  match s with
  | EmptyString => (acc, EmptyString)
  | String c r =>
      match digit_val c with
      | Some d => read_digits r (acc * 10 + d)
      | None => (acc, s)
      end
  end.

(** A nonempty run of digits and what follows it. *)
Definition read_num (s : string) : option (Z * string) :=
  match s with
  | String c _ => if bool_decide (is_Some (digit_val c)) then Some (read_digits s 0) else None
  | EmptyString => None
  end.

(** The text [YYYY-MM-DD] read back as a date. *)
Definition parse_ymd (s : string) : option date :=
  match read_num s with
  | Some (y, String "-"%char r1) =>
      match read_num r1 with
      | Some (m, String "-"%char r2) =>
          match read_num r2 with
          | Some (d, EmptyString) => Some (mk_date y m d)
          | _ => None
          end
      | _ => None
      end
  | _ => None
  end.

(** ** Lemmas *)

#[local] Arguments digit_val : simpl never.

Lemma read_digits_app p t a v :
  parse_digits p a = Some v ->
  (forall c r, t = String c r -> digit_val c = None) ->
  read_digits (p ++ t)%string a = (v, t).
Proof.
  revert a. induction p as [|c p IH]; intros a Hp Ht; cbn [parse_digits] in Hp.
  - injection Hp as <-. destruct t as [|c r]; [done|]. simpl. by rewrite (Ht c r eq_refl).
  - simpl. destruct (digit_val c); [|done]. by apply IH.
Qed.

Lemma zfill_zeros w s : exists k, zfill w s = (String.concat "" (repeat "0" k) ++ s)%string.
Proof. by eexists. Qed.

Lemma parse_digits_zeros k s :
  parse_digits (String.concat "" (repeat "0" k) ++ s)%string 0 = parse_digits s 0.
Proof.
  induction k as [|k IH]; [done|]. cbn [repeat].
  destruct k; [done|]. cbn [String.concat String.append parse_digits]. exact IH.
Qed.

Lemma digit_zero : digit_val "0"%char = Some 0%Z.
Proof. reflexivity. Qed.

Lemma dash_not_digit : digit_val "-"%char = None.
Proof. reflexivity. Qed.

Lemma read_num_digits s t v :
  s <> ""%string -> parse_digits s 0 = Some v ->
  (forall c r, t = String c r -> digit_val c = None) ->
  read_num (s ++ t)%string = Some (v, t).
Proof.
  destruct s as [|c r]; [done|]. intros _ Hp Ht.
  assert (Hc : is_Some (digit_val c)) by (simpl in Hp; destruct (digit_val c); [by eexists|done]).
  change (String c r ++ t)%string with (String c (r ++ t)). unfold read_num.
  rewrite bool_decide_eq_true_2 by done. f_equal.
  change (String c (r ++ t)) with (String c r ++ t)%string. by apply read_digits_app.
Qed.

Lemma append_nonempty_r s1 s2 : s2 <> ""%string -> (s1 ++ s2)%string <> ""%string.
Proof. destruct s1; [done|]. discriminate. Qed.

(** A zero-padded decimal field followed by [t] reads as its value. *)
Lemma read_num_field w n t :
  (0 <= n)%Z ->
  (forall c r, t = String c r -> digit_val c = None) ->
  read_num (zfill w (str_of_nat n) ++ t)%string = Some (n, t).
Proof.
  intros Hn Ht. destruct (zfill_zeros w (str_of_nat n)) as [k ->].
  apply read_num_digits; [|clear Ht|done].
  - apply append_nonempty_r, str_of_nat_nonempty, Hn.
  - rewrite parse_digits_zeros, <- parse_nat_nonempty by (by apply str_of_nat_nonempty).
    by apply parse_nat_str.
Qed.

Lemma dash_app s : ("-" ++ s)%string = String "-"%char s.
Proof. reflexivity. Qed.

Lemma starts_with_dash s : forall c r, String "-"%char s = String c r -> digit_val c = None.
Proof. intros c r [= <- _]. reflexivity. Qed.

Lemma valid_date_bounds d :
  valid_date d = true ->
  (1 <= year d <= 9999 /\ 1 <= month d <= 12 /\ 1 <= day d <= days_in_month (year d) (month d))%Z.
Proof. unfold valid_date. rewrite !andb_true_iff, !Z.leb_le. lia. Qed.

Lemma parse_strftime d : valid_date d = true -> parse_ymd (strftime_ymd d) = Some d.
Proof.
  intros Hv. destruct (valid_date_bounds d Hv) as (Hy & Hm & Hd).
  unfold strftime_ymd, parse_ymd. rewrite !dash_app.
  rewrite read_num_field by (lia || apply starts_with_dash).
  rewrite read_num_field by (lia || apply starts_with_dash).
  rewrite <- (str_app_nil_r (zfill 2 (str_of_nat (day d)))).
  rewrite read_num_field by (lia || discriminate).
  by destruct d.
Qed.

Section DateProperties.

(** C15. Round trip of the stored date text: for every valid
    [datetime.date], reading back [strftime("%Y-%m-%d")] gives the date,
    so two valid dates are stored as the same text only when equal. *)
Theorem strftime_ymd_roundtrip d1 d2 :
  valid_date d1 = true -> valid_date d2 = true ->
  parse_ymd (strftime_ymd d1) = Some d1 /\ (strftime_ymd d1 = strftime_ymd d2 <-> d1 = d2).
Proof.
  intros H1 H2. split; [by apply parse_strftime|]. split; [|by intros ->].
  intros Heq. apply (f_equal parse_ymd) in Heq. rewrite !parse_strftime in Heq by done.
  by injection Heq.
Qed.

End DateProperties.

Lemma strftime_ymd_roundtrip_witness :
  parse_ymd (strftime_ymd (mk_date 2024 2 29)) = Some (mk_date 2024 2 29) /\
  (strftime_ymd (mk_date 2024 2 29) = strftime_ymd (mk_date 2025 3 1) <-> mk_date 2024 2 29 = mk_date 2025 3 1).
Proof. apply strftime_ymd_roundtrip; reflexivity. Defined.

End Dates.
