(* ===== verification/DateOrder.v ===== *)
(** * The order of the stored date texts

    [birthday_reminder] stores dates as [strftime("%Y-%m-%d")] text in a
    TEXT column (src line 83); any consumer that sorts or compares the
    column (SQLite's [ORDER BY date], Python's [<] on [str]) compares the
    texts character by character by code point, which on ASCII text is
    [String.compare].  This file shows that this order is the order of
    the dates, as [datetime.date] compares them (year, then month, then
    day), for the dates with four-digit years. *)

From S2P Require Import Prelude PyText Dates.

Module DateOrder.

Import PyText Dates.

#[local] Arguments digit_val : simpl never.

(** [datetime.date] comparison: the tuple [(year, month, day)]. *)
Definition date_compare (d1 d2 : date) : comparison :=
  match Z.compare (year d1) (year d2) with
  | Eq => match Z.compare (month d1) (month d2) with
          | Eq => Z.compare (day d1) (day d2)
          | c => c
          end
  | c => c
  end.

(** ** Digit strings *)

Fixpoint all_digits (s : string) : bool :=
  match s with
  | EmptyString => true
  | String c r => bool_decide (is_Some (digit_val c)) && all_digits r
  end.

(** The value of a string of digits. *)
Fixpoint dval (s : string) : Z :=
  match s with
  | EmptyString => 0
  | String c r => default 0 (digit_val c) * 10 ^ Z.of_nat (String.length r) + dval r
  end.

Lemma ascii_compare_digits c1 c2 d1 d2 :
  digit_val c1 = Some d1 -> digit_val c2 = Some d2 -> Ascii.compare c1 c2 = Z.compare d1 d2.
Proof.
  unfold digit_val, Ascii.nat_of_ascii, Ascii.compare.
  destruct (_ && _)%nat; [intros [= <-]|done]. destruct (_ && _)%nat; [intros [= <-]|done].
  rewrite !N_nat_Z.
  destruct (N.compare_spec (Ascii.N_of_ascii c1) (Ascii.N_of_ascii c2)) as [H|H|H];
    symmetry; [apply Z.compare_eq_iff|apply Z.compare_lt_iff|apply Z.compare_gt_iff]; lia.
Qed.

Lemma dval_range s : all_digits s = true -> 0 <= dval s < 10 ^ Z.of_nat (String.length s).
Proof.
  induction s as [|c r IH]; [cbn; lia|]. cbn [all_digits dval String.length].
  intros [Hc Hr]%andb_true_iff. apply bool_decide_eq_true in Hc as [d Hd].
  rewrite Hd. cbn [default id]. apply digit_val_range in Hd. specialize (IH Hr).
  rewrite Nat2Z.inj_succ, Z.pow_succ_r by lia.
  set (P := 10 ^ Z.of_nat (String.length r)) in *. nia.
Qed.

(** Digit strings of the same length compare as their values; what
    follows them decides only between equal values. *)
Lemma compare_digits s1 s2 t1 t2 :
  String.length s1 = String.length s2 -> all_digits s1 = true -> all_digits s2 = true ->
  String.compare (s1 ++ t1) (s2 ++ t2) =
  match Z.compare (dval s1) (dval s2) with Eq => String.compare t1 t2 | c => c end.
Proof.
  revert s2. induction s1 as [|c1 r1 IH]; intros [|c2 r2] Hlen H1 H2; try done.
  cbn [String.length] in Hlen. injection Hlen as Hlen.
  cbn [all_digits] in H1, H2. apply andb_true_iff in H1 as [Hc1 Hr1], H2 as [Hc2 Hr2].
  apply bool_decide_eq_true in Hc1 as [d1 Hd1], Hc2 as [d2 Hd2].
  change (String c1 r1 ++ t1)%string with (String c1 (r1 ++ t1)).
  change (String c2 r2 ++ t2)%string with (String c2 (r2 ++ t2)).
  cbn [String.compare dval]. rewrite (ascii_compare_digits _ _ _ _ Hd1 Hd2), IH by done.
  rewrite Hd1, Hd2, <- Hlen. cbn [default id].
  pose proof (dval_range r1 Hr1). pose proof (dval_range r2 Hr2). rewrite <- Hlen in *.
  pose proof (digit_val_range _ _ Hd1). pose proof (digit_val_range _ _ Hd2).
  set (P := 10 ^ Z.of_nat (String.length r1)) in *.
  destruct (Z.compare_spec d1 d2) as [->|Hlt|Hgt].
  - destruct (Z.compare_spec (dval r1) (dval r2));
      [rewrite (proj2 (Z.compare_eq_iff _ _)) by lia
      |rewrite (proj2 (Z.compare_lt_iff _ _)) by lia
      |rewrite (proj2 (Z.compare_gt_iff _ _)) by lia]; done.
  - rewrite (proj2 (Z.compare_lt_iff _ _)); [done|nia].
  - rewrite (proj2 (Z.compare_gt_iff _ _)); [done|nia].
Qed.

(** ** The fields [strftime] prints *)

Lemma all_digits_app s t : all_digits (s ++ t) = all_digits s && all_digits t.
Proof.
  induction s as [|c s IH]; [done|].
  change (String c s ++ t)%string with (String c (s ++ t)). cbn [all_digits]. by rewrite IH, andb_assoc.
Qed.

Lemma zeros_succ k : String.concat "" (repeat "0" (S k)) = String "0"%char (String.concat "" (repeat "0" k)).
Proof. by destruct k. Qed.

Lemma zeros_props k s :
  String.length (String.concat "" (repeat "0" k)) = k /\
  all_digits (String.concat "" (repeat "0" k)) = true /\
  dval (String.concat "" (repeat "0" k) ++ s) = dval s.
Proof.
  induction k as [|k (IHl & IHa & IHv)]; [done|]. rewrite zeros_succ.
  change (String "0"%char (String.concat "" (repeat "0" k)) ++ s)%string
    with (String "0"%char (String.concat "" (repeat "0" k) ++ s)).
  cbn [String.length all_digits dval]. rewrite digit_zero, IHl, IHa, IHv. done.
Qed.

Lemma digits_of_all_digits fuel n acc :
  0 <= n -> all_digits acc = true -> all_digits (digits_of fuel n acc) = true.
Proof.
  revert n acc. induction fuel as [|f IH]; intros n acc Hn Hacc; [done|]. cbn [digits_of].
  assert (Hd : all_digits (String (digit_char (n mod 10)) acc) = true).
  { cbn [all_digits]. rewrite digit_val_char by (apply Z.mod_pos_bound; lia). by rewrite Hacc. }
  destruct (n <? 10); [done|]. apply IH; [apply Z.div_pos; lia|done].
Qed.

Lemma digits_of_length fuel n acc k :
  (1 <= k)%nat -> 0 <= n < 10 ^ Z.of_nat k ->
  (String.length (digits_of fuel n acc) <= k + String.length acc)%nat.
Proof.
  revert n acc k. induction fuel as [|f IH]; intros n acc k Hk Hn; cbn [digits_of]; [lia|].
  destruct (Z.ltb_spec n 10) as [|Hge]; [cbn [String.length]; lia|].
  destruct k as [|[|k]]; [lia|cbn in Hn; lia|].
  rewrite Nat2Z.inj_succ, Z.pow_succ_r in Hn by lia.
  assert (Hq : 0 <= n / 10 < 10 ^ Z.of_nat (S k)).
  { split; [apply Z.div_pos; lia|]. apply Z.div_lt_upper_bound; lia. }
  specialize (IH (n / 10) (String (digit_char (n mod 10)) acc) (S k) ltac:(lia) Hq).
  cbn [String.length] in IH. lia.
Qed.

Lemma parse_digits_dval s a :
  all_digits s = true -> parse_digits s a = Some (a * 10 ^ Z.of_nat (String.length s) + dval s).
Proof.
  revert a. induction s as [|c r IH]; intros a Hs; [cbn; f_equal; lia|].
  cbn [all_digits] in Hs. apply andb_true_iff in Hs as [Hc Hr].
  apply bool_decide_eq_true in Hc as [d Hd].
  cbn [parse_digits dval String.length]. rewrite Hd, IH by done. cbn [default id].
  rewrite Nat2Z.inj_succ, Z.pow_succ_r by lia. f_equal. ring.
Qed.

(** A field [zfill w (str(n))] with [n < 10^w] is [w] digits whose value is [n]. *)
Lemma field_props w n :
  (1 <= w)%nat -> 0 <= n < 10 ^ Z.of_nat w ->
  String.length (zfill w (str_of_nat n)) = w /\ all_digits (zfill w (str_of_nat n)) = true /\
  dval (zfill w (str_of_nat n)) = n.
Proof.
  intros Hw Hn. pose proof (digits_of_length (digit_fuel n) n "" w Hw Hn) as Hlen.
  assert (Hs : all_digits (str_of_nat n) = true) by (apply digits_of_all_digits; [lia|done]).
  assert (Hv : dval (str_of_nat n) = n).
  { pose proof (parse_nat_str n ltac:(lia)) as Hp.
    rewrite parse_nat_nonempty, parse_digits_dval in Hp by (done || (apply str_of_nat_nonempty; lia)).
    injection Hp. lia. }
  unfold zfill. destruct (zeros_props (w - String.length (str_of_nat n)) (str_of_nat n)) as (Hl & Ha & Hd).
  fold (str_of_nat n) in Hlen. cbn [String.length] in Hlen.
  rewrite str_length_app, all_digits_app, Hl, Ha, Hs, Hd, Hv. split; [lia|done].
Qed.

Lemma days_in_month_le y m : days_in_month y m <= 31.
Proof. unfold days_in_month. repeat case_match; lia. Qed.

(** Two zero-padded fields of the same width compare as their values. *)
Lemma compare_field w a b t1 t2 :
  (1 <= w)%nat -> 0 <= a < 10 ^ Z.of_nat w -> 0 <= b < 10 ^ Z.of_nat w ->
  String.compare (zfill w (str_of_nat a) ++ t1) (zfill w (str_of_nat b) ++ t2) =
  match Z.compare a b with Eq => String.compare t1 t2 | c => c end.
Proof.
  intros Hw Ha Hb. destruct (field_props w a Hw Ha) as (La & Aa & Va), (field_props w b Hw Hb) as (Lb & Ab & Vb).
  rewrite compare_digits by congruence. by rewrite Va, Vb.
Qed.

Section OrderProperties.

(** C24. The stored date texts sort as the dates: for valid dates with
    four-digit years, comparing the two [strftime("%Y-%m-%d")] texts
    character by character gives the same result as comparing the
    dates (year, then month, then day); so [ORDER BY date] on the
    [events] table is chronological order. *)
Theorem strftime_ymd_order d1 d2 :
  valid_date d1 = true -> valid_date d2 = true -> 1000 <= year d1 -> 1000 <= year d2 ->
  String.compare (strftime_ymd d1) (strftime_ymd d2) = date_compare d1 d2.
Proof.
  intros H1 H2 _ _.
  destruct (valid_date_bounds d1 H1) as (Hy1 & Hm1 & Hd1), (valid_date_bounds d2 H2) as (Hy2 & Hm2 & Hd2).
  pose proof (days_in_month_le (year d1) (month d1)). pose proof (days_in_month_le (year d2) (month d2)).
  unfold strftime_ymd, date_compare.
  rewrite compare_field by (cbn; lia). destruct (year d1 ?= year d2); [|done|done].
  rewrite !dash_app. cbn [String.compare]. change (Ascii.compare "-" "-") with Eq. cbn iota.
  rewrite compare_field by (cbn; lia). destruct (month d1 ?= month d2); [|done|done].
  cbn [String.compare]. change (Ascii.compare "-" "-") with Eq. cbn iota.
  rewrite <- (str_app_nil_r (zfill 2 (str_of_nat (day d1)))), <- (str_app_nil_r (zfill 2 (str_of_nat (day d2)))).
  rewrite compare_field by (cbn; lia). by destruct (day d1 ?= day d2).
Qed.

End OrderProperties.

Lemma strftime_ymd_order_witness :
  (valid_date (mk_date 2024 12 31) = true /\ valid_date (mk_date 2025 3 1) = true /\
   1000 <= year (mk_date 2024 12 31) /\ 1000 <= year (mk_date 2025 3 1)) /\
  String.compare (strftime_ymd (mk_date 2024 12 31)) (strftime_ymd (mk_date 2025 3 1)) =
  date_compare (mk_date 2024 12 31) (mk_date 2025 3 1).
Proof.
  assert (H : valid_date (mk_date 2024 12 31) = true /\ valid_date (mk_date 2025 3 1) = true /\
              1000 <= year (mk_date 2024 12 31) /\ 1000 <= year (mk_date 2025 3 1))
    by (split; [reflexivity|]; split; [reflexivity|]; cbn; lia).
  split; [exact H|]. destruct H as (H1 & H2 & H3 & H4). apply (strftime_ymd_order _ _ H1 H2 H3 H4).
Defined.

End DateOrder.
