(* ===== verification/Fitness.v ===== *)
(** * [fitness_tracker] (src lines 34-46)

    The step counter: a number input, a button, and when the button was
    pressed in this run the calories burnt ([steps * 0.04] printed with
    two decimals) and the comparison with the goal of 8000 steps.  The
    widget values of the run are the arguments: [steps] is what the
    [number_input] (with [min_value=0]) returns, [track] what the button
    returns. *)

From S2P Require Import Prelude PyText PyFloat Sqlite Streamlit.

Module Fitness.

Import PyText PyFloat Sqlite Streamlit.
Local Open Scope py_scope.
Local Open Scope string_scope.

Definition IDEAL_STEPS : Z := 8000.
Definition CALORIES_PER_STEP : float64 := float_0_04.

Definition steps_label : string := "Enter the number of steps you walked today:".

Definition calories_message (calories_burnt : float64) : string :=
  "You burned approximately " ++ format_2f calories_burnt ++ " calories today.".

Definition shortfall_message (shortfall : Z) : string :=
  "You walked " ++ str_of_int shortfall ++ " steps less than the ideal goal of "
    ++ str_of_int IDEAL_STEPS ++ ".".

Definition goal_met_message : string :=
  "Great job! You met or exceeded your step goal for the day!".

Definition fitness_tracker (steps : Z) (track : bool) : py app unit :=
  emit (StNumberInput steps_label 0) ;;
  emit (StButton "Track Steps") ;;
  if track then
    let calories_burnt := fmul (float_of_int steps) CALORIES_PER_STEP in
    emit (StSuccess (calories_message calories_burnt)) ;;
    if (steps <? IDEAL_STEPS)%Z then
      let shortfall := (IDEAL_STEPS - steps)%Z in
      emit (StWarning (shortfall_message shortfall))
    else emit (StSuccess goal_met_message)
  else py_ret tt.

(** The exact decimal of [steps * 0.04], as a person would write it. *)
Definition exact_calories (steps : Z) : string := fixed2 (4 * steps).

(** The elements a pressed button adds after the two widgets. *)
Definition tracked_elems (steps : Z) (shown : string) : list st_elem :=
  [StSuccess ("You burned approximately " ++ shown ++ " calories today.");
   if (steps <? IDEAL_STEPS)%Z then StWarning (shortfall_message (IDEAL_STEPS - steps))
   else StSuccess goal_met_message].

Lemma fitness_tracker_run steps track a :
  fitness_tracker steps track a =
  (Ret tt, mk_app (app_world a)
     (app_page a ++ [StNumberInput steps_label 0; StButton "Track Steps"] ++
      (if track then tracked_elems steps (format_2f (fmul (float_of_int steps) CALORIES_PER_STEP))
       else []))).
Proof.
  destruct a as [w p]. unfold fitness_tracker, py_bind, emit, py_ret. cbn.
  rewrite <- !app_assoc. destruct track; [|done].
  unfold tracked_elems. destruct (steps <? IDEAL_STEPS)%Z; cbn; by rewrite <- !app_assoc.
Qed.

Section FitnessProperties.

(** C6. With the button pressed and [0 <= steps <= 9 * 10^14],
    [fitness_tracker] renders the two widgets, the calories as the exact
    decimal of [steps * 0.04] (the binary64 product rounds to it), then
    the shortfall warning when [steps < 8000] and the success message
    otherwise; the database is untouched. *)
Theorem fitness_tracker_clicked steps a :
  (0 <= steps <= 9 * 10 ^ 14)%Z ->
  fitness_tracker steps true a =
  (Ret tt, mk_app (app_world a)
     (app_page a ++ [StNumberInput steps_label 0; StButton "Track Steps"] ++
      tracked_elems steps (exact_calories steps))).
Proof.
  intros Hs. rewrite fitness_tracker_run. unfold format_2f, exact_calories, CALORIES_PER_STEP.
  by rewrite mul_0_04_hundredths.
Qed.

(** C16. Below the goal, the warning the pressed button renders
    carries the true shortfall: the page ends with the calorie message
    and a warning whose number reads back as [8000 - steps], which is
    positive, so the steps and the shortfall add up to the goal. *)
Theorem fitness_shortfall_shown steps a :
  (steps < IDEAL_STEPS)%Z ->
  exists shown txt, fitness_tracker steps true a =
    (Ret tt, mk_app (app_world a)
       (app_page a ++ [StNumberInput steps_label 0; StButton "Track Steps"; StSuccess shown;
         StWarning ("You walked " ++ txt ++ " steps less than the ideal goal of 8000.")])) /\
    PyText.parse_int txt = Some (IDEAL_STEPS - steps)%Z /\ (0 < IDEAL_STEPS - steps)%Z.
Proof.
  intros H. rewrite fitness_tracker_run. unfold tracked_elems.
  rewrite (proj2 (Z.ltb_lt _ _) H).
  eexists _, (str_of_int (IDEAL_STEPS - steps)). split; [reflexivity|].
  split; [apply parse_int_str|lia].
Qed.

End FitnessProperties.

(** Past the proved bound the display is not the exact value: for
    the largest integer the widget accepts, [2^53 - 1] steps, the page
    shows [360287970189639.62] calories where [steps * 0.04] is
    [360287970189639.64]. *)
Example fitness_calories_inexact_large :
  format_2f (fmul (float_of_int (2 ^ 53 - 1)) CALORIES_PER_STEP) = "360287970189639.62" /\
  exact_calories (2 ^ 53 - 1) = "360287970189639.64".
Proof. split; vm_compute; reflexivity. Qed.

(** Witnesses. *)

Definition app0 : app := mk_app (mk_world None 0) [].

Lemma fitness_tracker_clicked_witness :
  fitness_tracker 5000 true app0 =
  (Ret tt, mk_app (mk_world None 0)
     ([StNumberInput steps_label 0; StButton "Track Steps"] ++
      [StSuccess "You burned approximately 200.00 calories today.";
       StWarning "You walked 3000 steps less than the ideal goal of 8000."])).
Proof. apply (fitness_tracker_clicked 5000 app0). lia. Defined.

Lemma fitness_shortfall_shown_witness :
  (7999 < IDEAL_STEPS)%Z /\
  exists shown txt, fitness_tracker 7999 true app0 =
    (Ret tt, mk_app (app_world app0)
       (app_page app0 ++ [StNumberInput steps_label 0; StButton "Track Steps"; StSuccess shown;
         StWarning ("You walked " ++ txt ++ " steps less than the ideal goal of 8000.")])) /\
    PyText.parse_int txt = Some (IDEAL_STEPS - 7999)%Z /\ (0 < IDEAL_STEPS - 7999)%Z.
Proof.
  assert (H : (7999 < IDEAL_STEPS)%Z) by (vm_compute; reflexivity).
  split; [exact H|]. exact (fitness_shortfall_shown 7999 app0 H).
Defined.

End Fitness.
