(* ===== verification/Mood.v ===== *)
(** * [label_map] and [mental_wellness] (src lines 12-16 and 49-63)

    A text input and a button; when the button was pressed and the text
    is not empty, the pretrained pipeline classifies the text, its first
    result's label is mapped through [label_map] with the default
    ["Unknown"], and the page shows the mood, the confidence with two
    decimals and one of three advice messages.  The pipeline is opaque:
    [sentiment_model] is a section variable returning the list of results
    the Hugging Face pipeline returns. *)

From S2P Require Import Prelude PyText PyFloat Sqlite Streamlit.

Module Mood.

Import PyFloat Sqlite Streamlit.
Local Open Scope py_scope.
Local Open Scope string_scope.

(** One result of the pipeline: [{"label": ..., "score": ...}]. *)
Record pipe_result := mk_result { res_label : string; res_score : float64 }.

(** The dictionary of line 12. *)
Definition label_map : gmap string string :=
  {[ "LABEL_0" := "Negative"; "LABEL_1" := "Neutral"; "LABEL_2" := "Positive" ]}.

(** [d.get(k, default)] *)
Definition dict_get (d : gmap string string) (k dflt : string) : string :=
  default dflt (d !! k).

Definition mood_label : string := "How are you feeling today?".
Definition negative_advice : string := "Consider taking a break, talking to a friend, or going for a walk. ðŸ’›".
Definition neutral_advice : string := "You're feeling neutral. Try something uplifting like music or a hobby. ðŸ˜Š".
Definition positive_advice : string := "Glad to hear you're feeling positive! Keep it up! ðŸŒŸ".
Definition empty_error : string := "Please enter your mood to analyze.".

Definition mood_line (sentiment : string) (score : float64) : string :=
  "**Mood detected:** " ++ sentiment ++ " (Confidence: " ++ format_2f score ++ ")".

(** The advice for a sentiment: the [if/elif/else] of lines 56-61. *)
Definition advice (sentiment : string) : st_elem :=
  if String.eqb sentiment "Negative" then StWarning negative_advice
  else if String.eqb sentiment "Neutral" then StInfo neutral_advice
  else StSuccess positive_advice.

Section WithModel.

Variable sentiment_model : string -> list pipe_result.

Definition mental_wellness (user_input : string) (check : bool) : py app unit :=
  emit (StTextInput mood_label) ;;
  emit (StButton "Check Mood") ;;
  if check then
    if negb (String.eqb user_input "") then
      match sentiment_model user_input with
      | [] => py_raise (IndexError "list index out of range")
      | result :: _ =>
          let sentiment := dict_get label_map (res_label result) "Unknown" in
          emit (StWrite (mood_line sentiment (res_score result))) ;;
          emit (advice sentiment)
      end
    else emit (StError empty_error)
  else py_ret tt.

Lemma mental_wellness_run user_input check a :
  mental_wellness user_input check a =
  let widgets := (app_page a ++ [StTextInput mood_label; StButton "Check Mood"])%list in
  if negb check then (Ret tt, mk_app (app_world a) widgets)
  else if String.eqb user_input "" then
    (Ret tt, mk_app (app_world a) (widgets ++ [StError empty_error])%list)
  else match sentiment_model user_input with
       | [] => (Exc (IndexError "list index out of range"), mk_app (app_world a) widgets)
       | result :: _ =>
           let sentiment := dict_get label_map (res_label result) "Unknown" in
           (Ret tt, mk_app (app_world a)
              (widgets ++ [StWrite (mood_line sentiment (res_score result)); advice sentiment])%list)
       end.
Proof.
  destruct a as [w p]. unfold mental_wellness, py_bind, emit, py_ret, py_raise. cbn.
  rewrite <- !app_assoc. destruct check; [|done]. cbn.
  destruct (String.eqb user_input ""); cbn; [by rewrite <- !app_assoc|].
  destruct (sentiment_model user_input); [done|]. cbn. by rewrite <- !app_assoc.
Qed.

(** The three classes of the model and what the page shows for each. *)
Definition label_table : list (string * string * st_elem) :=
  [("LABEL_0", "Negative", StWarning negative_advice);
   ("LABEL_1", "Neutral", StInfo neutral_advice);
   ("LABEL_2", "Positive", StSuccess positive_advice)].

Lemma label_table_get lbl mood adv :
  (lbl, mood, adv) ∈ label_table ->
  dict_get label_map lbl "Unknown" = mood /\ advice mood = adv.
Proof.
  unfold label_table. rewrite !elem_of_cons, elem_of_nil.
  intros [H|[H|[H|[]]]]; injection H as -> -> ->; split; reflexivity.
Qed.

Section MoodProperties.

(** C13. For each of the model's three labels the page shows the mapped
    mood with the confidence and the matching advice: a warning for
    Negative, an info box for Neutral, a success box for Positive. *)
Theorem mental_wellness_known_label text a r rest lbl mood adv :
  text <> "" -> sentiment_model text = r :: rest -> res_label r = lbl ->
  (lbl, mood, adv) ∈ label_table ->
  mental_wellness text true a =
  (Ret tt, mk_app (app_world a)
     (app_page a ++ [StTextInput mood_label; StButton "Check Mood";
                     StWrite (mood_line mood (res_score r)); adv])).
Proof.
  intros Ht Hm <- Hin. destruct (label_table_get _ _ _ Hin) as [Hmood Hadv].
  rewrite mental_wellness_run. cbn [negb]. apply String.eqb_neq in Ht. rewrite Ht, Hm.
  cbn zeta. rewrite Hmood, Hadv. by rewrite <- app_assoc.
Qed.

(** C14. A label outside [label_map] is shown as "Unknown" and falls
    through the [if/elif/else] to the positive advice: the page tells the
    user they feel positive although the mood is unknown. *)
Theorem mental_wellness_unknown_label text a r rest :
  text <> "" -> sentiment_model text = r :: rest -> label_map !! res_label r = None ->
  mental_wellness text true a =
  (Ret tt, mk_app (app_world a)
     (app_page a ++ [StTextInput mood_label; StButton "Check Mood";
                     StWrite (mood_line "Unknown" (res_score r)); StSuccess positive_advice])).
Proof.
  intros Ht Hm Hl. rewrite mental_wellness_run. cbn [negb].
  apply String.eqb_neq in Ht. rewrite Ht, Hm. cbn zeta. unfold dict_get. rewrite Hl.
  by rewrite <- app_assoc.
Qed.

(** C17. An empty text with the button pressed shows the error message
    and does not call the model; the database is untouched. *)
Theorem mental_wellness_empty_text a :
  mental_wellness "" true a =
  (Ret tt, mk_app (app_world a)
     (app_page a ++ [StTextInput mood_label; StButton "Check Mood"; StError empty_error])).
Proof. rewrite mental_wellness_run. cbn. by rewrite <- app_assoc. Qed.

(** C18. Error path: if the pipeline returned no result, [[0]] raises
    [IndexError] after the two widgets are rendered. *)
Theorem mental_wellness_no_result text a :
  text <> "" -> sentiment_model text = [] ->
  mental_wellness text true a =
  (Exc (IndexError "list index out of range"),
   mk_app (app_world a) (app_page a ++ [StTextInput mood_label; StButton "Check Mood"])).
Proof.
  intros Ht Hm. rewrite mental_wellness_run. cbn [negb].
  apply String.eqb_neq in Ht. by rewrite Ht, Hm.
Qed.

End MoodProperties.

End WithModel.

(** Witnesses, with a stand-in model answering one fixed result. *)

Definition model_fixed (lbl : string) : string -> list pipe_result :=
  fun _ => [mk_result lbl (mk_float 7 (-3))].

Definition app0 : app := mk_app (mk_world None 0) [].

Lemma mental_wellness_known_label_witness :
  mental_wellness (model_fixed "LABEL_0") "sad" true app0 =
  (Ret tt, mk_app (mk_world None 0)
     ([] ++ [StTextInput mood_label; StButton "Check Mood";
             StWrite (mood_line "Negative" (mk_float 7 (-3))); StWarning negative_advice])).
Proof.
  apply (mental_wellness_known_label (model_fixed "LABEL_0") "sad" app0
           (mk_result "LABEL_0" (mk_float 7 (-3))) [] "LABEL_0");
    [discriminate | reflexivity | reflexivity | vm_compute; left].
Defined.

Lemma mental_wellness_unknown_label_witness :
  mental_wellness (model_fixed "LABEL_3") "meh" true app0 =
  (Ret tt, mk_app (mk_world None 0)
     ([] ++ [StTextInput mood_label; StButton "Check Mood";
             StWrite (mood_line "Unknown" (mk_float 7 (-3))); StSuccess positive_advice])).
Proof.
  apply (mental_wellness_unknown_label (model_fixed "LABEL_3") "meh" app0
           (mk_result "LABEL_3" (mk_float 7 (-3))) []);
    [discriminate | reflexivity | vm_compute; reflexivity].
Defined.

Lemma mental_wellness_no_result_witness :
  mental_wellness (fun _ => []) "hello" true app0 =
  (Exc (IndexError "list index out of range"),
   mk_app (mk_world None 0) ([] ++ [StTextInput mood_label; StButton "Check Mood"])).
Proof. apply (mental_wellness_no_result (fun _ => []) "hello" app0); [discriminate | reflexivity]. Defined.

End Mood.
