(* ===== verification/Reminder.v ===== *)
(** * [birthday_reminder] (src lines 74-84)

    A form with a date input, a name, a selectbox of the two event types
    and a slider from 0 to 1440 minutes (default 60).  When the form is
    submitted, the date is formatted with [strftime("%Y-%m-%d")], the
    event is saved with [save_event], and a success message follows.  The
    form values are the arguments; their widget contract is [form_ok]
    (the name is any text, the empty one included). *)

From S2P Require Import Prelude PyText Sqlite EventStore Streamlit Dates.

Module Reminder.

Import Sqlite EventStore Streamlit Dates.
Local Open Scope py_scope.

Definition event_types : list string := ["Birthday"; "Anniversary"].

Definition form_elems : list st_elem :=
  [StForm "event_form"; StDateInput "Select date of event"; StTextInput "Person's Name";
   StSelectbox "Type of Event" event_types;
   StSlider "Reminder before event (in minutes)" 0 1440 60; StFormSubmit "Save Event"].

Definition success_message (event_type name : string) : string :=
  (event_type ++ " for " ++ name ++ " saved successfully!")%string.

Definition birthday_reminder (event_date : date) (name event_type : string)
    (reminder_minutes : Z) (submit : bool) : py app unit :=
  emit (StForm "event_form") ;;
  emit (StDateInput "Select date of event") ;;
  emit (StTextInput "Person's Name") ;;
  emit (StSelectbox "Type of Event" event_types) ;;
  emit (StSlider "Reminder before event (in minutes)" 0 1440 60) ;;
  emit (StFormSubmit "Save Event") ;;
  if submit then
    on_world (save_event (PyStr (strftime_ymd event_date)) (PyStr name) (PyStr event_type)
                         (PyInt reminder_minutes)) ;;
    emit (StSuccess (success_message event_type name))
  else py_ret tt.

(** What the widgets can return: a valid date, one of the two types, a
    slider value in [0, 1440]. *)
Definition form_ok (d : date) (event_type : string) (reminder : Z) : Prop :=
  valid_date d = true /\ event_type ∈ event_types /\ 0 <= reminder <= 1440.

(** A stored event as the form produces it: a [YYYY-MM-DD] text of a
    valid date, a text name, a known type, a reminder in [0, 1440]. *)
Definition event_okb (e : event) : bool :=
  match ev_date e, ev_name e, ev_type e, ev_reminder e with
  | SqlText s, SqlText _, SqlText t, SqlInteger r =>
      match parse_ymd s with
      | Some d => valid_date d && String.eqb (strftime_ymd d) s
      | None => false
      end && bool_decide (t ∈ event_types) && (0 <=? r) && (r <=? 1440)
  | _, _, _, _ => false
  end.

Lemma birthday_reminder_run d nm t r submit a :
  birthday_reminder d nm t r submit a =
  if submit then
    match save_event (PyStr (strftime_ymd d)) (PyStr nm) (PyStr t) (PyInt r) (app_world a) with
    | (Ret _, w') => (Ret tt, mk_app w' (app_page a ++ form_elems ++ [StSuccess (success_message t nm)]))
    | (Exc e, w') => (Exc e, mk_app w' (app_page a ++ form_elems))
    end
  else (Ret tt, mk_app (app_world a) (app_page a ++ form_elems)).
Proof.
  destruct a as [w p]. unfold birthday_reminder, py_bind, emit, py_ret.
  cbn -[save_event on_world]. destruct submit; [|by rewrite <- !app_assoc].
  rewrite on_world_run. cbn -[save_event].
  destruct (save_event (PyStr (strftime_ymd d)) (PyStr nm) (PyStr t) (PyInt r) w) as [o w'].
  destruct o; cbn; by rewrite <- !app_assoc.
Qed.

Lemma event_okb_form i d nm t r :
  form_ok d t r ->
  event_okb (mk_event i (SqlText (strftime_ymd d)) (SqlText nm) (SqlText t) (SqlInteger r)) = true.
Proof.
  intros (Hd & Ht & Hr). unfold event_okb. cbn [ev_date ev_name ev_type ev_reminder].
  rewrite parse_strftime, Hd, String.eqb_refl, bool_decide_eq_true_2 by done.
  cbn. apply andb_true_iff. split; apply Z.leb_le; lia.
Qed.

Lemma form_ok_int64 d t r : form_ok d t r -> in_int64 r = true.
Proof. intros (_ & _ & Hr). apply in_int64_spec. unfold INT64_MIN, INT64_MAX. lia. Qed.

Section ReminderProperties.

(** C5. A submitted form with values the widgets can return, on a
    well-formed store of [n] events, renders the form and the success
    message, leaves no connection open, and stores exactly one new event
    with identity [n + 1]: the [YYYY-MM-DD] text of the date, the name
    (possibly empty), the type and the reminder, an event that passes
    [event_okb]. *)
Theorem birthday_reminder_submit d nm t r a evs :
  form_ok d t r -> abs_world (app_world a) evs -> Z.of_nat (length evs) < INT64_MAX ->
  let ev := mk_event (Z.of_nat (length evs) + 1) (SqlText (strftime_ymd d)) (SqlText nm)
                     (SqlText t) (SqlInteger r) in
  fst (birthday_reminder d nm t r true a) = Ret tt /\
  app_page (snd (birthday_reminder d nm t r true a)) =
    app_page a ++ form_elems ++ [StSuccess (success_message t nm)] /\
  w_open (app_world (snd (birthday_reminder d nm t r true a))) = w_open (app_world a) /\
  abs_world (app_world (snd (birthday_reminder d nm t r true a))) (evs ++ [ev]) /\
  event_okb ev = true.
Proof.
  intros Hf Habs Hmax ev. rewrite birthday_reminder_run.
  destruct (save_event_step _ _ _ _ _ _ _ _ _ _ Habs Hmax
              (bind_values_str_int (strftime_ymd d) nm t r (form_ok_int64 d t r Hf)))
    as (H1 & H2 & H3).
  destruct (save_event (PyStr (strftime_ymd d)) (PyStr nm) (PyStr t) (PyInt r) (app_world a))
    as [o w'] eqn:E.
  cbn in H1, H2, H3. subst o. cbn. split; [done|]. split; [done|]. split; [done|].
  split; [exact H3|]. exact (event_okb_form (Z.of_nat (length evs) + 1) d nm t r Hf).
Qed.

(** C19. Without a submission the form is rendered and nothing is saved. *)
Theorem birthday_reminder_not_submitted d nm t r a :
  birthday_reminder d nm t r false a = (Ret tt, mk_app (app_world a) (app_page a ++ form_elems)).
Proof. by rewrite birthday_reminder_run. Qed.

End ReminderProperties.

(** Witness: an empty name is accepted and stored. *)
Lemma birthday_reminder_submit_witness :
  let a := mk_app w_fresh [] in
  let ev := mk_event (Z.of_nat (length ([] : list event)) + 1)
                     (SqlText (strftime_ymd (mk_date 2025 3 1))) (SqlText "")
                     (SqlText "Birthday") (SqlInteger 60) in
  fst (birthday_reminder (mk_date 2025 3 1) "" "Birthday" 60 true a) = Ret tt /\
  app_page (snd (birthday_reminder (mk_date 2025 3 1) "" "Birthday" 60 true a)) =
    app_page a ++ form_elems ++ [StSuccess (success_message "Birthday" "")] /\
  w_open (app_world (snd (birthday_reminder (mk_date 2025 3 1) "" "Birthday" 60 true a))) =
    w_open (app_world a) /\
  abs_world (app_world (snd (birthday_reminder (mk_date 2025 3 1) "" "Birthday" 60 true a))) ([] ++ [ev]) /\
  event_okb ev = true.
Proof.
  apply (birthday_reminder_submit (mk_date 2025 3 1) "" "Birthday" 60 (mk_app w_fresh []) []).
  - split; [reflexivity|]. split; [vm_compute; left|lia].
  - apply abs_world_fresh.
  - vm_compute. reflexivity.
Defined.

End Reminder.
