(* ===== verification/Dashboard.v ===== *)
(** * The script body: one run of the dashboard (src lines 31, 87-111)

    Every interaction re-runs the script: [init_db()] (line 31), the
    title, the radio of coaching types, then for Personal Coaching a
    category selectbox that dispatches to [fitness_tracker],
    [mental_wellness] or [birthday_reminder], for Professional Coaching
    three bullet lines, and the footer.  The widget values of the run
    form [ui_inputs]; [ui_ok] is what the widgets can return.  The
    database world is all that survives a run; [reachable] collects the
    worlds of any sequence of runs from a machine without [events.db].
    The store invariant is proved against [EventStoreContract]; the page
    theorems rest on [appends]: a run's page is [page_header], the
    branch's elements, then [page_footer] unless the branch raised. *)

From S2P Require Import Prelude PyText PyFloat Sqlite EventStore Streamlit Dates Fitness Mood Reminder.

Module Dashboard.

Import Sqlite EventStore Streamlit Dates Fitness Mood Reminder.
Local Open Scope py_scope.

Definition title_text : string := "ðŸ¤– AI-Powered Coach Dashboard".
Definition personal_header : string := "ðŸ“‹ Personal Coaching Categories".
Definition professional_header : string := "ðŸ“‹ Professional Coaching Categories".
Definition caption_text : string := "Built with â¤ï¸ using Streamlit".

Definition coaching_types : list string := ["Personal Coaching"; "Professional Coaching"].
(** What every run renders before the branch (lines 87-89) and after
    it (lines 110-111). *)
Definition page_header : list st_elem :=
  [StTitle title_text; StRadio "Select Coaching Type:" coaching_types].
Definition page_footer : list st_elem := [StMarkdown "---"; StCaption caption_text].

Definition categories : list string :=
  ["Select"; "Health & Fitness"; "Mental Wellness"; "Birthdays/Anniversaries Reminder"].

(** The values the widgets return in one run. *)
Record ui_inputs := mk_ui {
  ui_choice : string; ui_option : string;
  ui_steps : Z; ui_track : bool;
  ui_mood : string; ui_check : bool;
  ui_date : date; ui_name : string; ui_event_type : string; ui_reminder : Z; ui_submit : bool }.

(** The widget contracts: a radio and a selectbox return one of their
    options, [number_input(min_value=0)] an integer in [0, 2^53-1], the
    form's widgets what [form_ok] says. *)
Definition ui_ok (ui : ui_inputs) : Prop :=
  ui_choice ui ∈ coaching_types /\ ui_option ui ∈ categories /\
  0 <= ui_steps ui <= 2 ^ 53 - 1 /\ form_ok (ui_date ui) (ui_event_type ui) (ui_reminder ui).

(** ** The invariant of the persisted world, against the store contract *)

Section AgainstContract.

Context {init : py world unit}
        {save : py_value -> py_value -> py_value -> py_value -> py world unit}
        {absr : world -> list event -> Prop}
        `{!EventStoreContract init save absr}.

(** A store whose events are all valid form entries; no connection is
    left open unless the rowids are exhausted. *)
Definition store_inv (w : world) : Prop :=
  exists evs, absr w evs /\ Forall (fun e => event_okb e = true) evs /\
    (w_open w = 0%nat \/ INT64_MAX <= Z.of_nat (length evs)).

Lemma store_inv_init w :
  (w_disk w = None /\ w_open w = 0%nat) \/ store_inv w -> store_inv (snd (init w)).
Proof.
  intros [[Hd Ho]|(evs & Habs & Hall & Hopen)].
  - destruct (esc_init_creates w Hd) as (_ & Hw & Habs).
    exists []. split; [done|]. split; [constructor|]. left. by rewrite Hw.
  - rewrite (esc_init_keeps w evs Habs). by exists evs.
Qed.

Lemma store_inv_save d nm t r w :
  form_ok d t r -> store_inv w ->
  store_inv (snd (save (PyStr (strftime_ymd d)) (PyStr nm) (PyStr t) (PyInt r) w)).
Proof.
  intros Hf (evs & Habs & Hall & Hopen).
  pose proof (bind_values_str_int (strftime_ymd d) nm t r (form_ok_int64 _ _ _ Hf)) as Hb.
  destruct (Z.ltb_spec (Z.of_nat (length evs)) INT64_MAX) as [Hlt|Hge].
  - destruct (esc_save _ _ _ _ _ _ _ _ _ _ Habs Hlt Hb) as (_ & Hw & Habs').
    eexists. split; [exact Habs'|]. split.
    + apply Forall_app. split; [done|]. apply Forall_singleton.
      exact (event_okb_form _ d nm t r Hf).
    + left. rewrite Hw. destruct Hopen; [done|lia].
  - exists evs. split; [exact (esc_save_exhausted _ _ _ _ _ _ _ _ _ _ Habs Hge Hb)|].
    split; [done|right; lia].
Qed.

End AgainstContract.

(** The invariant for the SQLite store of the source. *)
Definition dash_inv : world -> Prop := @store_inv abs_world.

Section WithModel.

Variable sentiment_model : string -> list pipe_result.

Definition personal_coaching (ui : ui_inputs) : py app unit :=
  emit (StSubheader personal_header) ;;
  emit (StSelectbox "Choose a category" categories) ;;
  if String.eqb (ui_option ui) "Health & Fitness" then fitness_tracker (ui_steps ui) (ui_track ui)
  else if String.eqb (ui_option ui) "Mental Wellness" then
    mental_wellness sentiment_model (ui_mood ui) (ui_check ui)
  else if String.eqb (ui_option ui) "Birthdays/Anniversaries Reminder" then
    birthday_reminder (ui_date ui) (ui_name ui) (ui_event_type ui) (ui_reminder ui) (ui_submit ui)
  else py_ret tt.

Definition professional_coaching : py app unit :=
  emit (StSubheader professional_header) ;;
  emit (StWrite "- Reports generation") ;;
  emit (StWrite "- Meetings/Events Reminder") ;;
  emit (StWrite "- Project Deadlines Reminder").

Definition coaching (ui : ui_inputs) : py app unit :=
  if String.eqb (ui_choice ui) "Personal Coaching" then personal_coaching ui
  else if String.eqb (ui_choice ui) "Professional Coaching" then professional_coaching
  else py_ret tt.

Definition script_run (ui : ui_inputs) : py app unit :=
  on_world init_db ;;
  emit (StTitle title_text) ;;
  emit (StRadio "Select Coaching Type:" coaching_types) ;;
  coaching ui ;;
  emit (StMarkdown "---") ;;
  emit (StCaption caption_text).

(** One rerun: a fresh page over the persisted world. *)
Definition rerun (ui : ui_inputs) (w : world) : py_exc + unit * (world * list st_elem) :=
  let (o, a) := script_run ui (mk_app w []) in
  match o with
  | Ret u => inr (u, (app_world a, app_page a))
  | Exc e => inl e
  end.

Definition world_after (ui : ui_inputs) (w : world) : world :=
  app_world (snd (script_run ui (mk_app w []))).

Inductive reachable : world -> Prop :=
  | reach_start : reachable (mk_world None 0)
  | reach_rerun ui w : reachable w -> ui_ok ui -> reachable (world_after ui w).

(** Whether the run submits the event form. *)
Definition is_save (ui : ui_inputs) : bool :=
  String.eqb (ui_choice ui) "Personal Coaching" &&
  String.eqb (ui_option ui) "Birthdays/Anniversaries Reminder" && ui_submit ui.

Definition form_save (ui : ui_inputs) : py world unit :=
  save_event (PyStr (strftime_ymd (ui_date ui))) (PyStr (ui_name ui))
             (PyStr (ui_event_type ui)) (PyInt (ui_reminder ui)).

(** ** How a run acts on the world *)

Lemma fitness_keeps s t : keeps_world (fitness_tracker s t).
Proof. intros a. by rewrite fitness_tracker_run. Qed.

Lemma mood_keeps txt c : keeps_world (mental_wellness sentiment_model txt c).
Proof.
  intros a. rewrite mental_wellness_run. cbn zeta.
  destruct c; [|done]. destruct (String.eqb txt ""); [done|].
  by destruct (sentiment_model txt).
Qed.

Lemma professional_keeps : keeps_world professional_coaching.
Proof. unfold professional_coaching. auto with coach. Qed.

Lemma reminder_world d nm t r sub a :
  app_world (snd (birthday_reminder d nm t r sub a)) =
  if sub then snd (save_event (PyStr (strftime_ymd d)) (PyStr nm) (PyStr t) (PyInt r) (app_world a))
  else app_world a.
Proof.
  rewrite birthday_reminder_run. destruct sub; [|done].
  by destruct (save_event _ _ _ _ _) as [[]].
Qed.

Lemma coaching_world ui a :
  app_world (snd (coaching ui a)) =
  if is_save ui then snd (form_save ui (app_world a)) else app_world a.
Proof.
  unfold coaching, is_save, form_save.
  destruct (String.eqb (ui_choice ui) "Personal Coaching"); cbn [andb];
    [|destruct (String.eqb _ "Professional Coaching"); [apply professional_keeps|done]].
  unfold personal_coaching. rewrite !world_after_emit. cbn [app_world].
  destruct (String.eqb (ui_option ui) "Health & Fitness") eqn:E1.
  { rewrite fitness_keeps. destruct (String.eqb _ "Birthdays/Anniversaries Reminder") eqn:E2; [|done].
    apply String.eqb_eq in E1, E2. congruence. }
  destruct (String.eqb (ui_option ui) "Mental Wellness") eqn:E2.
  { rewrite mood_keeps. destruct (String.eqb _ "Birthdays/Anniversaries Reminder") eqn:E3; [|done].
    apply String.eqb_eq in E2, E3. congruence. }
  destruct (String.eqb (ui_option ui) "Birthdays/Anniversaries Reminder"); [|done].
  by rewrite reminder_world.
Qed.

Lemma world_after_spec ui w :
  world_after ui w =
  if is_save ui then snd (form_save ui (snd (init_db w))) else snd (init_db w).
Proof.
  unfold world_after, script_run.
  rewrite (world_after_keeps_bind (on_world init_db) _ _ tt (mk_app (snd (init_db w)) []))
    by (rewrite on_world_run, init_db_run; reflexivity).
  rewrite !world_after_emit. cbn [app_world].
  rewrite world_after_bind_keeps by (intros; auto with coach).
  apply coaching_world.
Qed.

(** ** The page of a run *)

Lemma fitness_appends s t : appends (fitness_tracker s t).
Proof. unfold fitness_tracker. solve_appends. Qed.

Lemma mood_appends txt c : appends (mental_wellness sentiment_model txt c).
Proof. unfold mental_wellness. solve_appends. Qed.

Lemma reminder_appends d nm t r sub : appends (birthday_reminder d nm t r sub).
Proof. unfold birthday_reminder. solve_appends. Qed.

#[local] Hint Resolve fitness_appends mood_appends reminder_appends : coach.

Lemma coaching_appends ui : appends (coaching ui).
Proof. unfold coaching, personal_coaching, professional_coaching. solve_appends. Qed.

(** ** The outcome of a run *)

Lemma outcome_after_emit {B} e (k : unit -> py app B) a :
  fst (py_bind (emit e) k a) = fst (k tt (mk_app (app_world a) (app_page a ++ [e]))).
Proof. reflexivity. Qed.

Lemma outcome_bind_emits {A} (c : py app A) e1 e2 a :
  fst (py_bind c (fun _ => py_bind (emit e1) (fun _ => emit e2)) a) =
  match fst (c a) with Ret _ => Ret tt | Exc e => Exc e end.
Proof. unfold py_bind. by destruct (c a) as [[x|e] a']. Qed.

Lemma coaching_outcome ui a :
  (forall txt, sentiment_model txt <> []) ->
  fst (coaching ui a) =
  if is_save ui then match fst (form_save ui (app_world a)) with
                     | Ret _ => Ret tt | Exc e => Exc e end
  else Ret tt.
Proof.
  intros Hm. unfold coaching, is_save, form_save.
  destruct (String.eqb (ui_choice ui) "Personal Coaching"); cbn [andb];
    [|destruct (String.eqb _ "Professional Coaching"); [done|done]].
  unfold personal_coaching. rewrite !outcome_after_emit.
  destruct (String.eqb (ui_option ui) "Health & Fitness") eqn:E1.
  { rewrite fitness_tracker_run. destruct (String.eqb _ "Birthdays/Anniversaries Reminder") eqn:E2; [|done].
    apply String.eqb_eq in E1, E2. congruence. }
  destruct (String.eqb (ui_option ui) "Mental Wellness") eqn:E2.
  { rewrite mental_wellness_run. destruct (String.eqb _ "Birthdays/Anniversaries Reminder") eqn:E3.
    { apply String.eqb_eq in E2, E3. congruence. }
    cbn zeta. destruct (ui_check ui); [|done]. destruct (String.eqb (ui_mood ui) ""); [done|].
    destruct (sentiment_model (ui_mood ui)) eqn:Hs; [by destruct (Hm _ Hs)|done]. }
  destruct (String.eqb (ui_option ui) "Birthdays/Anniversaries Reminder"); [|done].
  rewrite birthday_reminder_run. cbn [app_world]. destruct (ui_submit ui); [|done].
  by destruct (save_event _ _ _ _ _) as [[[]|e] w'].
Qed.

Lemma script_run_outcome ui w p :
  (forall txt, sentiment_model txt <> []) ->
  fst (script_run ui (mk_app w p)) =
  if is_save ui then match fst (form_save ui (snd (init_db w))) with
                     | Ret _ => Ret tt | Exc e => Exc e end
  else Ret tt.
Proof.
  intros Hm. unfold script_run. unfold py_bind at 1. rewrite on_world_run. cbn [app_world app_page].
  assert (Hi : fst (init_db w) = Ret tt) by (rewrite init_db_run; reflexivity).
  destruct (init_db w) as [o w0]. cbn in Hi. subst o. cbn [fst snd app_world app_page].
  rewrite !outcome_after_emit, outcome_bind_emits, coaching_outcome by done.
  cbn [app_world]. destruct (is_save ui); [|done].
  by destruct (fst (form_save ui w0)).
Qed.

(** A run is [init_db], the header, the branch on the world [init_db]
    leaves, and the footer when the branch returned. *)
Lemma script_run_split ui w :
  script_run ui (mk_app w []) =
  let '(o, a) := coaching ui (mk_app (snd (init_db w)) []) in
  match o with
  | Ret _ => (Ret tt, mk_app (app_world a) (page_header ++ app_page a ++ page_footer))
  | Exc e => (Exc e, mk_app (app_world a) (page_header ++ app_page a))
  end.
Proof.
  unfold script_run. unfold py_bind at 1. rewrite on_world_run. cbn [app_world app_page].
  assert (Hi : fst (init_db w) = Ret tt) by (rewrite init_db_run; reflexivity).
  destruct (init_db w) as [o w0]. cbn in Hi. subst o. cbn [fst snd app_world app_page].
  unfold py_bind. cbn [emit app_world app_page]. rewrite (coaching_appends ui w0).
  destruct (coaching ui (mk_app w0 [])) as [[[]|e] [w1 q]]; cbn; [|done].
  rewrite emit_run. cbn. by rewrite <- app_assoc.
Qed.

Section DashboardProperties.

(** C1. Invariant of every reachable world: after any sequence of
    runs with values the widgets can return, starting without
    [events.db], either no run happened yet or the file holds a
    well-formed store (identities [1..n], counter at [n]) whose every
    event is a valid form entry (a [YYYY-MM-DD] date, a known type, a
    reminder in [0, 1440]), and no connection is left open unless the
    rowids are exhausted. *)
Theorem reachable_invariant w : reachable w -> w = mk_world None 0 \/ dash_inv w.
Proof.
  induction 1 as [|ui w Hreach IH Hui]; [by left|right].
  destruct Hui as (_ & _ & _ & Hf). unfold dash_inv.
  assert (H0 : dash_inv (snd (init_db w))).
  { apply (store_inv_init (save := save_event)). destruct IH as [->|Hinv]; [by left|by right]. }
  rewrite world_after_spec. destruct (is_save ui); [|done].
  by apply (store_inv_save (init := init_db)).
Qed.

(** C20. A run ends without an exception when the pipeline answers every
    text: from a machine without [events.db], or from a well-formed store
    with fewer than [2^63-1] events, a run with values the widgets can
    return raises nothing. *)
Theorem script_run_returns ui w p :
  ui_ok ui -> (forall txt, sentiment_model txt <> []) ->
  (w = mk_world None 0 \/ exists evs, abs_world w evs /\ Z.of_nat (length evs) < INT64_MAX) ->
  fst (script_run ui (mk_app w p)) = Ret tt.
Proof.
  intros (_ & _ & _ & Hf) Hm Hw. rewrite script_run_outcome by done.
  destruct (is_save ui); [|done].
  assert (H0 : exists evs, abs_world (snd (init_db w)) evs /\ Z.of_nat (length evs) < INT64_MAX).
  { destruct Hw as [->|(evs & Habs & Hlt)].
    - exists []. split; [apply (init_db_creates (mk_world None 0) eq_refl)|pose proof INT64_MAX_pos; cbn; lia].
    - exists evs. destruct Habs as (db & rows & Hd & Hok & Hevs).
      rewrite (init_db_noop w db rows Hd Hok). split; [|done]. by exists db, rows. }
  destruct H0 as (evs & Habs & Hlt). unfold form_save.
  destruct (save_event_step _ _ _ _ _ _ _ _ _ _ Habs Hlt
              (bind_values_str_int (strftime_ymd (ui_date ui)) (ui_name ui) (ui_event_type ui)
                 (ui_reminder ui) (form_ok_int64 _ _ _ Hf))) as (Hret & _ & _).
  by rewrite Hret.
Qed.

(** C21. The page of a Professional Coaching run: title, radio, the
    professional subheader, the three bullet lines and the footer; the
    world is the one [init_db] leaves. *)
Theorem script_run_professional ui w :
  ui_choice ui = "Professional Coaching" ->
  script_run ui (mk_app w []) =
  (Ret tt, mk_app (snd (init_db w))
     [StTitle title_text; StRadio "Select Coaching Type:" coaching_types;
      StSubheader professional_header; StWrite "- Reports generation";
      StWrite "- Meetings/Events Reminder"; StWrite "- Project Deadlines Reminder";
      StMarkdown "---"; StCaption caption_text]).
Proof.
  intros Hc. unfold script_run, coaching, professional_coaching, py_bind, emit, on_world.
  rewrite Hc. cbn -[init_db].
  assert (Hi : fst (init_db w) = Ret tt) by (rewrite init_db_run; reflexivity).
  destruct (init_db w) as [o w0]. cbn in Hi. by subst o.
Qed.

(** C26. Error path of a whole run: on the Mental Wellness page with a
    nonempty text and the button clicked, if the pipeline returns no
    result the run raises [IndexError]; the page then holds the header,
    the category widgets and the mood widgets, and no footer. *)
Theorem script_run_mood_index_error ui w :
  ui_choice ui = "Personal Coaching" -> ui_option ui = "Mental Wellness" ->
  ui_check ui = true -> ui_mood ui <> "" -> sentiment_model (ui_mood ui) = [] ->
  script_run ui (mk_app w []) =
  (Exc (IndexError "list index out of range"),
   mk_app (snd (init_db w))
     (page_header ++ [StSubheader personal_header; StSelectbox "Choose a category" categories;
                      StTextInput mood_label; StButton "Check Mood"])).
Proof.
  intros Hc Ho Hk Ht Hm. rewrite script_run_split.
  unfold coaching, personal_coaching. rewrite Hc, Ho, Hk. cbn -[mental_wellness init_db].
  rewrite mental_wellness_run. apply String.eqb_neq in Ht. cbn [negb]. rewrite Ht, Hm. done.
Qed.

(** C32. The page of a Personal Coaching run before any button: with
    no click and no submission, the run returns, changes nothing but
    what [init_db] does, and the page holds the header, the category
    subheader and selectbox, exactly the widgets of the chosen category
    (the step input and its button, the mood input and its button, the
    six widgets of the event form, nothing for "Select"), and the
    footer. *)
Theorem script_run_personal_view ui w :
  ui_choice ui = "Personal Coaching" -> ui_track ui = false -> ui_check ui = false ->
  ui_submit ui = false ->
  script_run ui (mk_app w []) =
  (Ret tt, mk_app (snd (init_db w))
     (page_header ++ [StSubheader personal_header; StSelectbox "Choose a category" categories] ++
      (if String.eqb (ui_option ui) "Health & Fitness" then [StNumberInput steps_label 0; StButton "Track Steps"]
       else if String.eqb (ui_option ui) "Mental Wellness" then [StTextInput mood_label; StButton "Check Mood"]
       else if String.eqb (ui_option ui) "Birthdays/Anniversaries Reminder" then form_elems
       else []) ++ page_footer)).
Proof.
  intros Hc Ht Hk Hs. rewrite script_run_split. unfold coaching, personal_coaching. rewrite Hc.
  cbn -[fitness_tracker mental_wellness birthday_reminder init_db].
  destruct (String.eqb (ui_option ui) "Health & Fitness"); [by rewrite fitness_tracker_run, Ht|].
  destruct (String.eqb (ui_option ui) "Mental Wellness"); [by rewrite mental_wellness_run, Hk|].
  destruct (String.eqb (ui_option ui) "Birthdays/Anniversaries Reminder"); [by rewrite birthday_reminder_run, Hs|].
  done.
Qed.

End DashboardProperties.

End WithModel.

(** Witness: one run that saves Asha's birthday, from no file. *)
Definition ui_asha : ui_inputs :=
  mk_ui "Personal Coaching" "Birthdays/Anniversaries Reminder" 0 false "" false
        (mk_date 2025 3 1) "Asha" "Birthday" 60 true.

Lemma ui_asha_ok : ui_ok ui_asha.
Proof.
  split; [vm_compute; left|]. split; [vm_compute; right; right; right; left|].
  split; [cbn; lia|].
  split; [reflexivity|]. split; [vm_compute; left|cbn; lia].
Qed.

Lemma reachable_invariant_witness :
  let w := world_after (fun _ => []) ui_asha (mk_world None 0) in
  w = mk_world None 0 \/ dash_inv w.
Proof.
  apply (reachable_invariant (fun _ => [])). apply reach_rerun; [constructor|apply ui_asha_ok].
Defined.

Lemma script_run_returns_witness :
  fst (script_run (fun _ => [mk_result "LABEL_1" (PyFloat.mk_float 1 0)]) ui_asha
         (mk_app (mk_world None 0) [])) = Ret tt.
Proof.
  apply script_run_returns; [apply ui_asha_ok|intros _; discriminate|by left].
Defined.

Lemma script_run_professional_witness :
  let ui := mk_ui "Professional Coaching" "Select" 0 false "" false
                  (mk_date 2025 3 1) "" "Birthday" 60 false in
  script_run (fun _ => []) ui (mk_app (mk_world None 0) []) =
  (Ret tt, mk_app (snd (init_db (mk_world None 0)))
     [StTitle title_text; StRadio "Select Coaching Type:" coaching_types;
      StSubheader professional_header; StWrite "- Reports generation";
      StWrite "- Meetings/Events Reminder"; StWrite "- Project Deadlines Reminder";
      StMarkdown "---"; StCaption caption_text]).
Proof. apply script_run_professional. reflexivity. Defined.

Definition ui_sad : ui_inputs :=
  mk_ui "Personal Coaching" "Mental Wellness" 0 false "tired" true
        (mk_date 2025 3 1) "" "Birthday" 60 false.

Lemma script_run_mood_index_error_witness :
  script_run (fun _ => []) ui_sad (mk_app (mk_world None 0) []) =
  (Exc (IndexError "list index out of range"),
   mk_app (snd (init_db (mk_world None 0)))
     (page_header ++ [StSubheader personal_header; StSelectbox "Choose a category" categories;
                      StTextInput mood_label; StButton "Check Mood"])).
Proof. apply script_run_mood_index_error; [reflexivity|reflexivity|reflexivity|discriminate|reflexivity]. Defined.

Definition ui_mood_view : ui_inputs :=
  mk_ui "Personal Coaching" "Mental Wellness" 0 false "" false
        (mk_date 2025 3 1) "" "Birthday" 60 false.

Lemma script_run_personal_view_witness :
  (ui_choice ui_mood_view = "Personal Coaching"%string /\ ui_track ui_mood_view = false /\
   ui_check ui_mood_view = false /\ ui_submit ui_mood_view = false) /\
  script_run (fun _ => []) ui_mood_view (mk_app (mk_world None 0) []) =
  (Ret tt, mk_app (snd (init_db (mk_world None 0)))
     (page_header ++ [StSubheader personal_header; StSelectbox "Choose a category" categories] ++
      [StTextInput mood_label; StButton "Check Mood"] ++ page_footer)).
Proof.
  split; [repeat split|].
  exact (script_run_personal_view (fun _ => []) ui_mood_view (mk_world None 0)
           eq_refl eq_refl eq_refl eq_refl).
Defined.

End Dashboard.
