(* ===== verification/Session.v ===== *)
(** * Sessions: the sequence of reruns of the script

    Streamlit re-runs [src/ai_coach_dashboard.py] from line 1 on every
    interaction; [Dashboard.world_after] is one rerun.  A session is the
    list of widget values of its runs, first run first, and [run_trace]
    folds [world_after] over it.  The spec's view of a session is
    [spec_trace]: every run that submits the form applies the spec's
    save to the event list, every other run leaves it alone. *)

From S2P Require Import Prelude PyText Sqlite EventStore Streamlit Dates Mood Reminder Dashboard.

Module Session.

Import Sqlite EventStore Dates Mood Reminder Dashboard.

(** The values the form hands to [save_event] (src line 83), bound. *)
Definition form_values (ui : ui_inputs) : sql_value * sql_value * sql_value * sql_value :=
  (SqlText (strftime_ymd (ui_date ui)), SqlText (ui_name ui),
   SqlText (ui_event_type ui), SqlInteger (ui_reminder ui)).

(** The spec's effect of one run on the event list. *)
Definition spec_step (ui : ui_inputs) (evs : list event) : list event :=
  if is_save ui then
    let '(x1, x2, x3, x4) := form_values ui in spec_save x1 x2 x3 x4 evs
  else evs.

Fixpoint spec_trace (uis : list ui_inputs) (evs : list event) : list event :=
  match uis with
  | [] => evs
  | ui :: r => spec_trace r (spec_step ui evs)
  end.

Lemma spec_step_length ui evs :
  length (spec_step ui evs) = (length evs + if is_save ui then 1 else 0)%nat.
Proof.
  unfold spec_step, form_values, spec_save. destruct (is_save ui); [|lia].
  rewrite length_app. done.
Qed.

Lemma spec_trace_length uis evs :
  length (spec_trace uis evs) = (length evs + length (List.filter is_save uis))%nat.
Proof.
  revert evs. induction uis as [|ui r IH]; intros evs; [cbn; lia|].
  cbn [spec_trace]. rewrite IH, spec_step_length. cbn [List.filter].
  destruct (is_save ui); cbn [length]; lia.
Qed.

Section WithModel.

Variable sentiment_model : string -> list pipe_result.

(** The world after the runs [uis], first run first. *)
Fixpoint run_trace (uis : list ui_inputs) (w : world) : world :=
  match uis with
  | [] => w
  | ui :: r => run_trace r (world_after sentiment_model ui w)
  end.

(** A session on a machine without [events.db]. *)
Definition session (uis : list ui_inputs) : world := run_trace uis (mk_world None 0).

(** ** Lemmas *)

Lemma save_room ui r evs :
  Z.of_nat (length (spec_trace (ui :: r) evs)) <= INT64_MAX ->
  is_save ui = true -> Z.of_nat (length evs) < INT64_MAX.
Proof.
  rewrite spec_trace_length. cbn [List.filter]. intros H Hs. rewrite Hs in H.
  cbn [length] in H. lia.
Qed.

(** [init_db] on a machine without the file or on a well-formed store. *)
Lemma init_db_view w evs :
  (w_disk w = None /\ evs = []) \/ abs_world w evs ->
  abs_world (snd (init_db w)) evs /\ w_open (snd (init_db w)) = w_open w.
Proof.
  intros [[Hd ->]|Habs].
  - by destruct (init_db_creates w Hd) as (_ & Ho & Ha).
  - pose proof Habs as (db & rows & Hd & Hok & _).
    by rewrite (init_db_noop w db rows Hd Hok).
Qed.

(** One rerun refines [spec_step] and closes every connection it opens. *)
Lemma world_after_step ui w evs :
  ui_ok ui -> (w_disk w = None /\ evs = []) \/ abs_world w evs ->
  (is_save ui = true -> Z.of_nat (length evs) < INT64_MAX) ->
  abs_world (world_after sentiment_model ui w) (spec_step ui evs) /\
  w_open (world_after sentiment_model ui w) = w_open w.
Proof.
  intros (_ & _ & _ & Hf) Hw Hlt. destruct (init_db_view w evs Hw) as [Habs Ho].
  rewrite world_after_spec. unfold spec_step, form_values, form_save.
  destruct (is_save ui); [|done].
  destruct (save_event_step _ _ _ _ _ _ _ _ _ _ Habs (Hlt eq_refl)
              (bind_values_str_int (strftime_ymd (ui_date ui)) (ui_name ui) (ui_event_type ui)
                 (ui_reminder ui) (form_ok_int64 _ _ _ Hf))) as (_ & Ho' & Habs').
  split; [done|]. by rewrite Ho'.
Qed.

Lemma run_trace_abs uis w evs :
  Forall ui_ok uis -> abs_world w evs ->
  Z.of_nat (length (spec_trace uis evs)) <= INT64_MAX ->
  abs_world (run_trace uis w) (spec_trace uis evs) /\ w_open (run_trace uis w) = w_open w.
Proof.
  intros Hall. revert w evs. induction Hall as [|ui r Hui _ IH]; intros w evs Habs Hb; [done|].
  destruct (world_after_step ui w evs Hui (or_intror Habs) (save_room ui r evs Hb)) as [Habs' Ho].
  destruct (IH _ _ Habs' Hb) as [H1 H2]. cbn [run_trace]. split; [done|]. by rewrite H2.
Qed.

Lemma session_abs uis :
  uis <> [] -> Forall ui_ok uis -> Z.of_nat (length (spec_trace uis [])) <= INT64_MAX ->
  abs_world (session uis) (spec_trace uis []) /\ w_open (session uis) = 0%nat.
Proof.
  destruct uis as [|ui r]; [done|]. intros _ Hall Hb. inversion Hall as [|? ? Hui Hr]; subst.
  destruct (world_after_step ui (mk_world None 0) [] Hui (or_introl (conj eq_refl eq_refl))
              (save_room ui r [] Hb)) as [Habs Ho].
  destruct (run_trace_abs r _ _ Hr Habs Hb) as [H1 H2].
  split; [done|]. unfold session. cbn [run_trace]. by rewrite H2, Ho.
Qed.

End WithModel.

(** A run that only views the page. *)
Definition ui_view : ui_inputs :=
  mk_ui "Professional Coaching" "Select" 0 false "" false (mk_date 2025 3 1) "" "Birthday" 60 false.

Lemma ui_view_ok : ui_ok ui_view.
Proof.
  split; [vm_compute; right; left|]. split; [vm_compute; left|].
  split; [cbn; lia|]. split; [reflexivity|]. split; [vm_compute; left|cbn; lia].
Qed.

Lemma ui_view_no_save : is_save ui_view = false.
Proof. reflexivity. Qed.

Lemma filter_save_asha n : length (List.filter is_save (repeat ui_asha n)) = n.
Proof.
  induction n as [|n IH]; [done|]. cbn [repeat List.filter].
  change (is_save ui_asha) with true. cbn [length]. by rewrite IH.
Qed.

Lemma Forall_repeat_asha n : Forall ui_ok (repeat ui_asha n).
Proof. induction n; constructor; [apply ui_asha_ok|done]. Qed.

Section SessionProperties.

Variable sentiment_model : string -> list pipe_result.

(** C22. A session refines the spec's store: after a nonempty list of
    runs with widget values, as long as the spec's list stays within the
    rowid limit, the file holds a well-formed store whose events are the
    spec's list (each submitted form appended in order, with the next
    identity, every other run changing nothing), and no connection is
    left open. *)
Theorem session_refines uis :
  uis <> [] -> Forall ui_ok uis -> Z.of_nat (length (spec_trace uis [])) <= INT64_MAX ->
  abs_world (session sentiment_model uis) (spec_trace uis []) /\
  w_open (session sentiment_model uis) = 0%nat.
Proof. apply session_abs. Qed.

(** C23. The store keeps accepting events up to the rowid limit: for
    every [n <= 2^63-1] some session of runs with widget values ends
    with a well-formed store of exactly [n] events. *)
Theorem session_reaches_count n :
  Z.of_nat n <= INT64_MAX ->
  exists uis, Forall ui_ok uis /\
    exists evs, abs_world (session sentiment_model uis) evs /\ length evs = n.
Proof.
  intros Hn. exists (ui_view :: repeat ui_asha n).
  assert (Hlen : length (spec_trace (ui_view :: repeat ui_asha n) []) = n).
  { rewrite spec_trace_length. cbn [List.filter]. rewrite ui_view_no_save. apply filter_save_asha. }
  assert (Hall : Forall ui_ok (ui_view :: repeat ui_asha n)) by (constructor; [apply ui_view_ok|apply Forall_repeat_asha]).
  split; [done|]. exists (spec_trace (ui_view :: repeat ui_asha n) []). split; [|done].
  apply session_abs; [done|done|by rewrite Hlen].
Qed.

End SessionProperties.

Lemma session_refines_witness :
  ([ui_view; ui_asha] <> [] /\ Forall ui_ok [ui_view; ui_asha] /\
   Z.of_nat (length (spec_trace [ui_view; ui_asha] [])) <= INT64_MAX) /\
  (abs_world (session (fun _ => []) [ui_view; ui_asha]) (spec_trace [ui_view; ui_asha] []) /\
   w_open (session (fun _ => []) [ui_view; ui_asha]) = 0%nat).
Proof.
  assert (H : [ui_view; ui_asha] <> [] /\ Forall ui_ok [ui_view; ui_asha] /\
              Z.of_nat (length (spec_trace [ui_view; ui_asha] [])) <= INT64_MAX).
  { split; [discriminate|]. split; [constructor; [apply ui_view_ok|constructor; [apply ui_asha_ok|constructor]]|].
    vm_compute. discriminate. }
  split; [exact H|]. destruct H as (H1 & H2 & H3). apply (session_refines _ _ H1 H2 H3).
Defined.

Lemma session_reaches_count_witness :
  Z.of_nat 2 <= INT64_MAX /\
  exists uis, Forall ui_ok uis /\
    exists evs, abs_world (session (fun _ => []) uis) evs /\ length evs = 2%nat.
Proof.
  assert (H : Z.of_nat 2 <= INT64_MAX) by (vm_compute; discriminate).
  split; [exact H|]. apply (session_reaches_count _ 2 H).
Defined.

End Session.
